(** * Progress and completion state model of the LMS backend

    A shallow embedding of the lesson-progress methods
    ([progressSchema.methods], [progressSchema.statics]), of the enrollment
    methods ([enrollmentSchema.methods]) and of the two controllers that
    drive them ([updateLessonProgress], [generateCertificate]), followed by
    the properties of the progress/completion model proved over them.

    Conventions of the embedding.
    - Seconds, points, scores and timestamps are whole numbers ([Z]), of
      the size binary64 holds exactly (up to [2^53]).  A quotient and a
      product of numbers are the binary64 values of IEEE 754, as
      JavaScript computes them: the exact result rounded to the nearest
      value of 53 significant bits, a tie to the even one ([JS.double]);
      a division by zero yields [Infinity], [-Infinity] or [NaN], which
      is why stored percentages have type [JS.Number].
    - [new Date()] is an explicit argument of every operation that reads
      the clock.
    - An exception leaving a method is an explicit outcome; the in-memory
      document it leaves behind is kept.
    - [save()] (persistence, validation and the pre-save hook of
      [progressSchema], which stamps [lastAccessedAt]) is outside the
      model: the state is the in-memory document as the method body leaves
      it, and no property below is about [lastAccessedAt] of a progress
      document after a method. *)

From Stdlib Require Import ZArith QArith Qround Qpower Qreduction Lqa.
From Stdlib Require Import SpecFloat.
From Stdlib Require Import Bool List String Ascii.
From Stdlib Require Import DecimalString DecimalPos DecimalZ.
From Stdlib Require Import Sorted Permutation Lia.
Import ListNotations.

Local Open Scope Z_scope.
Set Warnings "-register-all".

(** ** JavaScript values used by the code *)

Module JS.

(** The result of a JavaScript arithmetic expression: a binary64 value,
    that is a finite one, given by the rational it stands for, or one of
    the three non-finite ones. *)
Inductive Real : Type :=
| RFin (q : Q)
| RPosInf
| RNegInf
| RNaN.

(** A stored number: a whole number or a non-finite double. *)
Inductive Number : Type :=
| Fin (z : Z)
| PosInf
| NegInf
| NaN.

(** The binade of a positive rational: the [k] with
    [2^k <= q < 2^(k+1)]. *)
Definition binade (q : Q) : Z :=
  let k := Z.log2 (Qnum q) - Z.log2 (Zpos (Qden q)) in
  if Qle_bool (2 ^ k) q then k else k - 1.

(** The nearest whole number, a tie going to the even one. *)
Definition nearestEven (q : Q) : Z :=
  let f := Qfloor q in
  match (q - inject_Z f ?= 1 # 2)%Q with
  | Lt => f
  | Gt => f + 1
  | Eq => if Z.even f then f else f + 1
  end.

(** The exponent of the last of the 53 bits of a positive rational; it
    stops at [-1074], where the subnormal numbers begin. *)
Definition exponent (q : Q) : Z := Z.max (binade q - 52) (-1074).

(** The multiple of [2^exponent] nearest to a positive rational. *)
Definition nearest (q : Q) : Q :=
  (inject_Z (nearestEven (q / 2 ^ exponent q)) * 2 ^ exponent q)%Q.

(** A positive rational rounded to binary64: [Infinity] from [2^1024]
    on. *)
Definition roundPositive (q : Q) : Real :=
  if Qle_bool (2 ^ 1024) (nearest q) then RPosInf
  else RFin (Qred (nearest q)).

Definition negate (x : Real) : Real :=
  match x with
  | RFin q => RFin (- q)
  | RPosInf => RNegInf
  | RNegInf => RPosInf
  | RNaN => RNaN
  end.

(** A rational rounded to binary64 (round to nearest, ties to even), the
    rounding of every arithmetic operation of JavaScript. *)
Definition double (q : Q) : Real :=
  match Qnum q with
  | 0 => RFin 0
  | Zpos _ => roundPositive q
  | Zneg _ => negate (roundPositive (- q))
  end.

Arguments roundPositive : simpl never.
Arguments double : simpl never.

(** [a / b] on whole numbers. *)
Definition div (a b : Z) : Real :=
  if b =? 0 then
    if 0 <? a then RPosInf else if a <? 0 then RNegInf else RNaN
  else double (inject_Z a / inject_Z b).

(** [x * 100]. *)
Definition times100 (x : Real) : Real :=
  match x with
  | RFin q => double (q * inject_Z 100)
  | RPosInf => RPosInf
  | RNegInf => RNegInf
  | RNaN => RNaN
  end.

(** [Math.round]: the nearest whole number, a half rounded towards
    [+Infinity]. *)
Definition Math_round (x : Real) : Number :=
  match x with
  | RFin q => Fin (Qfloor (q + (1 # 2)))
  | RPosInf => PosInf
  | RNegInf => NegInf
  | RNaN => NaN
  end.

(** [Math.round((n / d) * 100)], the expression by which the code
    computes every percentage. *)
Definition roundedPercent (n d : Z) : Number :=
  Math_round (times100 (div n d)).

(** [x <= y] on numbers; every comparison with [NaN] is false. *)
Definition leb (x y : Number) : bool :=
  match x, y with
  | NaN, _ | _, NaN => false
  | NegInf, _ => true
  | _, PosInf => true
  | Fin a, Fin b => a <=? b
  | _, _ => false
  end.

(** [x >= y]. *)
Definition geb (x y : Number) : bool := leb y x.

(** [x < y]. *)
Definition ltb (x y : Number) : bool :=
  match x, y with
  | NaN, _ | _, NaN => false
  | Fin a, Fin b => a <? b
  | NegInf, NegInf => false
  | NegInf, _ => true
  | PosInf, _ => false
  | Fin _, PosInf => true
  | Fin _, NegInf => false
  end.

(** [x > y]. *)
Definition gtb (x y : Number) : bool := ltb y x.

(** [Math.min(x, y)]: [NaN] if either argument is. *)
Definition Math_min (x y : Number) : Number :=
  match x, y with
  | NaN, _ | _, NaN => NaN
  | _, _ => if leb x y then x else y
  end.

(** [Math.max(x, y)]: [NaN] if either argument is. *)
Definition Math_max (x y : Number) : Number :=
  match x, y with
  | NaN, _ | _, NaN => NaN
  | _, _ => if leb x y then y else x
  end.

(** [Math.max(...xs)]: the maximum of the spread arguments, [-Infinity]
    when there is none. *)
Definition Math_max_spread (xs : list Number) : Number :=
  fold_left Math_max xs NegInf.

(** [v || d] for an optional whole number: [undefined] and [0] are
    falsy. *)
Definition orDefault (v : option Z) (d : Z) : Z :=
  match v with
  | Some z => if z =? 0 then d else z
  | None => d
  end.

(** Truthiness of an optional whole number. *)
Definition truthy (v : option Z) : bool :=
  match v with
  | Some z => negb (z =? 0)
  | None => false
  end.

(** The values a [Mixed] answer field or a JSON request body can hold
    (string, number, boolean, null, array), and a missing property. *)
Inductive Value : Type :=
| VUndefined
| VNull
| VBool (b : bool)
| VNum (z : Z)
| VStr (s : string)
| VArr (items : list Value).

Definition quote : string := String (ascii_of_nat 34) EmptyString.

Definition hexDigit (n : nat) : ascii :=
  if Nat.ltb n 10 then ascii_of_nat (48 + n) else ascii_of_nat (87 + n).

(** The escape of one character inside a JSON string literal. *)
Definition escapeChar (c : ascii) : string :=
  let n := nat_of_ascii c in
  if Nat.eqb n 34 then ("\" ++ quote)%string
  else if Nat.eqb n 92 then "\\"%string
  else if Nat.eqb n 8 then "\b"%string
  else if Nat.eqb n 9 then "\t"%string
  else if Nat.eqb n 10 then "\n"%string
  else if Nat.eqb n 12 then "\f"%string
  else if Nat.eqb n 13 then "\r"%string
  else if Nat.ltb n 32 then
    ("\u00" ++ String (hexDigit (Nat.div n 16))
                 (String (hexDigit (Nat.modulo n 16)) EmptyString))%string
  else String c EmptyString.

Fixpoint escape (s : string) : string :=
  match s with
  | EmptyString => EmptyString
  | String c rest => (escapeChar c ++ escape rest)%string
  end.

(** The texts of the elements of an array, separated by commas. *)
Definition joinElements (text : Value -> string) : list Value -> string :=
  fix elements (l : list Value) : string :=
    match l with
    | [] => EmptyString
    | [x] => text x
    | x :: rest => (text x ++ "," ++ elements rest)%string
    end.

(** The text of a whole number. *)
Definition showNumber (z : Z) : string := NilZero.string_of_int (Z.to_int z).

(** The JSON text of a value in element position, where [undefined] is
    written [null]. *)
Fixpoint stringifyElement (v : Value) : string :=
  match v with
  | VUndefined => "null"%string
  | VNull => "null"%string
  | VBool true => "true"%string
  | VBool false => "false"%string
  | VNum z => showNumber z
  | VStr s => (quote ++ escape s ++ quote)%string
  | VArr items => ("[" ++ joinElements stringifyElement items ++ "]")%string
  end.

(** The value holds no [undefined], as every value parsed from a JSON
    request body or stored in a [Mixed] path does. *)
Fixpoint defined (v : Value) : bool :=
  match v with
  | VUndefined => false
  | VArr items => forallb defined items
  | _ => true
  end.

(** [JSON.stringify(v)]: no text ([undefined]) for a missing value. *)
Definition JSON_stringify (v : Value) : option string :=
  match v with
  | VUndefined => None
  | _ => Some (stringifyElement v)
  end.

(** [a === b] on the results of [JSON.stringify]. *)
Definition strictEq (a b : option string) : bool :=
  match a, b with
  | Some x, Some y => String.eqb x y
  | None, None => true
  | _, _ => false
  end.

(** What a call leaves behind: the document after a normal return, or
    the document as it was when an exception left the call. *)
Inductive Outcome (S : Type) : Type :=
| Returned (s : S)
| Threw (s : S).
Arguments Returned {S} s.
Arguments Threw {S} s.

Definition stateOf {S : Type} (o : Outcome S) : S :=
  match o with
  | Returned s => s
  | Threw s => s
  end.

End JS.

(** ** The order of binary64 values *)

Module Binary64.

(** [x <= y]; no comparison with [NaN] holds. *)
Definition le (x y : JS.Real) : Prop :=
  match x, y with
  | JS.RNaN, _ | _, JS.RNaN => False
  | JS.RNegInf, _ => True
  | _, JS.RPosInf => True
  | JS.RFin a, JS.RFin b => (a <= b)%Q
  | _, _ => False
  end.

(** The standard library's specification of the IEEE 754 formats, at
    binary64: a whole number as a float, and the value a float stands
    for. *)
Definition ofWhole (z : Z) : spec_float := binary_normalize 53 1024 z 0 false.

Definition valueOf (x : spec_float) : JS.Real :=
  match x with
  | S754_zero _ => JS.RFin 0
  | S754_infinity false => JS.RPosInf
  | S754_infinity true => JS.RNegInf
  | S754_nan => JS.RNaN
  | S754_finite s m e =>
      JS.RFin (inject_Z (if s then Z.neg m else Z.pos m) * 2 ^ e)
  end.

(** The same binary64 value. *)
Definition same (x y : JS.Real) : bool :=
  match x, y with
  | JS.RFin a, JS.RFin b => Qeq_bool a b
  | JS.RPosInf, JS.RPosInf | JS.RNegInf, JS.RNegInf | JS.RNaN, JS.RNaN => true
  | _, _ => false
  end.

(** The pairs of whole numbers from -20 to 40. *)
Definition grid : list (Z * Z) :=
  flat_map
    (fun d => map (fun n => (Z.of_nat n - 20, Z.of_nat d - 20)) (seq 0 61))
    (seq 0 61).

End Binary64.

Definition ObjectId : Type := string.
Definition Date : Type := Z.

(** ** The catalog: lessons ([lessonSchema]) *)

Module Lesson.

Inductive LessonType : Type := video | text | quiz | assignment | live.

Definition isVideo (ty : LessonType) : bool :=
  match ty with video => true | _ => false end.

(** One entry of [content.quiz.questions]. *)
Record Question : Type := mkQuestion {
  q_id : ObjectId;
  correctAnswer : JS.Value;
  points : option Z
}.

Record t : Type := mkLesson {
  _id : ObjectId;
  course : ObjectId;
  order : Z;
  type : LessonType;
  video_duration : option Z;          (* content.video.duration, seconds *)
  quiz_questions : list Question;     (* content.quiz.questions *)
  quiz_passingScore : option Z;       (* content.quiz.passingScore *)
  isPublished : bool;
  requiredWatchTime : option Z
}.

(** The [Lesson] collection. *)
Definition Collection : Type := list t.

(** [Lesson.findById(id)]. *)
Definition findById (db : Collection) (id : ObjectId) : option t :=
  find (fun l => String.eqb (_id l) id) db.

(** [Lesson.countDocuments({ course, isPublished: true })]. *)
Definition countPublished (db : Collection) (c : ObjectId) : Z :=
  Z.of_nat (List.length
    (filter (fun l => String.eqb (course l) c && isPublished l) db)).

(** The first lesson of the least [order] in a list, as
    [.sort({ order: 1 })] followed by [findOne] returns it. *)
Fixpoint leastOrder (ls : list t) : option t :=
  match ls with
  | [] => None
  | l :: rest =>
      match leastOrder rest with
      | Some m => if order m <? order l then Some m else Some l
      | None => Some l
      end
  end.

(** [lessonSchema.methods.getNextLesson]: the lesson of the same course
    with the least order above this one's. *)
Definition getNextLesson (db : Collection) (this : t) : option t :=
  leastOrder
    (filter (fun l => String.eqb (course l) (course this)
                      && (order this <? order l)) db).

End Lesson.

(** ** Lesson progress ([progressSchema]) *)

Module Progress.

Inductive Status : Type := not_started | in_progress | completed.

Definition Status_eqb (a b : Status) : bool :=
  match a, b with
  | not_started, not_started | in_progress, in_progress
  | completed, completed => true
  | _, _ => false
  end.

(** The [lesson] path: the stored reference, or the lesson document once
    the path has been populated. *)
Inductive LessonRef : Type :=
| Unpopulated (id : ObjectId)
| Populated (l : Lesson.t).

Record Bookmark : Type := mkBookmark {
  b_timestamp : Z;
  b_note : string
}.

Record Note : Type := mkNote {
  n_content : string;
  n_timestamp : option Z;
  n_isPrivate : bool
}.

(** One graded answer of an attempt. *)
Record Answer : Type := mkAnswer {
  questionId : ObjectId;
  answer : JS.Value;
  isCorrect : bool;
  a_points : Z
}.

Record Attempt : Type := mkAttempt {
  attemptNumber : Z;
  answers : list Answer;
  score : Z;
  percentage : JS.Number;
  a_completedAt : Date;
  timeSpent : Z
}.

Record Quiz : Type := mkQuiz {
  attempts : list Attempt;
  highestScore : Z;
  bestAttempt : option Z;
  passed : bool
}.

Record t : Type := mkProgress {
  user : ObjectId;
  course : ObjectId;
  lesson : LessonRef;
  status : Status;
  watchTime : Z;
  totalWatchTime : Z;
  completionPercentage : JS.Number;
  completedAt : option Date;
  lastAccessedAt : Date;
  bookmarks : list Bookmark;
  notes : list Note;
  quiz : Quiz
}.

(** Field assignments. *)
Definition set_status (s : Status) (p : t) : t :=
  mkProgress (user p) (course p) (lesson p) s (watchTime p)
    (totalWatchTime p) (completionPercentage p) (completedAt p)
    (lastAccessedAt p) (bookmarks p) (notes p) (quiz p).

Definition set_watchTime (w : Z) (p : t) : t :=
  mkProgress (user p) (course p) (lesson p) (status p) w
    (totalWatchTime p) (completionPercentage p) (completedAt p)
    (lastAccessedAt p) (bookmarks p) (notes p) (quiz p).

Definition set_totalWatchTime (w : Z) (p : t) : t :=
  mkProgress (user p) (course p) (lesson p) (status p) (watchTime p)
    w (completionPercentage p) (completedAt p)
    (lastAccessedAt p) (bookmarks p) (notes p) (quiz p).

Definition set_completionPercentage (c : JS.Number) (p : t) : t :=
  mkProgress (user p) (course p) (lesson p) (status p) (watchTime p)
    (totalWatchTime p) c (completedAt p)
    (lastAccessedAt p) (bookmarks p) (notes p) (quiz p).

Definition set_completedAt (d : option Date) (p : t) : t :=
  mkProgress (user p) (course p) (lesson p) (status p) (watchTime p)
    (totalWatchTime p) (completionPercentage p) d
    (lastAccessedAt p) (bookmarks p) (notes p) (quiz p).

Definition set_bookmarks (b : list Bookmark) (p : t) : t :=
  mkProgress (user p) (course p) (lesson p) (status p) (watchTime p)
    (totalWatchTime p) (completionPercentage p) (completedAt p)
    (lastAccessedAt p) b (notes p) (quiz p).

Definition set_notes (n : list Note) (p : t) : t :=
  mkProgress (user p) (course p) (lesson p) (status p) (watchTime p)
    (totalWatchTime p) (completionPercentage p) (completedAt p)
    (lastAccessedAt p) (bookmarks p) n (quiz p).

Definition set_quiz (q : Quiz) (p : t) : t :=
  mkProgress (user p) (course p) (lesson p) (status p) (watchTime p)
    (totalWatchTime p) (completionPercentage p) (completedAt p)
    (lastAccessedAt p) (bookmarks p) (notes p) q.

(** [new Progress({ user, course, lesson, status: 'not-started' })] with
    the schema defaults. *)
Definition create (u c l : ObjectId) (now : Date) : t :=
  mkProgress u c (Unpopulated l) not_started 0 0 (JS.Fin 0) None now
    [] [] (mkQuiz [] 0 None false).

(** [this.lesson.type === 'video' && this.lesson.content.video.duration]:
    the duration when the guard holds. *)
Definition videoDuration (r : LessonRef) : option Z :=
  match r with
  | Populated l =>
      if Lesson.isVideo (Lesson.type l) && JS.truthy (Lesson.video_duration l)
      then Lesson.video_duration l else None
  | Unpopulated _ => None
  end.

(** [this.lesson.requiredWatchTime || 80]. *)
Definition requiredPercent (r : LessonRef) : Z :=
  match r with
  | Populated l => JS.orDefault (Lesson.requiredWatchTime l) 80
  | Unpopulated _ => 80
  end.

(** [progressSchema.methods.updateWatchTime]. *)
Definition updateWatchTime (now : Date) (seconds : Z) (this : t) : t :=
  let this := set_watchTime (Z.max (watchTime this) seconds) this in
  let this := set_totalWatchTime (totalWatchTime this + seconds) this in
  match videoDuration (lesson this) with
  | Some duration =>
      let percentage :=
        JS.Math_min
          (JS.Math_round (JS.times100 (JS.div (watchTime this) duration)))
          (JS.Fin 100) in
      let this := set_completionPercentage percentage this in
      if JS.geb percentage (JS.Fin (requiredPercent (lesson this)))
         && negb (Status_eqb (status this) completed)
      then set_completedAt (Some now) (set_status completed this)
      else if JS.gtb percentage (JS.Fin 0)
              && Status_eqb (status this) not_started
      then set_status in_progress this
      else this
  | None => this
  end.

(** [progressSchema.methods.addBookmark]. *)
Definition addBookmark (timestamp : Z) (note : string) (this : t) : t :=
  set_bookmarks (bookmarks this ++ [mkBookmark timestamp note]) this.

(** [progressSchema.methods.addNote]. *)
Definition addNote (content : string) (timestamp : option Z)
    (isPrivate : bool) (this : t) : t :=
  set_notes (notes this ++ [mkNote content timestamp isPrivate]) this.

(** [questions.reduce((total, q) => total + (q.points || 1), 0)]. *)
Definition totalPossibleScore (qs : list Lesson.Question) : Z :=
  fold_left (fun total q => total + JS.orDefault (Lesson.points q) 1) qs 0.

(** [progressSchema.methods.recordQuizAttempt].  Reading
    [this.lesson.content.quiz] of a reference that is not populated
    throws before anything is written. *)
Definition recordQuizAttempt (now : Date) (answers : list Answer)
    (score timeSpent : Z) (this : t) : JS.Outcome t :=
  match lesson this with
  | Unpopulated _ => JS.Threw this
  | Populated l =>
      let attemptNumber := Z.of_nat (List.length (attempts (quiz this))) + 1 in
      let totalPossibleScore := totalPossibleScore (Lesson.quiz_questions l) in
      let percentage :=
        JS.Math_round (JS.times100 (JS.div score totalPossibleScore)) in
      let attempt :=
        mkAttempt attemptNumber answers score percentage now timeSpent in
      let q := quiz this in
      let q := mkQuiz (attempts q ++ [attempt]) (highestScore q)
                 (bestAttempt q) (passed q) in
      let q :=
        if highestScore q <? score
        then mkQuiz (attempts q) score (Some attemptNumber) (passed q)
        else q in
      let passingScore := JS.orDefault (Lesson.quiz_passingScore l) 70 in
      let q := mkQuiz (attempts q) (highestScore q) (bestAttempt q)
                 (JS.geb percentage (JS.Fin passingScore)) in
      let this := set_quiz q this in
      if passed (quiz this)
      then JS.Returned
             (set_completionPercentage (JS.Fin 100)
                (set_completedAt (Some now) (set_status completed this)))
      else if Status_eqb (status this) not_started
      then JS.Returned
             (set_completionPercentage (JS.Math_min percentage (JS.Fin 99))
                (set_status in_progress this))
      else JS.Returned this
  end.

(** The result of [progressSchema.statics.getUserCourseProgress]. *)
Record Summary : Type := mkSummary {
  totalLessons : Z;
  completedLessons : Z;
  overallProgress : JS.Number;
  progressData : list t;
  s_lastAccessedAt : JS.Number
}.

(** [progressSchema.statics.getUserCourseProgress] over the [Lesson] and
    the [Progress] collection.  The lessons are left in the order of the
    collection: only their number is returned. *)
Definition getUserCourseProgress (lessonDb : Lesson.Collection)
    (progressDb : list t) (userId courseId : ObjectId) : Summary :=
  let lessons :=
    filter (fun l => String.eqb (Lesson.course l) courseId
                     && Lesson.isPublished l) lessonDb in
  let progressData :=
    filter (fun p => String.eqb (user p) userId
                     && String.eqb (course p) courseId) progressDb in
  let totalLessons := Z.of_nat (List.length lessons) in
  let completedLessons :=
    Z.of_nat (List.length
      (filter (fun p => Status_eqb (status p) completed) progressData)) in
  let overallProgress :=
    if 0 <? totalLessons
    then JS.Math_round (JS.times100 (JS.div completedLessons totalLessons))
    else JS.Fin 0 in
  mkSummary totalLessons completedLessons overallProgress progressData
    (JS.Math_max_spread (map (fun p => JS.Fin (lastAccessedAt p)) progressData)).

End Progress.

(** ** Course enrollment ([enrollmentSchema]) *)

Module Enrollment.

Inductive Status : Type := active | completed | dropped | suspended.

Definition Status_eqb (a b : Status) : bool :=
  match a, b with
  | active, active | completed, completed
  | dropped, dropped | suspended, suspended => true
  | _, _ => false
  end.

(** One entry of [progress.completedLessons]. *)
Record CompletedLesson : Type := mkCompletedLesson {
  cl_lesson : ObjectId;
  cl_completedAt : Date;
  cl_watchTime : Z;
  cl_score : option Z
}.

Record t : Type := mkEnrollment {
  _id : ObjectId;
  student : ObjectId;
  course : ObjectId;
  status : Status;
  completedLessons : list CompletedLesson;   (* progress.completedLessons *)
  currentLesson : option ObjectId;           (* progress.currentLesson *)
  completionPercentage : JS.Number;          (* progress.completionPercentage *)
  lastAccessedAt : Date;                     (* progress.lastAccessedAt *)
  completionDate : option Date;
  certificateIssued : bool;
  certificateId : option string
}.

Definition set_status (s : Status) (e : t) : t :=
  mkEnrollment (_id e) (student e) (course e) s (completedLessons e)
    (currentLesson e) (completionPercentage e) (lastAccessedAt e)
    (completionDate e) (certificateIssued e) (certificateId e).

Definition set_completedLessons (l : list CompletedLesson) (e : t) : t :=
  mkEnrollment (_id e) (student e) (course e) (status e) l
    (currentLesson e) (completionPercentage e) (lastAccessedAt e)
    (completionDate e) (certificateIssued e) (certificateId e).

Definition set_currentLesson (l : option ObjectId) (e : t) : t :=
  mkEnrollment (_id e) (student e) (course e) (status e)
    (completedLessons e) l (completionPercentage e) (lastAccessedAt e)
    (completionDate e) (certificateIssued e) (certificateId e).

Definition set_completionPercentage (c : JS.Number) (e : t) : t :=
  mkEnrollment (_id e) (student e) (course e) (status e)
    (completedLessons e) (currentLesson e) c (lastAccessedAt e)
    (completionDate e) (certificateIssued e) (certificateId e).

Definition set_lastAccessedAt (d : Date) (e : t) : t :=
  mkEnrollment (_id e) (student e) (course e) (status e)
    (completedLessons e) (currentLesson e) (completionPercentage e) d
    (completionDate e) (certificateIssued e) (certificateId e).

Definition set_completionDate (d : option Date) (e : t) : t :=
  mkEnrollment (_id e) (student e) (course e) (status e)
    (completedLessons e) (currentLesson e) (completionPercentage e)
    (lastAccessedAt e) d (certificateIssued e) (certificateId e).

Definition set_certificate (id : string) (e : t) : t :=
  mkEnrollment (_id e) (student e) (course e) (status e)
    (completedLessons e) (currentLesson e) (completionPercentage e)
    (lastAccessedAt e) (completionDate e) true (Some id).

(** The readings of the clock during one call: [atPush] for the entry
    pushed by [markLessonCompleted], [atCompletion] and [atAccess] for
    the two [new Date()] of [updateProgress]. *)
Record Clock : Type := mkClock {
  atPush : Date;
  atCompletion : Date;
  atAccess : Date
}.

(** [enrollmentSchema.methods.updateProgress]. *)
Definition updateProgress (db : Lesson.Collection) (clock : Clock)
    (this : t) : t :=
  let totalLessons := Lesson.countPublished db (course this) in
  if 0 <? totalLessons then
    let completedCount := Z.of_nat (List.length (completedLessons this)) in
    let this :=
      set_completionPercentage
        (JS.Math_round (JS.times100 (JS.div completedCount totalLessons)))
        this in
    let this :=
      if JS.geb (completionPercentage this) (JS.Fin 100)
         && Status_eqb (status this) active
      then set_completionDate (Some (atCompletion clock))
             (set_status completed this)
      else this in
    set_lastAccessedAt (atAccess clock) this
  else this.

(** [enrollmentSchema.methods.isLessonCompleted]. *)
Definition isLessonCompleted (this : t) (lessonId : ObjectId) : bool :=
  existsb (fun cl => String.eqb (cl_lesson cl) lessonId)
    (completedLessons this).

(** [enrollmentSchema.methods.markLessonCompleted].  When [lessonId]
    names no lesson, [currentLesson.getNextLesson()] throws after the
    entry has been pushed. *)
Definition markLessonCompleted (db : Lesson.Collection) (clock : Clock)
    (lessonId : ObjectId) (watchTime : Z) (score : option Z) (this : t)
    : JS.Outcome t :=
  let existingProgress :=
    find (fun cl => String.eqb (cl_lesson cl) lessonId)
      (completedLessons this) in
  match existingProgress with
  | Some _ => JS.Returned this
  | None =>
      let this :=
        set_completedLessons
          (completedLessons this
             ++ [mkCompletedLesson lessonId (atPush clock) watchTime score])
          this in
      match Lesson.findById db lessonId with
      | None => JS.Threw this
      | Some currentLesson =>
          let this :=
            match Lesson.getNextLesson db currentLesson with
            | Some nextLesson =>
                set_currentLesson (Some (Lesson._id nextLesson)) this
            | None => this
            end in
          JS.Returned (updateProgress db clock this)
      end
  end.

(** The text of a timestamp inside a template literal. *)
Definition showDate (d : Date) : string := JS.showNumber d.

(** [`CERT-${Date.now()}-${this._id}`]. *)
Definition certificateText (now : Date) (id : ObjectId) : string :=
  ("CERT-" ++ showDate now ++ "-" ++ id)%string.

(** [enrollmentSchema.methods.generateCertificate]: the document and the
    value returned, [None] for [null]. *)
Definition generateCertificate (now : Date) (this : t)
    : t * option string :=
  if Status_eqb (status this) completed && negb (certificateIssued this)
  then
    let this := set_certificate (certificateText now (_id this)) this in
    (this, certificateId this)
  else (this, None).

End Enrollment.

(** ** The controllers *)

Module Controller.

(** One element of [req.body.quizAnswers]. *)
Record Submitted : Type := mkSubmitted {
  sub_answer : JS.Value
}.

(** The test [JSON.stringify(answer.answer) ===
    JSON.stringify(question.correctAnswer)]. *)
Definition gradeAnswer (submitted correct : JS.Value) : bool :=
  JS.strictEq (JS.JSON_stringify submitted) (JS.JSON_stringify correct).

(** The callback of [quizAnswers.map] in [updateLessonProgress], run
    from position [index] on with the running [score]; [None] when a
    submitted answer has no question at its index
    ([question.correctAnswer] of [undefined] throws). *)
Fixpoint gradeFrom (questions : list Lesson.Question)
    (quizAnswers : list Submitted) (index : nat) (score : Z)
    : option (list Progress.Answer * Z) :=
  match quizAnswers with
  | [] => Some ([], score)
  | answer :: rest =>
      match nth_error questions index with
      | None => None
      | Some question =>
          let isCorrect :=
            gradeAnswer (sub_answer answer) (Lesson.correctAnswer question) in
          let score :=
            if isCorrect
            then score + JS.orDefault (Lesson.points question) 1
            else score in
          let graded :=
            Progress.mkAnswer (Lesson.q_id question) (sub_answer answer)
              isCorrect
              (if isCorrect then JS.orDefault (Lesson.points question) 1
               else 0) in
          match gradeFrom questions rest (S index) score with
          | Some (answers, score) => Some (graded :: answers, score)
          | None => None
          end
      end
  end.

(** The quiz branch of [updateLessonProgress] up to the call of
    [recordQuizAttempt]: the graded answers and the score. *)
Definition gradeQuiz (lesson : Lesson.t) (quizAnswers : list Submitted)
    : option (list Progress.Answer * Z) :=
  gradeFrom (Lesson.quiz_questions lesson) quizAnswers 0%nat 0.

(** The [status] branch of [updateLessonProgress]. *)
Definition updateStatus (now : Date) (status : Progress.Status)
    (progress : Progress.t) : Progress.t :=
  let progress := Progress.set_status status progress in
  match status with
  | Progress.completed =>
      Progress.set_completionPercentage (JS.Fin 100)
        (Progress.set_completedAt (Some now) progress)
  | _ => progress
  end.

(** The request body of [updateLessonProgress]. *)
Record Body : Type := mkBody {
  body_watchTime : option Z;
  body_status : option Progress.Status;
  body_quizAnswers : option (list Submitted);
  body_timeSpent : option Z
}.

(** The dispatch of [updateLessonProgress] on the lesson type and the
    request body, applied to the progress document found or created. *)
Definition updateLessonProgress (now : Date) (lesson : Lesson.t)
    (body : Body) (progress : Progress.t) : JS.Outcome Progress.t :=
  match Lesson.type lesson, body_watchTime body, body_quizAnswers body with
  | Lesson.video, Some watchTime, _ =>
      JS.Returned (Progress.updateWatchTime now watchTime progress)
  | Lesson.quiz, _, Some quizAnswers =>
      match gradeQuiz lesson quizAnswers with
      | None => JS.Threw progress
      | Some (answers, score) =>
          Progress.recordQuizAttempt now answers score
            (JS.orDefault (body_timeSpent body) 0) progress
      end
  | _, _, _ =>
      match body_status body with
      | Some status => JS.Returned (updateStatus now status progress)
      | None => JS.Returned progress
      end
  end.

(** The course an enrollment refers to, once populated with
    ['title instructor certificate']. *)
Record Course : Type := mkCourse {
  certificate_enabled : bool
}.

Inductive Role : Type := student | instructor | admin.

Record User : Type := mkUser {
  id : ObjectId;
  role : Role
}.

Definition isAdmin (r : Role) : bool :=
  match r with admin => true | _ => false end.

(** The responses of the certificate endpoint. *)
Inductive Response : Type :=
| NotFound
| Forbidden
| NotCompleted            (* 400, course must be completed *)
| NotEnabled              (* 400, certificates are not enabled *)
| NotGenerated            (* 400, already exists or could not be generated *)
| Success (certificateId : string).

(** The [generateCertificate] controller, given what
    [Enrollment.findById(...).populate('course', ...)] returned. *)
Definition generateCertificate (now : Date) (user : User)
    (found : option (Enrollment.t * Course))
    : option Enrollment.t * Response :=
  match found with
  | None => (None, NotFound)
  | Some (enrollment, course) =>
      if negb (String.eqb (Enrollment.student enrollment) (id user))
         && negb (isAdmin (role user))
      then (Some enrollment, Forbidden)
      else if negb (Enrollment.Status_eqb (Enrollment.status enrollment)
                      Enrollment.completed)
      then (Some enrollment, NotCompleted)
      else if negb (certificate_enabled course)
      then (Some enrollment, NotEnabled)
      else
        match Enrollment.generateCertificate now enrollment with
        | (enrollment, None) => (Some enrollment, NotGenerated)
        | (enrollment, Some certificateId) =>
            (Some enrollment, Success certificateId)
        end
  end.

End Controller.

(** ** Reading JSON texts back *)

Module Text.

Definition allAscii : list ascii := map ascii_of_nat (seq 0 256).

Definition quoteChar : ascii := ascii_of_nat 34.

(** No escape is a prefix of the escape of another character. *)
Definition escapesApart : bool :=
  forallb
    (fun c =>
       forallb
         (fun c' =>
            implb (String.prefix (JS.escapeChar c) (JS.escapeChar c'))
              (Ascii.eqb c c'))
         allAscii)
    allAscii.

(** Every escape has a first character, which is not the quote. *)
Definition escapesUnquoted : bool :=
  forallb
    (fun c =>
       match JS.escapeChar c with
       | String h _ => negb (Ascii.eqb h quoteChar)
       | EmptyString => false
       end)
    allAscii.

Definition isDigit (c : ascii) : bool :=
  (Nat.leb 48 (nat_of_ascii c) && Nat.leb (nat_of_ascii c) 57)%bool.

(** What may follow the text of an element: nothing, a comma or the
    closing bracket. *)
Definition closes (r : string) : Prop :=
  match r with
  | EmptyString => True
  | String c _ => c = ","%char \/ c = "]"%char
  end.

Definition noDigit (r : string) : Prop :=
  match r with
  | EmptyString => True
  | String c _ => isDigit c = false
  end.

(** The shape of a value, and the shape announced by a first character. *)
Definition tag (v : JS.Value) : nat :=
  match v with
  | JS.VUndefined | JS.VNull => 0
  | JS.VBool _ => 1
  | JS.VNum _ => 2
  | JS.VStr _ => 3
  | JS.VArr _ => 4
  end.

Definition startClass (c : ascii) : nat :=
  if Ascii.eqb c "n" then 0
  else if (Ascii.eqb c "t" || Ascii.eqb c "f")%bool then 1
  else if (Ascii.eqb c "-" || isDigit c)%bool then 2
  else if Ascii.eqb c quoteChar then 3
  else if Ascii.eqb c "[" then 4
  else 5.

(** The text of [v], followed by something that may follow an element,
    is read back as [v] and what follows. *)
Definition readsBack (v : JS.Value) : Prop :=
  forall w r1 r2,
    JS.defined w = true -> closes r1 -> closes r2 ->
    (JS.stringifyElement v ++ r1 = JS.stringifyElement w ++ r2)%string ->
    v = w /\ r1 = r2.

End Text.

(** ** The specification's vocabulary *)

Module Spec.

(** [round(100 × n / d)] as the specification writes it: the whole
    number nearest to the exact percentage, a half rounded up. *)
Definition roundPercent (n d : Z) : Z := (2 * (100 * n) + d) / (2 * d).

(** A progress document is for a non-video lesson when its populated
    lesson, if any, is not of type [video]. *)
Definition nonVideo (p : Progress.t) : Prop :=
  forall l, Progress.lesson p = Progress.Populated l ->
            Lesson.type l <> Lesson.video.

(** The documents after each call of a sequence of
    [updateWatchTime(seconds)] calls, each made at its own time. *)
Fixpoint watchTrace (calls : list (Date * Z)) (p : Progress.t)
    : list Progress.t :=
  match calls with
  | [] => []
  | (now, seconds) :: rest =>
      let p' := Progress.updateWatchTime now seconds p in
      p' :: watchTrace rest p'
  end.

(** [x] is at most [y], as percentages: equal, or strictly below. *)
Definition percentLe (x y : JS.Number) : Prop :=
  x = y \/ JS.ltb x y = true.

(** A status, once [completed], is still [completed] later. *)
Definition staysCompleted (a b : Progress.t) : Prop :=
  Progress.status a = Progress.completed ->
  Progress.status b = Progress.completed.

(** The duration of the populated lesson, if any, is not negative. *)
Definition durationNotNegative (p : Progress.t) : Prop :=
  forall l d, Progress.lesson p = Progress.Populated l ->
              Lesson.video_duration l = Some d -> 0 <= d.

(** The percentage stored is the one the code computes from the watch
    time, as it is after every call of [updateWatchTime]. *)
Definition coherent (p : Progress.t) : Prop :=
  match Progress.videoDuration (Progress.lesson p) with
  | Some d =>
      Progress.completionPercentage p =
        JS.Math_min (JS.roundedPercent (Progress.watchTime p) d) (JS.Fin 100)
  | None => True
  end.

(** The claim that watch-time reports never lower the percentage: along
    every sequence of calls with non-decreasing reported values, the
    percentages of the document, before the first call and after each
    call, are in non-decreasing order, and a [completed] status is never
    left. *)
Definition watchTimeMonotone : Prop :=
  forall (calls : list (Date * Z)) (p : Progress.t),
    Sorted Z.le (map snd calls) ->
    StronglySorted percentLe
      (map Progress.completionPercentage (p :: watchTrace calls p))
    /\ StronglySorted staysCompleted (p :: watchTrace calls p).

(** The caller may act on the enrollment: its student, or an admin. *)
Definition authorized (user : Controller.User) (e : Enrollment.t) : Prop :=
  Enrollment.student e = Controller.id user
  \/ Controller.role user = Controller.admin.

(** The enrollment is eligible for a certificate of its course. *)
Definition eligible (e : Enrollment.t) (c : Controller.Course) : Prop :=
  Enrollment.status e = Enrollment.completed
  /\ Enrollment.certificateIssued e = false
  /\ Controller.certificate_enabled c = true.

(** A response that carries no certificate. *)
Definition refused (r : Controller.Response) : Prop :=
  match r with
  | Controller.Success _ => False
  | _ => True
  end.

(** The percentage of an attempt that scores [score] on the quiz of
    [l]. *)
Definition attemptPercentage (l : Lesson.t) (score : Z) : JS.Number :=
  JS.Math_round
    (JS.times100
       (JS.div score (Progress.totalPossibleScore (Lesson.quiz_questions l)))).

(** The passing threshold of the quiz of [l], 70 by default. *)
Definition passingScore (l : Lesson.t) : Z :=
  JS.orDefault (Lesson.quiz_passingScore l) 70.

(** The attempt meets the passing threshold. *)
Definition meets (l : Lesson.t) (score : Z) : bool :=
  JS.geb (attemptPercentage l score) (JS.Fin (passingScore l)).

(** The attempt is below the passing threshold. *)
Definition below (l : Lesson.t) (score : Z) : bool :=
  JS.ltb (attemptPercentage l score) (JS.Fin (passingScore l)).

(** The arguments of one call of [recordQuizAttempt], with its time. *)
Record Submission : Type := mkSubmission {
  sub_at : Date;
  sub_answers : list Progress.Answer;
  sub_score : Z;
  sub_timeSpent : Z
}.

(** The document after one attempt, and after a sequence of attempts. *)
Definition record (a : Submission) (p : Progress.t) : Progress.t :=
  JS.stateOf
    (Progress.recordQuizAttempt (sub_at a) (sub_answers a) (sub_score a)
       (sub_timeSpent a) p).

Definition recordAll (l : list Submission) (p : Progress.t) : Progress.t :=
  fold_left (fun p a => record a p) l p.

(** The claim that a quiz, once passed, stays passed: after an attempt
    that meets the threshold the lesson is completed at 100 percent, and it
    stays so, with the [passed] flag set, after any later attempts. *)
Definition passedIsSticky : Prop :=
  forall (l : Lesson.t) (p : Progress.t) (first : Submission)
         (later : list Submission),
    Progress.lesson p = Progress.Populated l ->
    meets l (sub_score first) = true ->
    let p1 := record first p in
    let pn := recordAll later p1 in
    Progress.status p1 = Progress.completed
    /\ Progress.completionPercentage p1 = JS.Fin 100
    /\ Progress.completedAt p1 <> None
    /\ Progress.status pn = Progress.completed
    /\ Progress.completionPercentage pn = JS.Fin 100
    /\ Progress.passed (Progress.quiz pn) = true.

(** The attempts carry the numbers 1, 2, 3, ... in order. *)
Definition numbered (l : list Progress.Attempt) : Prop :=
  map Progress.attemptNumber l = map Z.of_nat (seq 1 (List.length l)).

(** The LessonProgress invariant. *)
Definition invariant (p : Progress.t) : Prop :=
  (Progress.completedAt p <> None <-> Progress.status p = Progress.completed)
  /\ Progress.watchTime p <= Progress.totalWatchTime p
  /\ numbered (Progress.attempts (Progress.quiz p)).

(** The attempts of [p'] are those of [p] followed by new ones. *)
Definition appendOnly (p p' : Progress.t) : Prop :=
  exists more,
    Progress.attempts (Progress.quiz p')
    = Progress.attempts (Progress.quiz p) ++ more.

(** The operations of the Progress Tracker. *)
Inductive Operation : Type :=
| RecordWatchTime (now : Date) (seconds : Z)
| RecordQuizAttempt (now : Date) (answers : list Progress.Answer)
    (score timeSpent : Z)
| AddBookmark (timestamp : Z) (note : string)
| AddNote (content : string) (timestamp : option Z) (isPrivate : bool)
| UpdateStatus (now : Date) (status : Progress.Status).

Definition perform (op : Operation) (p : Progress.t) : Progress.t :=
  match op with
  | RecordWatchTime now seconds => Progress.updateWatchTime now seconds p
  | RecordQuizAttempt now answers score timeSpent =>
      JS.stateOf (Progress.recordQuizAttempt now answers score timeSpent p)
  | AddBookmark timestamp note => Progress.addBookmark timestamp note p
  | AddNote content timestamp isPrivate =>
      Progress.addNote content timestamp isPrivate p
  | UpdateStatus now status => Controller.updateStatus now status p
  end.

(** A watch-time report carries a value that is not negative. *)
Definition admissible (op : Operation) : Prop :=
  match op with
  | RecordWatchTime _ seconds => 0 <= seconds
  | _ => True
  end.

(** The claim that every operation preserves the invariant. *)
Definition everyOperationPreserves : Prop :=
  forall (op : Operation) (p : Progress.t),
    admissible op -> invariant p ->
    invariant (perform op p) /\ appendOnly p (perform op p).

(** An explicit status update that does not take a completed progress
    back: it sets [completed], or the progress is not completed. *)
Definition forward (op : Operation) (p : Progress.t) : Prop :=
  match op with
  | UpdateStatus _ status =>
      status = Progress.completed
      \/ Progress.status p <> Progress.completed
  | _ => True
  end.

(** The points earned by graded answers. *)
Definition earned (answers : list Progress.Answer) : Z :=
  fold_right (fun a total => Progress.a_points a + total) 0 answers.

(** The grading of one submitted answer against its question. *)
Definition graded (question : Lesson.Question) (submitted : JS.Value)
    : Progress.Answer :=
  let isCorrect :=
    Controller.gradeAnswer submitted (Lesson.correctAnswer question) in
  Progress.mkAnswer (Lesson.q_id question) submitted isCorrect
    (if isCorrect then JS.orDefault (Lesson.points question) 1 else 0).

(** The claim that grading compares lists of values as sets: a submitted
    list with the values of the correct list, in any order, is graded
    correct. *)
Definition gradingIgnoresOrder : Prop :=
  forall submitted correct : list JS.Value,
    Permutation submitted correct ->
    Controller.gradeAnswer (JS.VArr submitted) (JS.VArr correct) = true.

(** The user has no progress document in the course. *)
Definition noProgress (progressDb : list Progress.t)
    (userId courseId : ObjectId) : Prop :=
  forall p, In p progressDb ->
            Progress.user p = userId -> Progress.course p <> courseId.

End Spec.

(** ** Sample documents *)

Module Sample.

Local Open Scope string_scope.

Definition videoLesson : Lesson.t :=
  Lesson.mkLesson "5f1a00000000000000000001" "5f1a0000000000000000c001" 1
    Lesson.video (Some 200) [] None true None.

Definition textLesson : Lesson.t :=
  Lesson.mkLesson "5f1a00000000000000000002" "5f1a0000000000000000c001" 2
    Lesson.text None [] None true None.

(** A fresh progress document whose lesson path has been populated. *)
Definition fresh (l : Lesson.t) : Progress.t :=
  Progress.mkProgress "5f1a0000000000000000a001" (Lesson.course l)
    (Progress.Populated l) Progress.not_started 0 0 (JS.Fin 0) None 0
    [] [] (Progress.mkQuiz [] 0 None false).

(** Four watch-time reports, each with the time of the call. *)
Definition reports : list (Date * Z) :=
  [(1000, 10); (2000, 50); (3000, 50); (4000, 180)].

Definition courseId : ObjectId := "5f1a0000000000000000c001".

Definition studentId : ObjectId := "5f1a0000000000000000a001".

Definition lessonAt (n : Z) (id : ObjectId) : Lesson.t :=
  Lesson.mkLesson id courseId n Lesson.text None [] None true None.

(** A course of four published lessons. *)
Definition fourLessons : Lesson.Collection :=
  [ lessonAt 1 "5f1a00000000000000000011";
    lessonAt 2 "5f1a00000000000000000012";
    lessonAt 3 "5f1a00000000000000000013";
    lessonAt 4 "5f1a00000000000000000014" ].

Definition done (id : ObjectId) : Enrollment.CompletedLesson :=
  Enrollment.mkCompletedLesson id 500 0 None.

(** An active enrollment with the first two lessons completed. *)
Definition twoDone : Enrollment.t :=
  Enrollment.mkEnrollment "5f1a0000000000000000e001"
    "5f1a0000000000000000a001" courseId Enrollment.active
    [ done "5f1a00000000000000000011"; done "5f1a00000000000000000012" ]
    (Some "5f1a00000000000000000013") (JS.Fin 50) 500 None false None.

Definition clock (n : Z) : Enrollment.Clock :=
  Enrollment.mkClock n (n + 1) (n + 2).

(** The enrollment with a third and with a fourth entry pushed, before
    the recompute. *)
Definition threeOfFour : Enrollment.t :=
  Enrollment.set_completedLessons
    (Enrollment.completedLessons twoDone
       ++ [done "5f1a00000000000000000013"]) twoDone.

Definition fourOfFour : Enrollment.t :=
  Enrollment.set_completedLessons
    (Enrollment.completedLessons threeOfFour
       ++ [done "5f1a00000000000000000014"])
    (Enrollment.updateProgress fourLessons (clock 1000) threeOfFour).

(** The enrollment once all four lessons are completed. *)
Definition allDone : Enrollment.t :=
  Enrollment.updateProgress fourLessons (clock 2000) fourOfFour.

Definition owner : Controller.User :=
  Controller.mkUser "5f1a0000000000000000a001" Controller.student.

Definition withCertificates : Controller.Course := Controller.mkCourse true.

Definition question (n : Z) (id : ObjectId) (answer : JS.Value)
    : Lesson.Question :=
  Lesson.mkQuestion id answer (Some n).

(** A quiz of three questions worth 1, 2 and 3 points, passed at 70
    percent. *)
Definition quizLesson : Lesson.t :=
  Lesson.mkLesson "5f1a00000000000000000003" courseId 3 Lesson.quiz None
    [ question 1 "5f1a000000000000000000q1" (JS.VStr "b");
      question 2 "5f1a000000000000000000q2" (JS.VArr [JS.VStr "a"; JS.VStr "b"]);
      question 3 "5f1a000000000000000000q3" (JS.VNum 4) ]
    (Some 70) true None.

(** An attempt scoring 5 of 6 and a later one scoring 4 of 6. *)
Definition fiveOfSix : Spec.Submission := Spec.mkSubmission 1000 [] 5 60.
Definition fourOfSix : Spec.Submission := Spec.mkSubmission 2000 [] 4 45.

(** A text lesson marked completed by an explicit status update. *)
Definition markedDone : Progress.t :=
  Controller.updateStatus 1000 Progress.completed (fresh textLesson).

(** Answers to the three questions of [quizLesson]; the second lists the
    right values in the catalog's order. *)
Definition submittedInOrder : list Controller.Submitted :=
  [ Controller.mkSubmitted (JS.VStr "b");
    Controller.mkSubmitted (JS.VArr [JS.VStr "a"; JS.VStr "b"]);
    Controller.mkSubmitted (JS.VNum 5) ].

(** A progress collection that holds one document, of the student, in
    another course. *)
Definition elsewhere : list Progress.t :=
  [ Progress.create "5f1a0000000000000000a001" "5f1a0000000000000000c002"
      "5f1a00000000000000000021" 700 ].

End Sample.


(** ** Lesson progress: bookmarks, notes and interactions *)

Module ProgressLists.

(** The three arrays of [progressSchema] whose entries are addressed by
    their [_id], with the fields the schema gives them. *)
Record Bookmark : Type := mkBookmark {
  b_id : ObjectId;
  b_timestamp : Z;
  b_note : string;
  b_createdAt : Date
}.

Record Note : Type := mkNote {
  n_id : ObjectId;
  n_content : string;
  n_timestamp : option Z;
  n_isPrivate : bool;
  n_createdAt : Date;
  n_updatedAt : option Date
}.

Inductive InteractionType : Type :=
| play | pause | seek | speed_change | quality_change | fullscreen.

Record Interaction : Type := mkInteraction {
  i_type : InteractionType;
  i_timestamp : option Z;
  i_value : option string;
  i_createdAt : Date
}.

(** The part of a progress document these methods read and write. *)
Record t : Type := mkLists {
  bookmarks : list Bookmark;
  notes : list Note;
  interactions : list Interaction
}.

(** [array.id(id)]: the first subdocument with that [_id]. *)
Definition bookmarkById (id : ObjectId) (l : list Bookmark)
    : option Bookmark :=
  find (fun b => String.eqb (b_id b) id) l.

Definition noteById (id : ObjectId) (l : list Note) : option Note :=
  find (fun n => String.eqb (n_id n) id) l.

(** [progressSchema.methods.removeBookmark]: [.remove()] pulls the
    subdocument out of its array; on [null] (no bookmark with that id) it
    throws. *)
Definition removeBookmark (bookmarkId : ObjectId) (this : t)
    : JS.Outcome t :=
  match bookmarkById bookmarkId (bookmarks this) with
  | None => JS.Threw this
  | Some found =>
      JS.Returned
        (mkLists
           (filter (fun b => negb (String.eqb (b_id b) (b_id found)))
              (bookmarks this))
           (notes this) (interactions this))
  end.

(** The assignment of [content] and [updatedAt] to the first note with
    the given [_id]. *)
Fixpoint rewriteNote (noteId : ObjectId) (content : string) (now : Date)
    (l : list Note) : list Note :=
  match l with
  | [] => []
  | n :: rest =>
      if String.eqb (n_id n) noteId
      then mkNote (n_id n) content (n_timestamp n) (n_isPrivate n)
             (n_createdAt n) (Some now) :: rest
      else n :: rewriteNote noteId content now rest
  end.

(** [progressSchema.methods.updateNote]: the document, and whether the
    method returned the promise of [save()] ([true]) or [null]
    ([false]). *)
Definition updateNote (now : Date) (noteId : ObjectId) (content : string)
    (this : t) : t * bool :=
  match noteById noteId (notes this) with
  | Some _ =>
      (mkLists (bookmarks this)
         (rewriteNote noteId content now (notes this))
         (interactions this), true)
  | None => (this, false)
  end.

(** [array.slice(-n)]: the last [n] elements. *)
Definition sliceLast {A : Type} (n : nat) (l : list A) : list A :=
  skipn (List.length l - n) l.

(** [progressSchema.methods.recordInteraction]. *)
Definition recordInteraction (now : Date) (type : InteractionType)
    (timestamp : option Z) (value : option string) (this : t) : t :=
  let interactions :=
    interactions this ++ [mkInteraction type timestamp value now] in
  mkLists (bookmarks this) (notes this)
    (if Nat.ltb 100 (List.length interactions)
     then sliceLast 100 interactions
     else interactions).

End ProgressLists.

(** ** Lessons: the neighbour before *)

Module LessonNav.

(** The first lesson of the greatest [order] in a list, as
    [.sort({ order: -1 })] followed by [findOne] returns it. *)
Fixpoint greatestOrder (ls : list Lesson.t) : option Lesson.t :=
  match ls with
  | [] => None
  | l :: rest =>
      match greatestOrder rest with
      | Some m =>
          if Lesson.order l <? Lesson.order m then Some m else Some l
      | None => Some l
      end
  end.

(** [lessonSchema.methods.getPreviousLesson]: the lesson of the same
    course with the greatest order below this one's. *)
Definition getPreviousLesson (db : Lesson.Collection) (this : Lesson.t)
    : option Lesson.t :=
  greatestOrder
    (filter (fun l => String.eqb (Lesson.course l) (Lesson.course this)
                      && (Lesson.order l <? Lesson.order this)) db).

End LessonNav.

(** ** Enrollment: study time *)

Module EnrollmentStats.

(** The virtual [totalStudyTime]:
    [completedLessons.reduce((total, lesson) => total + (lesson.watchTime || 0), 0)]. *)
Definition totalStudyTime (this : Enrollment.t) : Z :=
  fold_left
    (fun total lesson =>
       total + JS.orDefault (Some (Enrollment.cl_watchTime lesson)) 0)
    (Enrollment.completedLessons this) 0.

(** The result of [enrollmentSchema.methods.getCompletionStats], without
    the enrollment date, which the modelled document does not carry. *)
Record CompletionStats : Type := mkCompletionStats {
  totalLessons : Z;
  completedLessons : Z;
  completionPercentage : JS.Number;
  statsStudyTime : Z;
  lastAccessed : Date
}.

(** [enrollmentSchema.methods.getCompletionStats]. *)
Definition getCompletionStats (db : Lesson.Collection) (this : Enrollment.t)
    : CompletionStats :=
  mkCompletionStats
    (Lesson.countPublished db (Enrollment.course this))
    (Z.of_nat (List.length (Enrollment.completedLessons this)))
    (Enrollment.completionPercentage this)
    (totalStudyTime this)
    (Enrollment.lastAccessedAt this).

End EnrollmentStats.

(** ** Courses, as the controllers read and update them *)

Module CourseDoc.

Inductive Status : Type := draft | published | archived.

Definition isPublished (s : Status) : bool :=
  match s with published => true | _ => false end.

(** The paths of [courseSchema] the modelled controllers use. *)
Record t : Type := mkCourse {
  _id : ObjectId;
  instructor : ObjectId;
  status : Status;
  price : Z;
  discountPrice : option Z;
  enrollmentCount : Z;
  totalLectures : Z
}.

Definition Collection : Type := list t.

(** [Course.findById(id)]. *)
Definition findById (db : Collection) (id : ObjectId) : option t :=
  find (fun c => String.eqb (_id c) id) db.

(** [Course.findByIdAndUpdate(id, { $inc: { enrollmentCount: n } })]: the
    first course with that [_id] is updated. *)
Fixpoint incEnrollmentCount (id : ObjectId) (n : Z) (db : Collection)
    : Collection :=
  match db with
  | [] => []
  | c :: rest =>
      if String.eqb (_id c) id
      then mkCourse (_id c) (instructor c) (status c) (price c)
             (discountPrice c) (enrollmentCount c + n) (totalLectures c)
           :: rest
      else c :: incEnrollmentCount id n rest
  end.

(** [Course.findByIdAndUpdate(id, { $inc: { totalLectures: n } })]. *)
Fixpoint incTotalLectures (id : ObjectId) (n : Z) (db : Collection)
    : Collection :=
  match db with
  | [] => []
  | c :: rest =>
      if String.eqb (_id c) id
      then mkCourse (_id c) (instructor c) (status c) (price c)
             (discountPrice c) (enrollmentCount c) (totalLectures c + n)
           :: rest
      else c :: incTotalLectures id n rest
  end.

End CourseDoc.

(** ** The enrollments controller *)

Module EnrollmentsController.

(** The responses of the modelled handlers, by status code. *)
Inductive Response : Type :=
| Created           (* 201 *)
| Ok                (* 200 *)
| BadRequest        (* 400 *)
| Forbidden         (* 403 *)
| NotFound.         (* 404 *)

(** The [paymentDetails] written at enrollment. *)
Record Payment : Type := mkPayment {
  amount : Z;
  transactionId : string;
  paymentDate : Date
}.

(** The two collections [enrollInCourse] reads and writes, with the
    payment details of each enrollment kept beside it. *)
Record Db : Type := mkDb {
  courses : CourseDoc.Collection;
  enrollments : list Enrollment.t;
  payments : list (ObjectId * Payment)
}.

(** [Enrollment.findOne({ student, course })]. *)
Definition findEnrollment (es : list Enrollment.t)
    (studentId courseId : ObjectId) : option Enrollment.t :=
  find (fun e => String.eqb (Enrollment.student e) studentId
                 && String.eqb (Enrollment.course e) courseId) es.

(** [`txn_${Date.now()}`]. *)
Definition transactionText (now : Date) : string :=
  ("txn_" ++ JS.showNumber now)%string.

(** [Enrollment.create({ student, course, status: 'active', ... })] with
    the schema defaults; [newId] is the [_id] the store assigns. *)
Definition newEnrollment (newId studentId courseId : ObjectId) (now : Date)
    : Enrollment.t :=
  Enrollment.mkEnrollment newId studentId courseId Enrollment.active
    [] None (JS.Fin 0) now None false None.

(** [exports.enrollInCourse]. *)
Definition enrollInCourse (now : Date) (newId studentId courseId : ObjectId)
    (db : Db) : Db * Response :=
  match CourseDoc.findById (courses db) courseId with
  | None => (db, NotFound)
  | Some course =>
      if negb (CourseDoc.isPublished (CourseDoc.status course))
      then (db, BadRequest)
      else
        match findEnrollment (enrollments db) studentId courseId with
        | Some _ => (db, BadRequest)
        | None =>
            let paymentDetails :=
              if 0 <? CourseDoc.price course
              then [(newId,
                     mkPayment
                       (JS.orDefault (CourseDoc.discountPrice course)
                          (CourseDoc.price course))
                       (transactionText now) now)]
              else [] in
            (mkDb
               (CourseDoc.incEnrollmentCount courseId 1 (courses db))
               (enrollments db
                  ++ [newEnrollment newId studentId courseId now])
               (payments db ++ paymentDetails),
             Created)
        end
  end.

(** [exports.updateEnrollmentStatus], given what
    [Enrollment.findById] returned. *)
Definition updateEnrollmentStatus (user : Controller.User)
    (status : Enrollment.Status) (found : option Enrollment.t)
    : option Enrollment.t * Response :=
  match found with
  | None => (None, NotFound)
  | Some enrollment =>
      match Controller.role user with
      | Controller.student =>
          if negb (String.eqb (Enrollment.student enrollment)
                     (Controller.id user))
             || negb (Enrollment.Status_eqb status Enrollment.dropped)
          then (Some enrollment, Forbidden)
          else (Some (Enrollment.set_status status enrollment), Ok)
      | _ => (Some (Enrollment.set_status status enrollment), Ok)
      end
  end.

(** The [pagination] object of the list handlers. *)
Record Pagination : Type := mkPagination {
  prev : option (Z * Z);
  next : option (Z * Z)
}.

(** The pagination links of [getMyEnrollments] and
    [getCourseEnrollments]. *)
Definition paginate (page limit total : Z) : Pagination :=
  let startIndex := (page - 1) * limit in
  mkPagination
    (if 0 <? startIndex then Some (page - 1, limit) else None)
    (if startIndex + limit <? total then Some (page + 1, limit) else None).

(** [.limit(limit).skip(startIndex)] on the sorted query result. *)
Definition pageOf {A : Type} (page limit : Z) (result : list A) : list A :=
  let startIndex := (page - 1) * limit in
  firstn (Z.to_nat limit) (skipn (Z.to_nat startIndex) result).

End EnrollmentsController.

(** ** The lessons controller *)

Module LessonsController.

(** The collections the handlers read and write.  [previews] holds the
    [_id]s of the lessons whose [isPreview] is set. *)
Record Store : Type := mkStore {
  lessons : Lesson.Collection;
  previews : list ObjectId;
  courses : CourseDoc.Collection;
  enrollments : list Enrollment.t;
  progress : list Progress.t
}.

(** [lesson.isPreview]. *)
Definition isPreview (store : Store) (lesson : Lesson.t) : bool :=
  existsb (String.eqb (Lesson._id lesson)) (previews store).

(** The [_id] a [lesson] path refers to. *)
Definition lessonIdOf (r : Progress.LessonRef) : ObjectId :=
  match r with
  | Progress.Unpopulated id => id
  | Progress.Populated l => Lesson._id l
  end.

(** [Enrollment.findOne({ course, student, status: 'active' })]. *)
Definition findActive (es : list Enrollment.t) (courseId userId : ObjectId)
    : option Enrollment.t :=
  find (fun e => String.eqb (Enrollment.course e) courseId
                 && String.eqb (Enrollment.student e) userId
                 && Enrollment.Status_eqb (Enrollment.status e)
                      Enrollment.active) es.

(** [Progress.findOne({ user, lesson })]. *)
Definition findProgress (ps : list Progress.t) (userId lessonId : ObjectId)
    : option Progress.t :=
  find (fun p => String.eqb (Progress.user p) userId
                 && String.eqb (lessonIdOf (Progress.lesson p)) lessonId) ps.

(** [lesson.course.price] in [updateLessonProgress]: [lesson.course] is
    the stored reference, not a course document, so the property is
    [undefined], which [>] reads as [NaN]. *)
Definition priceOfReference (course : ObjectId) : JS.Number := JS.NaN.

(** The progress record [updateLessonProgress] works on: the one found,
    or a new one. *)
Definition findOrNew (now : Date) (store : Store) (userId : ObjectId)
    (lesson : Lesson.t) : Progress.t :=
  match findProgress (progress store) userId (Lesson._id lesson) with
  | Some found => found
  | None =>
      Progress.create userId (Lesson.course lesson) (Lesson._id lesson) now
  end.

(** What a handler answers: a body with status 200 or 201, a refusal, or
    an exception, which [asyncHandler] hands to the error middleware. *)
Inductive Response (A : Type) : Type :=
| Ok (data : A)
| Unauthorized      (* 401 *)
| Forbidden         (* 403 *)
| NotFound          (* 404 *)
| Failed.

Arguments Ok {A} data.
Arguments Unauthorized {A}.
Arguments Forbidden {A}.
Arguments NotFound {A}.
Arguments Failed {A}.

(** [exports.updateLessonProgress]: the response, and the enrollment
    found, as the handler leaves it. *)
Definition updateLessonProgress (now : Date) (clock : Enrollment.Clock)
    (store : Store) (userId lessonId : ObjectId) (body : Controller.Body)
    : Response Progress.t * option Enrollment.t :=
  match Lesson.findById (lessons store) lessonId with
  | None => (NotFound, None)
  | Some lesson =>
      let enrollment :=
        findActive (enrollments store) (Lesson.course lesson) userId in
      if match enrollment with None => true | Some _ => false end
         && JS.gtb (priceOfReference (Lesson.course lesson)) (JS.Fin 0)
      then (Forbidden, enrollment)
      else
        match Controller.updateLessonProgress now lesson body
                (findOrNew now store userId lesson) with
        | JS.Threw _ => (Failed, enrollment)
        | JS.Returned progress =>
            match enrollment with
            | Some found =>
                if Progress.Status_eqb (Progress.status progress)
                     Progress.completed
                then
                  match Enrollment.markLessonCompleted (lessons store) clock
                          lessonId
                          (match Controller.body_watchTime body with
                           | Some watchTime => watchTime
                           | None => 0
                           end)
                          None found with
                  | JS.Returned after => (Ok progress, Some after)
                  | JS.Threw after => (Failed, Some after)
                  end
                else (Ok progress, Some found)
            | None => (Ok progress, None)
            end
        end
  end.

(** The replacement of [correctAnswer] by [undefined] in every question
    that [getLesson] applies to the lesson it sends. *)
Definition withoutAnswers (lesson : Lesson.t) : Lesson.t :=
  Lesson.mkLesson (Lesson._id lesson) (Lesson.course lesson)
    (Lesson.order lesson) (Lesson.type lesson) (Lesson.video_duration lesson)
    (map (fun q => Lesson.mkQuestion (Lesson.q_id q) JS.VUndefined
                     (Lesson.points q))
       (Lesson.quiz_questions lesson))
    (Lesson.quiz_passingScore lesson) (Lesson.isPublished lesson)
    (Lesson.requiredWatchTime lesson).

Definition isQuiz (ty : Lesson.LessonType) : bool :=
  match ty with Lesson.quiz => true | _ => false end.

Definition isStudent (r : Controller.Role) : bool :=
  match r with Controller.student => true | _ => false end.

(** The body of [getLesson]'s answer: the lesson data and the progress
    record, [None] for [null]. *)
Record Shown : Type := mkShown {
  lessonData : Lesson.t;
  shownProgress : option Progress.t
}.

(** The access check of [getLesson]: [Some] response when the request
    ends there.  [course.price] of a course that does not exist
    throws. *)
Definition refusal (store : Store) (user : Controller.User)
    (lesson : Lesson.t) : option (Response Shown) :=
  if negb (isPreview store lesson) then
    match CourseDoc.findById (courses store) (Lesson.course lesson) with
    | None => Some Failed
    | Some course =>
        if (0 <? CourseDoc.price course)
           && isStudent (Controller.role user)
        then
          match findActive (enrollments store) (Lesson.course lesson)
                  (Controller.id user) with
          | None => Some Forbidden
          | Some _ => None
          end
        else None
    end
  else None.

(** [exports.getLesson]: the response and the progress collection, which
    gains a record when a student had none. *)
Definition getLesson (now : Date) (store : Store) (user : Controller.User)
    (lessonId : ObjectId) : Response Shown * list Progress.t :=
  match Lesson.findById (lessons store) lessonId with
  | None => (NotFound, progress store)
  | Some lesson =>
      match refusal store user lesson with
      | Some response => (response, progress store)
      | None =>
          let found :=
            findProgress (progress store) (Controller.id user) lessonId in
          let created :=
            match found with
            | None =>
                if isStudent (Controller.role user)
                then [Progress.create (Controller.id user)
                        (Lesson.course lesson) lessonId now]
                else []
            | Some _ => []
            end in
          let progress' :=
            match found with
            | Some p => Some p
            | None => head created
            end in
          let lessonData :=
            if isQuiz (Lesson.type lesson)
               && match progress' with
                  | None => true
                  | Some p =>
                      negb (Progress.Status_eqb (Progress.status p)
                              Progress.completed)
                  end
            then withoutAnswers lesson
            else lesson in
          (Ok (mkShown lessonData progress'), progress store ++ created)
      end
  end.

(** The check of [createLesson], [updateLesson] and [deleteLesson]:
    [course.instructor.toString() !== req.user.id && req.user.role !==
    'admin']. *)
Definition notOwner (user : Controller.User) (course : CourseDoc.t) : bool :=
  negb (String.eqb (CourseDoc.instructor course) (Controller.id user))
  && negb (Controller.isAdmin (Controller.role user)).

(** [exports.createLesson]; [lesson] is the document [Lesson.create]
    makes of the request body. *)
Definition createLesson (user : Controller.User) (lesson : Lesson.t)
    (store : Store) : Store * Response Lesson.t :=
  match CourseDoc.findById (courses store) (Lesson.course lesson) with
  | None => (store, NotFound)
  | Some course =>
      if notOwner user course then (store, Unauthorized)
      else
        (mkStore (lessons store ++ [lesson]) (previews store)
           (CourseDoc.incTotalLectures (Lesson.course lesson) 1
              (courses store))
           (enrollments store) (progress store),
         Ok lesson)
  end.

(** [lesson.remove()]: the first document with that [_id] leaves the
    collection. *)
Fixpoint remove (id : ObjectId) (db : Lesson.Collection)
    : Lesson.Collection :=
  match db with
  | [] => []
  | l :: rest =>
      if String.eqb (Lesson._id l) id then rest else l :: remove id rest
  end.

(** [exports.deleteLesson]. *)
Definition deleteLesson (user : Controller.User) (lessonId : ObjectId)
    (store : Store) : Store * Response unit :=
  match Lesson.findById (lessons store) lessonId with
  | None => (store, NotFound)
  | Some lesson =>
      match CourseDoc.findById (courses store) (Lesson.course lesson) with
      | None => (store, Failed)
      | Some course =>
          if notOwner user course then (store, Unauthorized)
          else
            (mkStore (remove lessonId (lessons store)) (previews store)
               (CourseDoc.incTotalLectures (Lesson.course lesson) (-1)
                  (courses store))
               (enrollments store) (progress store),
             Ok tt)
      end
  end.

End LessonsController.

(** ** The users controller *)

Module UsersController.

(** The statistics of [getUserProgress]. *)
Record Statistics : Type := mkStatistics {
  totalCourses : Z;
  completedCourses : Z;
  totalStudyTime : Z
}.

(** [exports.getUserProgress], its overall statistics: they are computed
    from the result of [Enrollment.find({ student, status: 'active' })]. *)
Definition getUserProgress (all : list Enrollment.t) (userId : ObjectId)
    : Statistics :=
  let enrollments :=
    filter (fun e => String.eqb (Enrollment.student e) userId
                     && Enrollment.Status_eqb (Enrollment.status e)
                          Enrollment.active) all in
  mkStatistics
    (Z.of_nat (List.length enrollments))
    (Z.of_nat (List.length
       (filter (fun e => Enrollment.Status_eqb (Enrollment.status e)
                           Enrollment.completed) enrollments)))
    (fold_left (fun total e => total + EnrollmentStats.totalStudyTime e)
       enrollments 0).

End UsersController.

(** ** Vocabulary of the further properties *)

Module Facts.

(** The percentage [updateWatchTime] stores for watch time [w] and
    duration [d]: [Math.min(Math.round((w / d) * 100), 100)]. *)
Definition watchedPercent (w d : Z) : JS.Number :=
  JS.Math_min (JS.roundedPercent w d) (JS.Fin 100).

(** [highestScore] bounds every attempt; [bestAttempt], once set, is the
    number of the first attempt that scored [highestScore]; while it is
    unset [highestScore] is still 0. *)
Definition bestConsistent (q : Progress.Quiz) : Prop :=
  (forall a, In a (Progress.attempts q) ->
             Progress.score a <= Progress.highestScore q)
  /\ match Progress.bestAttempt q with
     | Some k =>
         exists i a,
           k = Z.of_nat i + 1
           /\ nth_error (Progress.attempts q) i = Some a
           /\ Progress.attemptNumber a = k
           /\ Progress.score a = Progress.highestScore q
           /\ forall j b, (j < i)%nat ->
                          nth_error (Progress.attempts q) j = Some b ->
                          Progress.score b < Progress.highestScore q
     | None => Progress.highestScore q = 0
     end.

(** Distinct lessons of one course have distinct orders. *)
Definition ordersDistinct (db : Lesson.Collection) : Prop :=
  forall a b, In a db -> In b db ->
              Lesson.course a = Lesson.course b ->
              Lesson.order a = Lesson.order b -> a = b.

(** [m] follows [l] in the course: a later lesson of the same course. *)
Definition after (l m : Lesson.t) : Prop :=
  Lesson.course m = Lesson.course l /\ Lesson.order l < Lesson.order m.

(** A student has at most one enrollment in a course. *)
Definition onePerPair (es : list Enrollment.t) : Prop :=
  NoDup (map (fun e => (Enrollment.student e, Enrollment.course e)) es).

(** The number of enrollment documents of a course. *)
Definition enrolled (es : list Enrollment.t) (courseId : ObjectId) : Z :=
  Z.of_nat (List.length
    (filter (fun e => String.eqb (Enrollment.course e) courseId) es)).

(** Every course counts its enrollment documents in [enrollmentCount]. *)
Definition countsAgree (db : EnrollmentsController.Db) : Prop :=
  forall c, In c (EnrollmentsController.courses db) ->
            CourseDoc.enrollmentCount c
            = enrolled (EnrollmentsController.enrollments db)
                (CourseDoc._id c).

(** The courses have distinct [_id]s. *)
Definition idsDistinct (cs : CourseDoc.Collection) : Prop :=
  NoDup (map CourseDoc._id cs).

(** The course can be enrolled in by the student: it exists, is
    published, and the student has no enrollment in it. *)
Definition enrollable (db : EnrollmentsController.Db)
    (studentId courseId : ObjectId) : Prop :=
  exists course,
    CourseDoc.findById (EnrollmentsController.courses db) courseId
    = Some course
    /\ CourseDoc.status course = CourseDoc.published
    /\ EnrollmentsController.findEnrollment
         (EnrollmentsController.enrollments db) studentId courseId = None.

(** The progress documents of a collection hold their lesson as the
    stored reference, which is what a query without [populate] returns. *)
Definition references (ps : list Progress.t) : Prop :=
  forall p, In p ps -> exists id, Progress.lesson p = Progress.Unpopulated id.

(** Every course counts its lessons in [totalLectures]. *)
Definition lecturesAgree (store : LessonsController.Store) : Prop :=
  forall c, In c (LessonsController.courses store) ->
            CourseDoc.totalLectures c
            = Z.of_nat (List.length
                (filter (fun l => String.eqb (Lesson.course l)
                                    (CourseDoc._id c))
                   (LessonsController.lessons store))).

(** The user may change the lessons of the course: its instructor, or an
    admin. *)
Definition mayEdit (user : Controller.User) (course : CourseDoc.t) : Prop :=
  CourseDoc.instructor course = Controller.id user
  \/ Controller.role user = Controller.admin.

(** No question of the lesson carries a correct answer. *)
Definition answersHidden (l : Lesson.t) : Prop :=
  forall q, In q (Lesson.quiz_questions l) ->
            Lesson.correctAnswer q = JS.VUndefined.

End Facts.

(** ** More sample documents *)

Module Sample2.

Local Open Scope string_scope.

(** Three attempts on the sample quiz: 4, then 5, then 5 again. *)
Definition threeAttempts : list Spec.Submission :=
  [ Spec.mkSubmission 1000 [] 4 30;
    Spec.mkSubmission 2000 [] 5 40;
    Spec.mkSubmission 3000 [] 5 20 ].

(** The progress document of the sample video lesson as the request
    handler finds it: its [lesson] is the stored reference. *)
Definition asFound : Progress.t :=
  Progress.create Sample.studentId Sample.courseId
    "5f1a00000000000000000001" 900.

(** A video of 40 seconds. *)
Definition shortVideo : Lesson.t :=
  Lesson.mkLesson "5f1a00000000000000000004" Sample.courseId 4
    Lesson.video (Some 40) [] None true None.

(** A video whose stored duration is negative. *)
Definition negativeVideo : Lesson.t :=
  Lesson.mkLesson "5f1a00000000000000000005" Sample.courseId 5
    Lesson.video (Some (-40)) [] None true None.

(** The sample video lesson declared completed by an explicit status
    update, before any watch time was reported. *)
Definition declaredDone : Progress.t :=
  Controller.updateStatus 1000 Progress.completed
    (Sample.fresh Sample.videoLesson).

(** The [_id] of the [n]-th lesson of a long course. *)
Definition longCourseId (n : nat) : ObjectId :=
  String (ascii_of_nat (64 + n)) "f1a0000000000000000long".

(** A course of forty published lessons, and an active enrollment with
    the first twenty-three of them completed. *)
Definition fortyLessons : Lesson.Collection :=
  map (fun n => Sample.lessonAt (Z.of_nat n) (longCourseId n)) (seq 1 40).

Definition twentyThreeDone : Enrollment.t :=
  Enrollment.mkEnrollment "5f1a0000000000000000e040" Sample.studentId
    Sample.courseId Enrollment.active
    (map (fun n => Sample.done (longCourseId n)) (seq 1 23))
    (Some (longCourseId 24)) (JS.Fin 55) 500 None false None.

(** Bookmarks and notes of one progress document. *)
Definition lists : ProgressLists.t :=
  ProgressLists.mkLists
    [ ProgressLists.mkBookmark "5f1a0000000000000000c001" 30 "start" 100;
      ProgressLists.mkBookmark "5f1a0000000000000000c002" 95 "proof" 200 ]
    [ ProgressLists.mkNote "5f1a0000000000000000d001" "first" (Some 30)
        true 100 None;
      ProgressLists.mkNote "5f1a0000000000000000d002" "second" None
        false 200 None ]
    [].

Definition paidCourse : CourseDoc.t :=
  CourseDoc.mkCourse Sample.courseId "5f1a0000000000000000b001"
    CourseDoc.published 50 (Some 30) 1 5.

(** A store with one published course and the enrollment of one
    student. *)
Definition store : EnrollmentsController.Db :=
  EnrollmentsController.mkDb [paidCourse] [Sample.twoDone] [].

Definition otherStudent : ObjectId := "5f1a0000000000000000a002".

(** The paid course with its four text lessons and a quiz, the
    enrollment of one student, and no progress record yet. *)
Definition campus : LessonsController.Store :=
  LessonsController.mkStore
    (Sample.fourLessons ++ [Sample.quizLesson])%list []
    [paidCourse] [Sample.twoDone] [].

(** A request that declares the lesson completed. *)
Definition sayCompleted : Controller.Body :=
  Controller.mkBody None (Some Progress.completed) None None.

Definition teacher : Controller.User :=
  Controller.mkUser "5f1a0000000000000000b001" Controller.instructor.

(** The progress collection of a student who has completed one lesson
    of the course and opened another, later. *)
Definition twoRecords : list Progress.t :=
  [ Sample.markedDone;
    Progress.create Sample.studentId Sample.courseId
      "5f1a00000000000000000012" 2500 ].

(** A fifth text lesson for the course. *)
Definition fifthLesson : Lesson.t :=
  Sample.lessonAt 5 "5f1a00000000000000000015".

End Sample2.
(** * Properties *)

(** ** Texts: JSON texts determine values *)

Lemma string_app_inv_head (a x y : string) :
  (a ++ x = a ++ y)%string -> x = y.
Proof.
  induction a as [| c a IH]; cbn; [trivial |].
  intros [= H]. now apply IH.
Qed.

Lemma append_assoc (a b c : string) :
  ((a ++ b) ++ c = a ++ (b ++ c))%string.
Proof.
  induction a as [| x a IH]; cbn; [reflexivity | now rewrite IH].
Qed.

Lemma string_app_nil_r (a : string) : (a ++ EmptyString)%string = a.
Proof.
  induction a as [| c a IH]; cbn; [reflexivity | now rewrite IH].
Qed.

(** Two texts with a common extension: one of them is a prefix of the
    other. *)
Lemma append_eq_prefix (a b x y : string) :
  (a ++ x = b ++ y)%string ->
  String.prefix a b = true \/ String.prefix b a = true.
Proof.
  revert b. induction a as [| c a IH]; intros [| d b]; cbn; auto.
  intros [= -> H]. destruct (IH b H) as [Hp | Hp].
  - left. destruct (ascii_dec d d); [exact Hp | contradiction].
  - right. destruct (ascii_dec d d); [exact Hp | contradiction].
Qed.

Lemma allAscii_complete (c : ascii) : In c Text.allAscii.
Proof.
  unfold Text.allAscii. rewrite <- (ascii_nat_embedding c).
  apply in_map, in_seq. pose proof (nat_ascii_bounded c). lia.
Qed.

Lemma escapeChar_apart (c c' : ascii) :
  String.prefix (JS.escapeChar c) (JS.escapeChar c') = true -> c = c'.
Proof.
  assert (Text.escapesApart = true) as Htable by (vm_compute; reflexivity).
  unfold Text.escapesApart in Htable.
  rewrite forallb_forall in Htable.
  specialize (Htable c (allAscii_complete c)).
  rewrite forallb_forall in Htable.
  specialize (Htable c' (allAscii_complete c')).
  intros Hp. rewrite Hp in Htable. cbn in Htable.
  now apply Ascii.eqb_eq.
Qed.

Lemma escapeChar_head (c : ascii) :
  exists h t, JS.escapeChar c = String h t /\ h <> Text.quoteChar.
Proof.
  assert (Text.escapesUnquoted = true) as Htable by (vm_compute; reflexivity).
  unfold Text.escapesUnquoted in Htable.
  rewrite forallb_forall in Htable.
  specialize (Htable c (allAscii_complete c)).
  destruct (JS.escapeChar c) as [| h t]; [discriminate |].
  exists h, t. split; [reflexivity |].
  intros ->. now rewrite Ascii.eqb_refl in Htable.
Qed.

(** The escapes form a prefix code. *)
Lemma escapeChar_prefix_free (c c' : ascii) (x y : string) :
  (JS.escapeChar c ++ x = JS.escapeChar c' ++ y)%string ->
  c = c' /\ x = y.
Proof.
  intros H.
  assert (c = c') as <-.
  { destruct (append_eq_prefix _ _ _ _ H) as [Hp | Hp].
    - now apply escapeChar_apart.
    - symmetry. now apply escapeChar_apart. }
  split; [reflexivity |]. now apply string_app_inv_head in H.
Qed.

(** An escaped text is read back up to its closing quote. *)
Lemma escape_prefix (s : string) :
  forall s' r1 r2,
    (JS.escape s ++ JS.quote ++ r1 = JS.escape s' ++ JS.quote ++ r2)%string ->
    s = s' /\ r1 = r2.
Proof.
  induction s as [| c s IH]; intros [| c' s'] r1 r2 H.
  - cbn in H. injection H as H. now split.
  - exfalso. cbn [JS.escape] in H.
    destruct (escapeChar_head c') as (h & t & Hesc & Hh).
    rewrite Hesc in H. cbn in H. injection H as H _. now apply Hh.
  - exfalso. cbn [JS.escape] in H.
    destruct (escapeChar_head c) as (h & t & Hesc & Hh).
    rewrite Hesc in H. cbn in H. injection H as H _. now apply Hh.
  - cbn [JS.escape] in H. rewrite !append_assoc in H.
    apply escapeChar_prefix_free in H as [<- H].
    apply IH in H as [<- <-]. now split.
Qed.

Lemma closes_noDigit (r : string) : Text.closes r -> Text.noDigit r.
Proof.
  destruct r as [| c r]; cbn; [trivial |]. now intros [-> | ->].
Qed.

(** Digits are read back up to the first character that is no digit. *)
Lemma digits_prefix (d : Decimal.uint) :
  forall d' r1 r2,
    (NilEmpty.string_of_uint d ++ r1
     = NilEmpty.string_of_uint d' ++ r2)%string ->
    Text.noDigit r1 -> Text.noDigit r2 ->
    d = d' /\ r1 = r2.
Proof.
  induction d as [| d IH | d IH | d IH | d IH | d IH | d IH | d IH | d IH
                 | d IH | d IH];
    intros [| d' | d' | d' | d' | d' | d' | d' | d' | d' | d'] r1 r2 H N1 N2;
    cbn in H;
    try (now split);
    try (subst r1; cbn in N1; discriminate N1);
    try (subst r2; cbn in N2; discriminate N2);
    try (injection H as H; destruct (IH _ _ _ H N1 N2) as [-> ->];
         now split);
    try discriminate H.
Qed.

Lemma to_int_nonnil (z : Z) :
  match Z.to_int z with
  | Decimal.Pos d | Decimal.Neg d => d <> Decimal.Nil
  end.
Proof.
  destruct z as [| p | p]; cbn; try discriminate;
    apply DecimalPos.Unsigned.to_uint_nonnil.
Qed.

Lemma string_of_uint_nonnil (d : Decimal.uint) :
  d <> Decimal.Nil ->
  NilZero.string_of_uint d = NilEmpty.string_of_uint d
  /\ exists c t, NilEmpty.string_of_uint d = String c t
                 /\ Text.isDigit c = true.
Proof.
  destruct d; intros Hd; try (now contradiction Hd);
    (split; [reflexivity |]); cbn; eauto.
Qed.

(** The text of a whole number is read back up to the first character
    that is no digit. *)
Lemma showNumber_prefix (z z' : Z) (r1 r2 : string) :
  (JS.showNumber z ++ r1 = JS.showNumber z' ++ r2)%string ->
  Text.noDigit r1 -> Text.noDigit r2 ->
  z = z' /\ r1 = r2.
Proof.
  unfold JS.showNumber. intros H N1 N2.
  pose proof (to_int_nonnil z) as Hz. pose proof (to_int_nonnil z') as Hz'.
  assert (Z.to_int z = Z.to_int z' /\ r1 = r2) as [Heq Hr].
  { destruct (Z.to_int z) as [d | d], (Z.to_int z') as [d' | d'];
      cbn [NilZero.string_of_int] in H;
      destruct (string_of_uint_nonnil d Hz) as (E & c & t & Ed & Hc);
      destruct (string_of_uint_nonnil d' Hz') as (E' & c' & t' & Ed' & Hc');
      rewrite E, E' in H.
    - destruct (digits_prefix d d' r1 r2 H N1 N2) as [-> ->]. now split.
    - exfalso. rewrite Ed in H. cbn in H. injection H as H _.
      subst c. discriminate Hc.
    - exfalso. rewrite Ed' in H. cbn in H. injection H as H _.
      subst c'. discriminate Hc'.
    - cbn in H. injection H as H.
      destruct (digits_prefix d d' r1 r2 H N1 N2) as [-> ->]. now split. }
  split; [now apply DecimalZ.to_int_inj | exact Hr].
Qed.

Lemma showNumber_start (z : Z) :
  exists c t, JS.showNumber z = String c t /\ Text.startClass c = 2%nat.
Proof.
  unfold JS.showNumber. pose proof (to_int_nonnil z) as Hz.
  destruct (Z.to_int z) as [d | d]; cbn [NilZero.string_of_int].
  - destruct d; try (now contradiction Hz); cbn; eauto.
  - eauto.
Qed.

(** The first character of a text tells the shape of the value. *)
Lemma stringifyElement_start (v : JS.Value) :
  exists c t,
    JS.stringifyElement v = String c t /\ Text.startClass c = Text.tag v.
Proof.
  destruct v as [| | [|] | z | s | items]; cbn;
    eauto using showNumber_start.
Qed.

Lemma Value_induction (P : JS.Value -> Prop) :
  P JS.VUndefined -> P JS.VNull -> (forall b, P (JS.VBool b)) ->
  (forall z, P (JS.VNum z)) -> (forall s, P (JS.VStr s)) ->
  (forall items, Forall P items -> P (JS.VArr items)) ->
  forall v, P v.
Proof.
  intros HU HN HB HZ HS HA. fix IH 1.
  intros [| | b | z | s | items].
  - exact HU.
  - exact HN.
  - apply HB.
  - apply HZ.
  - apply HS.
  - apply HA.
    induction items as [| x items IHitems]; constructor;
      [apply IH | exact IHitems].
Qed.

Lemma joinElements_cons (x y : JS.Value) (l : list JS.Value) :
  JS.joinElements JS.stringifyElement (x :: y :: l)
  = (JS.stringifyElement x ++ ","
     ++ JS.joinElements JS.stringifyElement (y :: l))%string.
Proof. reflexivity. Qed.

Lemma same_tag (v w : JS.Value) (r1 r2 : string) :
  (JS.stringifyElement v ++ r1 = JS.stringifyElement w ++ r2)%string ->
  Text.tag v = Text.tag w.
Proof.
  destruct (stringifyElement_start v) as (c & t & -> & <-).
  destruct (stringifyElement_start w) as (c' & t' & -> & <-).
  cbn. now intros [= -> _].
Qed.

Lemma bracket_not_start (v : JS.Value) (x y : string) :
  (JS.stringifyElement v ++ x)%string <> String "]" y.
Proof.
  destruct (stringifyElement_start v) as (c & t & -> & Hc).
  cbn. intros [= -> _].
  destruct v; cbn in Hc; discriminate Hc.
Qed.

(** The elements of an array are read back up to its closing bracket. *)
Lemma joinElements_prefix (items : list JS.Value) :
  Forall Text.readsBack items ->
  forall items' r1 r2,
    forallb JS.defined items' = true ->
    (JS.joinElements JS.stringifyElement items ++ "]" ++ r1
     = JS.joinElements JS.stringifyElement items' ++ "]" ++ r2)%string ->
    items = items' /\ r1 = r2.
Proof.
  induction 1 as [| x rest Hx Hrest IH]; intros items' r1 r2 Hdef H.
  - destruct items' as [| x' [| y' l']].
    + cbn in H. injection H as H. now split.
    + exfalso. cbn [JS.joinElements] in H. symmetry in H.
      now apply bracket_not_start in H.
    + exfalso. rewrite joinElements_cons, append_assoc in H. symmetry in H.
      now apply bracket_not_start in H.
  - destruct items' as [| x' rest'].
    + exfalso. destruct rest as [| y l].
      * cbn [JS.joinElements] in H. now apply bracket_not_start in H.
      * rewrite joinElements_cons, append_assoc in H.
        now apply bracket_not_start in H.
    + cbn [forallb] in Hdef. apply andb_true_iff in Hdef as [Hx' Hrest'].
      destruct rest as [| y l], rest' as [| y' l'].
      * cbn [JS.joinElements] in H.
        apply (Hx x') in H as [<- H]; cbn; auto.
        injection H as H. now split.
      * exfalso. rewrite joinElements_cons in H.
        cbn [JS.joinElements] in H. rewrite append_assoc in H.
        apply (Hx x') in H as [_ H]; cbn; auto. discriminate H.
      * exfalso. rewrite joinElements_cons in H.
        cbn [JS.joinElements] in H. rewrite append_assoc in H.
        apply (Hx x') in H as [_ H]; cbn; auto. discriminate H.
      * rewrite !joinElements_cons, !append_assoc in H.
        apply (Hx x') in H as [<- H]; cbn; auto.
        cbn in H. injection H as H.
        apply (IH (y' :: l')) in H as [<- <-]; [now split | exact Hrest'].
Qed.

(** The text of a value without [undefined], followed by something that
    may follow an element, is read back as that value. *)
Lemma stringifyElement_readsBack (v : JS.Value) :
  JS.defined v = true -> Text.readsBack v.
Proof.
  induction v as [| | b | z | s | items IH] using Value_induction;
    intros Hv w r1 r2 Hw C1 C2 H; pose proof (same_tag _ _ _ _ H) as Htag.
  - discriminate Hv.
  - destruct w; try discriminate Htag; try discriminate Hw.
    cbn in H. injection H as H. now split.
  - destruct w as [| | b' | | |]; try discriminate Htag.
    destruct b, b'; cbn in H; try discriminate H;
      injection H as H; now split.
  - destruct w as [| | | z' | |]; try discriminate Htag.
    cbn [JS.stringifyElement] in H.
    apply showNumber_prefix in H as [<- <-]; auto using closes_noDigit.
  - destruct w as [| | | | s' |]; try discriminate Htag.
    cbn [JS.stringifyElement] in H. rewrite !append_assoc in H.
    cbn in H. injection H as H.
    apply escape_prefix in H as [<- <-]. now split.
  - destruct w as [| | | | | items']; try discriminate Htag.
    cbn [JS.stringifyElement] in H. rewrite !append_assoc in H.
    cbn in H. injection H as H.
    apply joinElements_prefix in H as [<- <-]; [now split | | exact Hw].
    cbn [JS.defined] in Hv. rewrite forallb_forall in Hv.
    rewrite Forall_forall in IH. apply Forall_forall.
    intros x Hin. apply (IH x Hin), Hv, Hin.
Qed.

(** [JSON.stringify] is injective on values without [undefined]. *)
Lemma JSON_stringify_inj (v w : JS.Value) :
  JS.defined v = true -> JS.defined w = true ->
  JS.JSON_stringify v = JS.JSON_stringify w ->
  v = w.
Proof.
  intros Hv Hw H.
  assert (JS.stringifyElement v = JS.stringifyElement w) as Heq.
  { destruct v, w; try discriminate Hv; try discriminate Hw;
      cbn [JS.JSON_stringify] in H; congruence. }
  apply (stringifyElement_readsBack v Hv w EmptyString EmptyString Hw I I).
  now rewrite !string_app_nil_r.
Qed.
(** ** Arithmetic of percentages *)

(** *** Rounding to binary64 *)

Section Rounding.

Local Open Scope Q_scope.

Lemma two_gt_1 : 1 < 2.
Proof. reflexivity. Qed.

Lemma pow2_pos (e : Z) : 0 < 2 ^ e.
Proof. now apply Qpower_0_lt. Qed.

Lemma pow2_plus (a b : Z) : 2 ^ (a + b) == 2 ^ a * 2 ^ b.
Proof. now apply Qpower_plus. Qed.

Lemma pow2_le (a b : Z) : (a <= b)%Z -> 2 ^ a <= 2 ^ b.
Proof. intros H. now apply Qpower_le_compat_l. Qed.

Lemma pow2_lt_inv (a b : Z) : 2 ^ a < 2 ^ b -> (a < b)%Z.
Proof. intros H. now apply Qpower_lt_compat_l_inv with (q := 2). Qed.

Lemma pow2_inject (n : Z) : (0 <= n)%Z -> inject_Z (2 ^ n) == 2 ^ n.
Proof. intros H. now rewrite Zpower_Qpower. Qed.

(** A quotient by a power of two, bounded. *)
Lemma scaled_lt (q : Q) (e k : Z) : q < 2 ^ (e + k) -> q / 2 ^ e < 2 ^ k.
Proof.
  intros H. apply Qlt_shift_div_r; [apply pow2_pos |].
  now rewrite Qmult_comm, <- pow2_plus.
Qed.

Lemma scaled_ge (q : Q) (e k : Z) : 2 ^ (e + k) <= q -> 2 ^ k <= q / 2 ^ e.
Proof.
  intros H. apply Qle_shift_div_l; [apply pow2_pos |].
  now rewrite Qmult_comm, <- pow2_plus.
Qed.

Lemma scaled_le (x y : Q) (e : Z) : x <= y -> x / 2 ^ e <= y / 2 ^ e.
Proof.
  intros H. unfold Qdiv. apply Qmult_le_compat_r; [exact H |].
  apply Qlt_le_weak, Qinv_lt_0_compat, pow2_pos.
Qed.

(** The binade of a positive rational holds it. *)
Lemma binade_spec (q : Q) :
  0 < q -> 2 ^ JS.binade q <= q /\ q < 2 ^ (JS.binade q + 1).
Proof.
  intros Hq. destruct q as [n d].
  assert (0 < n)%Z as Hn by (unfold Qlt in Hq; cbn in Hq; lia).
  unfold JS.binade. cbn [Qnum Qden].
  set (ln := Z.log2 n). set (ld := Z.log2 (Z.pos d)).
  destruct (Z.log2_spec n Hn) as [Hn1 Hn2]. fold ln in Hn1, Hn2.
  destruct (Z.log2_spec (Z.pos d) eq_refl) as [Hd1 Hd2]. fold ld in Hd1, Hd2.
  assert (0 <= ln)%Z as Hln by apply Z.log2_nonneg.
  assert (0 <= ld)%Z as Hld by apply Z.log2_nonneg.
  assert (n # d == inject_Z n / inject_Z (Z.pos d)) as Hdiv
    by apply Qmake_Qdiv.
  assert (0 < inject_Z (Z.pos d)) as Hdpos by reflexivity.
  assert (n # d < 2 ^ (ln - ld + 1)) as Hupper.
  { rewrite Hdiv. apply Qlt_shift_div_r; [exact Hdpos |].
    apply Qlt_le_trans with (2 ^ (ln - ld + 1) * 2 ^ ld).
    - rewrite <- pow2_plus. replace (ln - ld + 1 + ld)%Z with (Z.succ ln) by lia.
      rewrite <- pow2_inject by lia. now rewrite <- Zlt_Qlt.
    - apply Qmult_le_l; [apply pow2_pos |].
      rewrite <- pow2_inject by lia. now rewrite <- Zle_Qle. }
  assert (2 ^ (ln - ld - 1) <= n # d) as Hlower.
  { rewrite Hdiv. apply Qle_shift_div_l; [exact Hdpos |].
    apply Qle_trans with (2 ^ (ln - ld - 1) * 2 ^ (Z.succ ld)).
    - apply Qmult_le_l; [apply pow2_pos |].
      rewrite <- pow2_inject by lia. rewrite <- Zle_Qle. lia.
    - rewrite <- pow2_plus. replace (ln - ld - 1 + Z.succ ld)%Z with ln by lia.
      rewrite <- pow2_inject by lia. now rewrite <- Zle_Qle. }
  destruct (Qle_bool (2 ^ (ln - ld)) (n # d)) eqn:Hle.
  - apply Qle_bool_iff in Hle. now split.
  - split; [exact Hlower |].
    replace (ln - ld - 1 + 1)%Z with (ln - ld)%Z by lia.
    apply Qnot_le_lt. intros H. apply Qle_bool_iff in H. congruence.
Qed.

Lemma binade_mono (x y : Q) :
  0 < x -> x <= y -> (JS.binade x <= JS.binade y)%Z.
Proof.
  intros Hx Hxy.
  destruct (binade_spec x Hx) as [Hx1 _].
  destruct (binade_spec y (Qlt_le_trans _ _ _ Hx Hxy)) as [_ Hy2].
  assert (JS.binade x < JS.binade y + 1)%Z; [| lia].
  apply pow2_lt_inv.
  eapply Qle_lt_trans; [exact Hx1 |]. eapply Qle_lt_trans; eassumption.
Qed.

Lemma exponent_mono (x y : Q) :
  0 < x -> x <= y -> (JS.exponent x <= JS.exponent y)%Z.
Proof.
  intros Hx Hxy. pose proof (binade_mono x y Hx Hxy). unfold JS.exponent. lia.
Qed.

(** Rounding to the nearest whole number. *)
Lemma nearestEven_cases (q : Q) :
  (JS.nearestEven q = Qfloor q /\ q - inject_Z (Qfloor q) <= 1 # 2)
  \/ (JS.nearestEven q = (Qfloor q + 1)%Z
      /\ 1 # 2 <= q - inject_Z (Qfloor q)).
Proof.
  unfold JS.nearestEven.
  destruct (Qcompare_spec (q - inject_Z (Qfloor q)) (1 # 2)) as [E | L | G].
  - destruct (Z.even (Qfloor q)); [left | right]; split;
      try reflexivity; rewrite E; apply Qle_refl.
  - left. split; [reflexivity | now apply Qlt_le_weak].
  - right. split; [reflexivity | now apply Qlt_le_weak].
Qed.

Lemma nearestEven_mono (x y : Q) :
  x <= y -> (JS.nearestEven x <= JS.nearestEven y)%Z.
Proof.
  intros Hxy. pose proof (Qfloor_resp_le x y Hxy) as Hfloor.
  destruct (Z.eq_dec (Qfloor x) (Qfloor y)) as [E | Hne].
  - unfold JS.nearestEven. rewrite E.
    set (f := inject_Z (Qfloor y)).
    destruct (Qcompare_spec (x - f) (1 # 2)) as [Ex | Lx | Gx];
      destruct (Qcompare_spec (y - f) (1 # 2)) as [Ey | Ly | Gy];
      try destruct (Z.even (Qfloor y)); try lia; exfalso; lra.
  - destruct (nearestEven_cases x) as [[-> _] | [-> _]];
      destruct (nearestEven_cases y) as [[-> _] | [-> _]]; lia.
Qed.

Lemma nearestEven_whole (z : Z) : JS.nearestEven (inject_Z z) = z.
Proof.
  unfold JS.nearestEven. rewrite Qfloor_Z.
  replace (inject_Z z - inject_Z z ?= 1 # 2) with Lt; [reflexivity |].
  symmetry. apply -> Qlt_alt. lra.
Qed.

(** The significand of a positive rational has at most 53 bits, and all
    of them outside the subnormal range. *)
Lemma significand_upper (q : Q) :
  0 < q -> (JS.nearestEven (q / 2 ^ JS.exponent q) <= 2 ^ 53)%Z.
Proof.
  intros Hq. rewrite <- (nearestEven_whole (2 ^ 53)).
  apply nearestEven_mono. rewrite pow2_inject by lia.
  apply Qlt_le_weak, scaled_lt.
  destruct (binade_spec q Hq) as [_ Hupper].
  eapply Qlt_le_trans; [exact Hupper |]. apply pow2_le.
  unfold JS.exponent. lia.
Qed.

Lemma significand_lower (q : Q) :
  0 < q -> (-1074 < JS.exponent q)%Z ->
  (2 ^ 52 <= JS.nearestEven (q / 2 ^ JS.exponent q))%Z.
Proof.
  intros Hq He. rewrite <- (nearestEven_whole (2 ^ 52)).
  apply nearestEven_mono. rewrite pow2_inject by lia.
  apply scaled_ge.
  destruct (binade_spec q Hq) as [Hlower _].
  eapply Qle_trans; [| exact Hlower]. apply pow2_le.
  unfold JS.exponent in *. lia.
Qed.

Lemma significand_nonneg (q : Q) :
  0 < q -> (0 <= JS.nearestEven (q / 2 ^ JS.exponent q))%Z.
Proof.
  intros Hq. rewrite <- (nearestEven_whole 0). apply nearestEven_mono.
  apply Qle_shift_div_l; [apply pow2_pos |]. rewrite Qmult_0_l.
  now apply Qlt_le_weak.
Qed.

(** The nearest representable value grows with the rational. *)
Lemma nearest_mono (x y : Q) :
  0 < x -> x <= y -> JS.nearest x <= JS.nearest y.
Proof.
  intros Hx Hxy. assert (0 < y) as Hy by (eapply Qlt_le_trans; eassumption).
  pose proof (exponent_mono x y Hx Hxy) as He. unfold JS.nearest.
  destruct (Z.eq_dec (JS.exponent x) (JS.exponent y)) as [E | Hne].
  - rewrite E. apply Qmult_le_compat_r; [| apply Qlt_le_weak, pow2_pos].
    rewrite <- Zle_Qle. apply nearestEven_mono. now apply scaled_le.
  - apply Qle_trans with (2 ^ (JS.exponent x + 53)).
    + rewrite Z.add_comm, pow2_plus.
      apply Qmult_le_compat_r; [| apply Qlt_le_weak, pow2_pos].
      apply Qle_trans with (inject_Z (2 ^ 53)).
      * rewrite <- Zle_Qle. now apply significand_upper.
      * rewrite (pow2_inject 53) by lia. apply Qle_refl.
    + apply Qle_trans with (2 ^ (52 + JS.exponent y)).
      * apply pow2_le. lia.
      * rewrite pow2_plus.
        apply Qmult_le_compat_r; [| apply Qlt_le_weak, pow2_pos].
        apply Qle_trans with (inject_Z (2 ^ 52)).
        -- rewrite (pow2_inject 52) by lia. apply Qle_refl.
        -- rewrite <- Zle_Qle. apply significand_lower; [exact Hy |].
           assert (-1074 <= JS.exponent x)%Z by (unfold JS.exponent; lia).
           lia.
Qed.

Lemma nearest_nonneg (q : Q) : 0 < q -> 0 <= JS.nearest q.
Proof.
  intros Hq. unfold JS.nearest.
  apply Qmult_le_0_compat; [| apply Qlt_le_weak, pow2_pos].
  change 0 with (inject_Z 0). rewrite <- Zle_Qle.
  now apply significand_nonneg.
Qed.

End Rounding.

(** On every pair of the grid, zero divisors and negative numbers
    included, [(n / d) * 100] as computed here is the value that the
    standard library's specification of binary64 division and
    multiplication gives. *)
Lemma agrees_with_SpecFloat :
  forallb
    (fun p =>
       Binary64.same (JS.times100 (JS.div (fst p) (snd p)))
         (Binary64.valueOf
            (SFmul 53 1024
               (SFdiv 53 1024 (Binary64.ofWhole (fst p))
                  (Binary64.ofWhole (snd p)))
               (Binary64.ofWhole 100))))
    Binary64.grid
  = true.
Proof. vm_compute. reflexivity. Qed.

(** *** The order of rounded quotients and products *)

Lemma roundPositive_mono (x y : Q) :
  (0 < x)%Q -> (x <= y)%Q ->
  Binary64.le (JS.roundPositive x) (JS.roundPositive y).
Proof.
  intros Hx Hxy. pose proof (nearest_mono x y Hx Hxy) as Hmono.
  unfold JS.roundPositive.
  destruct (Qle_bool (2 ^ 1024) (JS.nearest x)) eqn:Ox;
    destruct (Qle_bool (2 ^ 1024) (JS.nearest y)) eqn:Oy;
    cbn [Binary64.le]; trivial.
  - apply Qle_bool_iff in Ox.
    assert (Qle_bool (2 ^ 1024) (JS.nearest y) = true) as H
      by (apply Qle_bool_iff; eapply Qle_trans; eassumption).
    congruence.
  - now rewrite !Qred_correct.
Qed.

Lemma roundPositive_nonneg (q : Q) :
  (0 < q)%Q -> Binary64.le (JS.RFin 0) (JS.roundPositive q).
Proof.
  intros Hq. unfold JS.roundPositive.
  destruct (Qle_bool _ _); cbn [Binary64.le]; trivial.
  rewrite Qred_correct. now apply nearest_nonneg.
Qed.

Lemma le_negate (x y : JS.Real) :
  Binary64.le x y -> Binary64.le (JS.negate y) (JS.negate x).
Proof.
  destruct x, y; cbn [Binary64.le JS.negate]; trivial.
  intros H. now apply Qopp_le_compat.
Qed.

Lemma le_trans (x y z : JS.Real) :
  Binary64.le x y -> Binary64.le y z -> Binary64.le x z.
Proof.
  destruct x, y, z; cbn [Binary64.le]; trivial; try contradiction.
  apply Qle_trans.
Qed.

Lemma double_mono (x y : Q) :
  (x <= y)%Q -> Binary64.le (JS.double x) (JS.double y).
Proof.
  intros Hxy. unfold JS.double.
  destruct x as [[| nx | nx] dx] eqn:Ex; destruct y as [[| ny | ny] dy] eqn:Ey;
    cbn [Qnum]; try (exfalso; unfold Qle in Hxy; cbn in Hxy; lia).
  - apply Qle_refl.
  - now apply roundPositive_nonneg.
  - now apply roundPositive_mono.
  - apply (le_negate (JS.RFin 0)). now apply roundPositive_nonneg.
  - apply le_trans with (JS.RFin 0).
    + apply (le_negate (JS.RFin 0)). now apply roundPositive_nonneg.
    + now apply roundPositive_nonneg.
  - apply le_negate. apply roundPositive_mono; [reflexivity |].
    now apply Qopp_le_compat.
Qed.

Lemma double_number (q : Q) : Binary64.le (JS.double q) (JS.double q).
Proof. apply double_mono, Qle_refl. Qed.

Lemma times100_mono (x y : JS.Real) :
  Binary64.le x y -> Binary64.le (JS.times100 x) (JS.times100 y).
Proof.
  destruct x as [a | | |], y as [b | | |]; cbn [Binary64.le JS.times100];
    trivial; try contradiction.
  - intros Hab. apply double_mono.
    apply Qmult_le_compat_r; [exact Hab | discriminate].
  - intros _. pose proof (double_number (a * inject_Z 100)) as H.
    now destruct (JS.double _).
  - intros _. pose proof (double_number (b * inject_Z 100)) as H.
    now destruct (JS.double _).
Qed.

Lemma div_mono (a b d : Z) :
  0 < d -> a <= b -> Binary64.le (JS.div a d) (JS.div b d).
Proof.
  intros Hd Hab. unfold JS.div.
  destruct (Z.eqb_spec d 0) as [E | _]; [lia |].
  apply double_mono. unfold Qdiv.
  apply Qmult_le_compat_r; [now rewrite <- Zle_Qle |].
  apply Qlt_le_weak, Qinv_lt_0_compat. now rewrite <- (Zlt_Qlt 0).
Qed.

Lemma Math_round_mono (x y : JS.Real) :
  Binary64.le x y -> JS.leb (JS.Math_round x) (JS.Math_round y) = true.
Proof.
  destruct x as [a | | |], y as [b | | |]; cbn [Binary64.le JS.Math_round];
    trivial; try contradiction.
  intros Hab. apply Z.leb_le, Qfloor_resp_le. lra.
Qed.

Lemma leb_antisym (x y : JS.Number) :
  JS.leb x y = true -> JS.leb y x = true -> x = y.
Proof.
  destruct x, y; cbn; try discriminate; try reflexivity.
  intros H1 H2. apply Z.leb_le in H1, H2. f_equal. lia.
Qed.

(** [Math.round((n / d) * 100)] grows with [n] when [d] is positive. *)
Lemma roundedPercent_mono (n m d : Z) :
  0 < d -> n <= m ->
  JS.leb (JS.roundedPercent n d) (JS.roundedPercent m d) = true.
Proof.
  intros Hd Hnm. apply Math_round_mono, times100_mono. now apply div_mono.
Qed.

(** It depends on the ratio of its arguments alone. *)
Lemma roundedPercent_ratio (n d n' d' : Z) :
  d <> 0 -> d' <> 0 -> n * d' = n' * d ->
  JS.roundedPercent n d = JS.roundedPercent n' d'.
Proof.
  intros Hd Hd' Hratio.
  assert (inject_Z n / inject_Z d == inject_Z n' / inject_Z d')%Q as Heq.
  { assert (~ inject_Z d == 0)%Q as Hnz
      by (intros E; apply Hd; now apply inject_Z_injective).
    assert (~ inject_Z d' == 0)%Q as Hnz'
      by (intros E; apply Hd'; now apply inject_Z_injective).
    assert (inject_Z n * inject_Z d' == inject_Z n' * inject_Z d)%Q as H'
      by (rewrite <- !inject_Z_mult; now rewrite Hratio).
    apply (Qmult_inj_r _ _ (inject_Z d * inject_Z d')).
    - intros H2. apply Qmult_integral in H2. tauto.
    - transitivity (inject_Z n * inject_Z d')%Q; [field; tauto |].
      rewrite H'. field. tauto. }
  unfold JS.roundedPercent, JS.div.
  destruct (Z.eqb_spec d 0) as [E | _]; [contradiction |].
  destruct (Z.eqb_spec d' 0) as [E | _]; [contradiction |].
  apply leb_antisym; apply Math_round_mono, times100_mono, double_mono;
    rewrite Heq; apply Qle_refl.
Qed.

Lemma roundedPercent_none (d : Z) :
  d <> 0 -> JS.roundedPercent 0 d = JS.Fin 0.
Proof.
  intros Hd. rewrite (roundedPercent_ratio 0 d 0 1) by lia.
  vm_compute. reflexivity.
Qed.

Lemma roundedPercent_all (d : Z) :
  d <> 0 -> JS.roundedPercent d d = JS.Fin 100.
Proof.
  intros Hd. rewrite (roundedPercent_ratio d d 1 1) by lia.
  vm_compute. reflexivity.
Qed.

(** Between none and all of a positive total it is a whole number from 0
    to 100. *)
Lemma roundedPercent_bounds (n d : Z) :
  0 <= n <= d -> 0 < d ->
  exists z, JS.roundedPercent n d = JS.Fin z /\ 0 <= z <= 100.
Proof.
  intros Hn Hd.
  pose proof (roundedPercent_mono 0 n d Hd (proj1 Hn)) as Hlow.
  pose proof (roundedPercent_mono n d d Hd (proj2 Hn)) as Hhigh.
  rewrite roundedPercent_none in Hlow by lia.
  rewrite roundedPercent_all in Hhigh by lia.
  destruct (JS.roundedPercent n d) as [z | | |]; try discriminate.
  exists z. split; [reflexivity |]. cbn in Hlow, Hhigh. lia.
Qed.

Lemma Math_min_Fin (a b : Z) :
  JS.Math_min (JS.Fin a) (JS.Fin b) = JS.Fin (Z.min a b).
Proof.
  cbn. destruct (Z.leb_spec a b); f_equal; lia.
Qed.

(** ** Progress Tracker: watch time *)

Lemma videoDuration_Some (p : Progress.t) (l : Lesson.t) (d : Z) :
  Progress.lesson p = Progress.Populated l ->
  Lesson.type l = Lesson.video ->
  Lesson.video_duration l = Some d ->
  d <> 0 ->
  Progress.videoDuration (Progress.lesson p) = Some d.
Proof.
  intros Hl Hty Hd Hnz. rewrite Hl. cbn. rewrite Hty, Hd. cbn.
  destruct (Z.eqb_spec d 0); [contradiction | reflexivity].
Qed.

Lemma videoDuration_nonVideo (p : Progress.t) :
  Spec.nonVideo p -> Progress.videoDuration (Progress.lesson p) = None.
Proof.
  unfold Spec.nonVideo. intros H.
  destruct (Progress.lesson p) as [i | l]; [reflexivity |].
  cbn. specialize (H l eq_refl).
  destruct (Lesson.type l); try reflexivity. now contradiction H.
Qed.

Lemma videoDuration_inv (r : Progress.LessonRef) (d : Z) :
  Progress.videoDuration r = Some d ->
  exists l, r = Progress.Populated l /\ Lesson.type l = Lesson.video
            /\ Lesson.video_duration l = Some d /\ d <> 0.
Proof.
  destruct r as [i | l]; cbn; [discriminate |].
  destruct (Lesson.type l) eqn:Hty; cbn; try discriminate.
  destruct (Lesson.video_duration l) as [z |] eqn:Hd; cbn; try discriminate.
  destruct (Z.eqb_spec z 0); cbn; try discriminate.
  intros [= <-]. now exists l.
Qed.

(** The fields written by [updateWatchTime], in closed form. *)
Lemma updateWatchTime_fields (now : Date) (s : Z) (p : Progress.t) :
  let p' := Progress.updateWatchTime now s p in
  Progress.watchTime p' = Z.max (Progress.watchTime p) s
  /\ Progress.totalWatchTime p' = Progress.totalWatchTime p + s
  /\ Progress.lesson p' = Progress.lesson p
  /\ Progress.quiz p' = Progress.quiz p
  /\ Progress.completionPercentage p' =
       match Progress.videoDuration (Progress.lesson p) with
       | Some d =>
           JS.Math_min
             (JS.roundedPercent (Z.max (Progress.watchTime p) s) d)
             (JS.Fin 100)
       | None => Progress.completionPercentage p
       end.
Proof.
  unfold Progress.updateWatchTime, JS.roundedPercent.
  destruct p as [u c l st w tw cp ca la bs ns q].
  cbn [Progress.lesson Progress.watchTime Progress.totalWatchTime
       Progress.set_watchTime Progress.set_totalWatchTime
       Progress.completionPercentage Progress.quiz].
  destruct (Progress.videoDuration l) as [d |].
  - cbv zeta.
    repeat match goal with |- context [if ?b then _ else _] => destruct b end;
      repeat split; reflexivity.
  - repeat split; reflexivity.
Qed.

(** C1.  A call of [updateWatchTime] with reported value [s] sets
    [watchTime] to the maximum of its previous value and [s] and adds [s]
    to [totalWatchTime], and on a non-video lesson it leaves
    [completionPercentage] as it was.  The percentage of a video lesson is
    not the one claimed.  On the document the request handler passes,
    whose [lesson] is the stored reference, the method takes the lesson
    for a non-video one and leaves percentage and status as they were,
    whatever lesson the reference names.  On a document whose lesson has
    been populated, a video of duration [d] other than 0 gets
    [Math.min(Math.round((watchTime / d) * 100), 100)] in binary64
    arithmetic, which for 23 seconds of 40 is 57 where
    [round(100 × 23 / 40)] is 58. *)
Theorem updateWatchTime_spec (now : Date) (s : Z) (p : Progress.t) :
  let p' := Progress.updateWatchTime now s p in
  Progress.watchTime p' = Z.max (Progress.watchTime p) s
  /\ Progress.totalWatchTime p' = Progress.totalWatchTime p + s
  /\ (Spec.nonVideo p ->
      Progress.completionPercentage p' = Progress.completionPercentage p)
  /\ (forall id,
        Progress.lesson p = Progress.Unpopulated id ->
        Progress.completionPercentage p' = Progress.completionPercentage p
        /\ Progress.status p' = Progress.status p)
  /\ (forall l d,
        Progress.lesson p = Progress.Populated l ->
        Lesson.type l = Lesson.video ->
        Lesson.video_duration l = Some d ->
        d <> 0 ->
        Progress.completionPercentage p' =
          JS.Math_min (JS.roundedPercent (Progress.watchTime p') d)
            (JS.Fin 100))
  /\ (forall l,
        Progress.lesson p = Progress.Populated l ->
        Lesson.type l = Lesson.video ->
        Lesson.video_duration l = Some 40 ->
        Z.max (Progress.watchTime p) s = 23 ->
        Progress.completionPercentage p' = JS.Fin 57
        /\ Z.min 100 (Spec.roundPercent (Progress.watchTime p') 40) = 58).
Proof.
  intros p'.
  destruct (updateWatchTime_fields now s p) as (Hw & Ht & _ & _ & Hc).
  fold p' in Hw, Ht, Hc.
  split; [exact Hw | split; [exact Ht |]].
  split; [| split; [| split]].
  - intros Hnv. now rewrite Hc, (videoDuration_nonVideo p Hnv).
  - intros id Hid. split.
    + rewrite Hc, Hid. reflexivity.
    + subst p'. unfold Progress.updateWatchTime.
      destruct p as [u c l st w tw cp ca la bs ns q]. cbn in Hid. subst l.
      reflexivity.
  - intros l d Hl Hty Hd Hnz.
    now rewrite Hc, (videoDuration_Some p l d Hl Hty Hd Hnz), Hw.
  - intros l Hl Hty Hd Hmax.
    rewrite Hc, (videoDuration_Some p l 40 Hl Hty Hd) by discriminate.
    rewrite Hw, Hmax. split; vm_compute; reflexivity.
Qed.

Lemma updateWatchTime_spec_witness :
  Lesson.findById [Sample.videoLesson] "5f1a00000000000000000001"%string
  = Some Sample.videoLesson
  /\ Progress.completionPercentage
       (Progress.updateWatchTime 1000 150 Sample2.asFound)
     = JS.Fin 0
  /\ Z.min 100 (Spec.roundPercent 150 200) = 75.
Proof.
  split; [reflexivity | split; [| reflexivity]].
  destruct (updateWatchTime_spec 1000 150 Sample2.asFound)
    as (_ & _ & _ & Hreference & _).
  destruct (Hreference _ eq_refl) as [Hsame _].
  rewrite Hsame. reflexivity.
Defined.

(** The second defect, on the populated document of a video of 40
    seconds. *)
Lemma updateWatchTime_rounding :
  Progress.completionPercentage
    (Progress.updateWatchTime 1000 23 (Sample.fresh Sample2.shortVideo))
  = JS.Fin 57.
Proof. vm_compute. reflexivity. Qed.

(** ** Progress Tracker: sequences of watch-time reports *)

Lemma percentLe_refl (x : JS.Number) : Spec.percentLe x x.
Proof. now left. Qed.

Lemma percentLe_trans (x y z : JS.Number) :
  Spec.percentLe x y -> Spec.percentLe y z -> Spec.percentLe x z.
Proof.
  unfold Spec.percentLe. intros [-> | Hxy] [-> | Hyz]; auto.
  right. destruct x, y, z; cbn in *; try discriminate; try reflexivity.
  apply Z.ltb_lt in Hxy, Hyz. apply Z.ltb_lt. lia.
Qed.

Lemma percentLe_Fin (a b : Z) :
  a <= b -> Spec.percentLe (JS.Fin a) (JS.Fin b).
Proof.
  intros H. destruct (Z.eq_dec a b) as [-> | Hne]; [now left | right].
  cbn. apply Z.ltb_lt. lia.
Qed.

(** Capping at 100 keeps the order. *)
Lemma percentLe_capped (x y : JS.Number) :
  JS.leb x y = true ->
  Spec.percentLe (JS.Math_min x (JS.Fin 100)) (JS.Math_min y (JS.Fin 100)).
Proof.
  destruct x as [a | | |], y as [b | | |]; cbn [JS.leb]; try discriminate;
    intros H; unfold JS.Math_min, JS.leb;
    try (apply Z.leb_le in H);
    repeat match goal with
           | |- context [?a <=? ?b] => destruct (Z.leb_spec a b)
           end;
    try apply percentLe_refl; try (apply percentLe_Fin; lia);
    try (now right).
Qed.

Lemma updateWatchTime_coherent (now : Date) (s : Z) (p : Progress.t) :
  Spec.coherent (Progress.updateWatchTime now s p).
Proof.
  destruct (updateWatchTime_fields now s p) as (Hw & _ & Hl & _ & Hc).
  unfold Spec.coherent. rewrite Hl, Hc, Hw.
  now destruct (Progress.videoDuration (Progress.lesson p)).
Qed.

(** A document as [new Progress] makes it, whatever its lesson. *)
Lemma fresh_coherent (p : Progress.t) :
  Progress.watchTime p = 0 ->
  Progress.completionPercentage p = JS.Fin 0 ->
  Spec.coherent p.
Proof.
  intros Hw Hc. unfold Spec.coherent.
  destruct (Progress.videoDuration (Progress.lesson p)) as [d |] eqn:Hd;
    [| exact I].
  apply videoDuration_inv in Hd as (l & _ & _ & _ & Hnz).
  now rewrite Hc, Hw, (roundedPercent_none d Hnz).
Qed.

Lemma updateWatchTime_durationNotNegative (now : Date) (s : Z)
    (p : Progress.t) :
  Spec.durationNotNegative p ->
  Spec.durationNotNegative (Progress.updateWatchTime now s p).
Proof.
  destruct (updateWatchTime_fields now s p) as (_ & _ & Hl & _).
  unfold Spec.durationNotNegative. now rewrite Hl.
Qed.

(** One more report never lowers a percentage that agrees with the watch
    time. *)
Lemma updateWatchTime_percent_step (now : Date) (s : Z) (p : Progress.t) :
  Spec.durationNotNegative p ->
  Spec.coherent p ->
  Spec.percentLe (Progress.completionPercentage p)
    (Progress.completionPercentage (Progress.updateWatchTime now s p)).
Proof.
  intros Hdur Hco.
  destruct (updateWatchTime_fields now s p) as (_ & _ & _ & _ & Hc).
  rewrite Hc. unfold Spec.coherent in Hco.
  destruct (Progress.videoDuration (Progress.lesson p)) as [d |] eqn:Hd;
    [| apply percentLe_refl].
  rewrite Hco. apply percentLe_capped.
  apply videoDuration_inv in Hd as (l & Hl & _ & Hdl & Hnz).
  specialize (Hdur l d Hl Hdl).
  apply roundedPercent_mono; lia.
Qed.

(** [updateWatchTime] moves the status forward only. *)
Lemma updateWatchTime_status (now : Date) (s : Z) (p : Progress.t) :
  Spec.staysCompleted p (Progress.updateWatchTime now s p).
Proof.
  unfold Spec.staysCompleted, Progress.updateWatchTime.
  destruct p as [u c l st w tw cp ca la bs ns q].
  cbn [Progress.status Progress.lesson Progress.set_watchTime
       Progress.set_totalWatchTime]. intros ->.
  destruct (Progress.videoDuration l); [| reflexivity].
  cbv zeta.
  cbn [Progress.status Progress.set_completionPercentage
       Progress.Status_eqb negb].
  now rewrite !andb_false_r.
Qed.

Lemma staysCompleted_trans (a b c : Progress.t) :
  Spec.staysCompleted a b -> Spec.staysCompleted b c ->
  Spec.staysCompleted a c.
Proof. unfold Spec.staysCompleted. auto. Qed.

(** From a coherent document on, the percentages of the document and of
    every document of the trace are in non-decreasing order. *)
Lemma watchTrace_percent_sorted (calls : list (Date * Z)) :
  forall p,
    Spec.durationNotNegative p ->
    Spec.coherent p ->
    Sorted Spec.percentLe
      (map Progress.completionPercentage (p :: Spec.watchTrace calls p)).
Proof.
  induction calls as [| [now s] rest IH]; intros p Hdur Hco;
    cbn [Spec.watchTrace map].
  - repeat constructor.
  - constructor.
    + apply IH.
      * now apply updateWatchTime_durationNotNegative.
      * apply updateWatchTime_coherent.
    + constructor. now apply updateWatchTime_percent_step.
Qed.

Lemma watchTrace_status_sorted (calls : list (Date * Z)) :
  forall p, Sorted Spec.staysCompleted (p :: Spec.watchTrace calls p).
Proof.
  induction calls as [| [now s] rest IH]; intros p; cbn [Spec.watchTrace].
  - repeat constructor.
  - constructor; [apply IH |]. constructor. apply updateWatchTime_status.
Qed.

(** C6 as stated fails: the first report lowers a percentage that did not
    come from the watch time.  A video lesson of 200 seconds declared
    completed by an explicit status update stands at 100 percent; a report
    of 10 seconds then stores 5. *)
Lemma watchTimeMonotone_counterexample : ~ Spec.watchTimeMonotone.
Proof.
  intros H.
  destruct (H [(2000, 10)] Sample2.declaredDone) as [Hsorted _].
  - repeat constructor.
  - apply StronglySorted_inv in Hsorted as [_ Hfirst].
    apply Forall_inv in Hfirst.
    destruct Hfirst as [Heq | Hlt];
      [vm_compute in Heq | vm_compute in Hlt]; discriminate.
Qed.

(** A negative duration turns the order around: the restriction of the
    amended statement to durations that are not negative is needed. *)
Lemma negative_duration_lowers :
  map Progress.completionPercentage
    (Spec.watchTrace [(1000, 10); (2000, 20)]
       (Sample.fresh Sample2.negativeVideo))
  = [JS.Fin (-25); JS.Fin (-50)].
Proof. vm_compute. reflexivity. Qed.

(** C6, amended.  Along a sequence of [updateWatchTime] calls on a lesson
    whose duration is not negative, the completion percentages after the
    calls are in non-decreasing order, and a status that is [completed],
    before the first call or after any call, is [completed] after every
    later call.  The percentage before the first call belongs to that
    order when it is the one the code computes from the stored watch
    time, as on a new document.  The order of the reports is not used:
    the watch time is a running maximum. *)
Theorem watchTrace_monotone (calls : list (Date * Z)) (p : Progress.t) :
  Spec.durationNotNegative p ->
  StronglySorted Spec.percentLe
    (map Progress.completionPercentage (Spec.watchTrace calls p))
  /\ StronglySorted Spec.staysCompleted (p :: Spec.watchTrace calls p)
  /\ (Spec.coherent p ->
      StronglySorted Spec.percentLe
        (map Progress.completionPercentage (p :: Spec.watchTrace calls p))).
Proof.
  intros Hdur. split; [| split].
  - apply Sorted_StronglySorted; [exact percentLe_trans |].
    destruct calls as [| [now s] rest]; cbn [Spec.watchTrace map];
      [constructor |].
    apply watchTrace_percent_sorted.
    + now apply updateWatchTime_durationNotNegative.
    + apply updateWatchTime_coherent.
  - apply Sorted_StronglySorted; [exact staysCompleted_trans |].
    apply watchTrace_status_sorted.
  - intros Hco.
    apply Sorted_StronglySorted; [exact percentLe_trans |].
    now apply watchTrace_percent_sorted.
Qed.

Lemma watchTrace_monotone_witness :
  StronglySorted Spec.percentLe
    (map Progress.completionPercentage
       (Sample.fresh Sample.videoLesson
        :: Spec.watchTrace Sample.reports (Sample.fresh Sample.videoLesson)))
  /\ map Progress.completionPercentage
       (Spec.watchTrace Sample.reports (Sample.fresh Sample.videoLesson))
     = [JS.Fin 5; JS.Fin 25; JS.Fin 25; JS.Fin 90].
Proof.
  split; [| vm_compute; reflexivity].
  apply (watchTrace_monotone Sample.reports (Sample.fresh Sample.videoLesson)).
  - intros l d [= <-] [= <-]. lia.
  - apply fresh_coherent; reflexivity.
Defined.

(** ** Enrollment Aggregator: completion recompute *)

Lemma countPublished_nonneg (db : Lesson.Collection) (c : ObjectId) :
  0 <= Lesson.countPublished db c.
Proof. unfold Lesson.countPublished. lia. Qed.

(** C3.  With [n] completed lessons and [t] published lessons,
    [updateProgress] changes nothing when [t = 0]; when the new percentage
    is at least 100 and the status is [active], the status becomes
    [completed] and [completionDate] is set, and otherwise status and
    [completionDate] are kept, so that no status other than [active] is ever
    left.  Three of four lessons give 75 and an [active] enrollment stays
    [active]; four of four give 100 and an [active] enrollment becomes
    [completed] with [completionDate] set, and so do all lessons of any
    course.  The percentage stored when [t > 0] is
    [Math.round((n / t) * 100)] in binary64 arithmetic, which is not
    always the claimed [round(100 × n / t)]: 23 of 40 lessons give 57,
    where the claim gives 58. *)
Theorem updateProgress_spec (db : Lesson.Collection)
    (clock : Enrollment.Clock) (e : Enrollment.t) :
  let t := Lesson.countPublished db (Enrollment.course e) in
  let n := Z.of_nat (List.length (Enrollment.completedLessons e)) in
  let e' := Enrollment.updateProgress db clock e in
  (0 < t ->
     Enrollment.completionPercentage e' = JS.roundedPercent n t)
  /\ (t = 0 -> e' = e)
  /\ (JS.geb (Enrollment.completionPercentage e') (JS.Fin 100) = true ->
      Enrollment.status e = Enrollment.active ->
      0 < t ->
      Enrollment.status e' = Enrollment.completed
      /\ Enrollment.completionDate e' = Some (Enrollment.atCompletion clock))
  /\ (JS.geb (Enrollment.completionPercentage e') (JS.Fin 100) = false
      \/ Enrollment.status e <> Enrollment.active ->
      Enrollment.status e' = Enrollment.status e
      /\ Enrollment.completionDate e' = Enrollment.completionDate e)
  /\ (Enrollment.status e' <> Enrollment.status e ->
      Enrollment.status e = Enrollment.active
      /\ Enrollment.status e' = Enrollment.completed)
  /\ (n = 3 -> t = 4 -> Enrollment.status e = Enrollment.active ->
      Enrollment.completionPercentage e' = JS.Fin 75
      /\ Enrollment.status e' = Enrollment.active)
  /\ (n = 4 -> t = 4 -> Enrollment.status e = Enrollment.active ->
      Enrollment.completionPercentage e' = JS.Fin 100
      /\ Enrollment.status e' = Enrollment.completed
      /\ Enrollment.completionDate e' = Some (Enrollment.atCompletion clock))
  /\ (0 < t -> n = t ->
      Enrollment.completionPercentage e' = JS.Fin 100)
  /\ (n = 23 -> t = 40 ->
      Enrollment.completionPercentage e' = JS.Fin 57
      /\ Spec.roundPercent n t = 58).
Proof.
  intros t n e'. subst e'. unfold Enrollment.updateProgress. fold t n.
  pose proof (countPublished_nonneg db (Enrollment.course e)) as Ht.
  fold t in Ht.
  change (JS.Math_round (JS.times100 (JS.div n t)))
    with (JS.roundedPercent n t).
  assert (n = 3 -> t = 4 -> JS.roundedPercent n t = JS.Fin 75) as H34
    by (intros -> ->; vm_compute; reflexivity).
  assert (n = 4 -> t = 4 -> JS.roundedPercent n t = JS.Fin 100) as H44
    by (intros -> ->; vm_compute; reflexivity).
  assert (n = 23 -> t = 40 -> JS.roundedPercent n t = JS.Fin 57) as H57
    by (intros -> ->; vm_compute; reflexivity).
  assert (n = 23 -> t = 40 -> Spec.roundPercent n t = 58) as H58
    by (intros -> ->; reflexivity).
  assert (0 < t -> n = t -> JS.roundedPercent n t = JS.Fin 100) as Hall
    by (intros Hpos ->; apply roundedPercent_all; lia).
  revert H34 H44 H57 H58 Hall.
  generalize (JS.roundedPercent n t) as pct.
  generalize (Spec.roundPercent n t) as claimed.
  clearbody t n. intros claimed pct H34 H44 H57 H58 Hall.
  destruct (Z.ltb_spec 0 t) as [Hpos | Hzero].
  - destruct e as [i sd c st cls cur cp la cd ci cid].
    cbn -[JS.geb].
    destruct (JS.geb pct (JS.Fin 100)) eqn:Hge;
      destruct st; cbn -[JS.geb];
      repeat split; intros;
      repeat match goal with
             | H : _ /\ _ |- _ => destruct H
             | H : _ \/ _ |- _ => destruct H
             end;
      try reflexivity; try discriminate; try congruence; try lia;
      try (rewrite H34 in * by assumption);
      try (rewrite H44 in * by assumption);
      try (rewrite H57 in * by assumption);
      try (rewrite Hall in * by assumption);
      try reflexivity; try discriminate; try congruence; try lia;
      auto.
  - assert (t = 0) as Ht0 by lia.
    repeat split; intros; try reflexivity; try congruence; try lia.
Qed.

Lemma updateProgress_spec_witness :
  (Enrollment.completionPercentage
     (Enrollment.updateProgress Sample.fourLessons (Sample.clock 1000)
        Sample.threeOfFour) = JS.Fin 75
   /\ Enrollment.status
        (Enrollment.updateProgress Sample.fourLessons (Sample.clock 1000)
           Sample.threeOfFour) = Enrollment.active)
  /\ (Enrollment.completionPercentage
        (Enrollment.updateProgress Sample.fourLessons (Sample.clock 2000)
           Sample.fourOfFour) = JS.Fin 100
      /\ Enrollment.status
           (Enrollment.updateProgress Sample.fourLessons (Sample.clock 2000)
              Sample.fourOfFour) = Enrollment.completed
      /\ Enrollment.completionDate
           (Enrollment.updateProgress Sample.fourLessons (Sample.clock 2000)
              Sample.fourOfFour) = Some 2001)
  /\ Enrollment.completionPercentage
       (Enrollment.updateProgress Sample2.fortyLessons (Sample.clock 3000)
          Sample2.twentyThreeDone) = JS.Fin 57.
Proof.
  split; [| split].
  - destruct (updateProgress_spec Sample.fourLessons (Sample.clock 1000)
                Sample.threeOfFour) as (_ & _ & _ & _ & _ & H & _).
    apply H; reflexivity.
  - destruct (updateProgress_spec Sample.fourLessons (Sample.clock 2000)
                Sample.fourOfFour) as (_ & _ & _ & _ & _ & _ & H & _).
    apply H; reflexivity.
  - destruct (updateProgress_spec Sample2.fortyLessons (Sample.clock 3000)
                Sample2.twentyThreeDone)
      as (_ & _ & _ & _ & _ & _ & _ & _ & H).
    apply H; reflexivity.
Defined.

(** ** Enrollment Aggregator: recording a completed lesson *)

Lemma find_snoc_hit {A : Type} (f : A -> bool) (l : list A) (x : A) :
  f x = true -> find f (l ++ [x]) <> None.
Proof.
  intros Hx. induction l as [| a l IH]; cbn.
  - now rewrite Hx.
  - now destruct (f a).
Qed.

Lemma updateProgress_completedLessons (db : Lesson.Collection)
    (clock : Enrollment.Clock) (e : Enrollment.t) :
  Enrollment.completedLessons (Enrollment.updateProgress db clock e)
  = Enrollment.completedLessons e.
Proof.
  unfold Enrollment.updateProgress.
  destruct (0 <? _); [| reflexivity].
  destruct e as [i sd c st cls cur cp la cd ci cid]. cbn.
  now destruct (_ && _).
Qed.

(** Whatever the outcome of [markLessonCompleted], the lesson is among the
    completed lessons afterwards. *)
Lemma markLessonCompleted_recorded (db : Lesson.Collection)
    (clock : Enrollment.Clock) (lessonId : ObjectId) (watchTime : Z)
    (score : option Z) (e : Enrollment.t) :
  find (fun cl => String.eqb (Enrollment.cl_lesson cl) lessonId)
    (Enrollment.completedLessons
       (JS.stateOf
          (Enrollment.markLessonCompleted db clock lessonId watchTime score e)))
  <> None.
Proof.
  unfold Enrollment.markLessonCompleted.
  destruct (find _ (Enrollment.completedLessons e)) as [cl |] eqn:Hfind.
  - cbn. now rewrite Hfind.
  - assert (find (fun cl => String.eqb (Enrollment.cl_lesson cl) lessonId)
              (Enrollment.completedLessons e
                 ++ [Enrollment.mkCompletedLesson lessonId
                       (Enrollment.atPush clock) watchTime score]) <> None)
      as Hhit by (apply find_snoc_hit; cbn; apply String.eqb_refl).
    destruct (Lesson.findById db lessonId) as [cur |]; cbn.
    + rewrite updateProgress_completedLessons.
      destruct (Lesson.getNextLesson db cur); exact Hhit.
    + exact Hhit.
Qed.

(** C2.  [markLessonCompleted] is idempotent: after a first call for
    [lessonId], a second call for the same [lessonId], with any watch time
    and score, at any time and against any state of the catalog, returns
    normally and leaves the enrollment exactly as the first call left
    it. *)
Theorem markLessonCompleted_idempotent
    (db db' : Lesson.Collection) (clock clock' : Enrollment.Clock)
    (lessonId : ObjectId) (watchTime watchTime' : Z)
    (score score' : option Z) (e : Enrollment.t) :
  let once :=
    JS.stateOf
      (Enrollment.markLessonCompleted db clock lessonId watchTime score e) in
  Enrollment.markLessonCompleted db' clock' lessonId watchTime' score' once
  = JS.Returned once.
Proof.
  intros once.
  pose proof (markLessonCompleted_recorded db clock lessonId watchTime score e)
    as Hrec.
  fold once in Hrec. unfold Enrollment.markLessonCompleted at 1.
  now destruct (find _ (Enrollment.completedLessons once)).
Qed.

(** The first call does record a lesson that was not completed yet: it
    appends one entry for it. *)
Lemma markLessonCompleted_appends (db : Lesson.Collection)
    (clock : Enrollment.Clock) (lessonId : ObjectId) (watchTime : Z)
    (score : option Z) (e : Enrollment.t) :
  Enrollment.isLessonCompleted e lessonId = false ->
  Enrollment.completedLessons
    (JS.stateOf
       (Enrollment.markLessonCompleted db clock lessonId watchTime score e))
  = Enrollment.completedLessons e
      ++ [Enrollment.mkCompletedLesson lessonId (Enrollment.atPush clock)
            watchTime score].
Proof.
  unfold Enrollment.isLessonCompleted, Enrollment.markLessonCompleted.
  intros Hnot.
  destruct (find _ (Enrollment.completedLessons e)) as [cl |] eqn:Hfind.
  - apply find_some in Hfind as [Hin Heq].
    assert (existsb (fun cl => String.eqb (Enrollment.cl_lesson cl) lessonId)
              (Enrollment.completedLessons e) = true) as Hex
      by (apply existsb_exists; eauto).
    congruence.
  - destruct (Lesson.findById db lessonId) as [cur |]; cbn; [| reflexivity].
    rewrite updateProgress_completedLessons.
    now destruct (Lesson.getNextLesson db cur).
Qed.

(** Completing the third of four lessons: the entry is appended, the
    pointer moves to the fourth lesson and the percentage becomes 75. *)
Example markLessonCompleted_third :
  let e :=
    JS.stateOf
      (Enrollment.markLessonCompleted Sample.fourLessons (Sample.clock 1000)
         "5f1a00000000000000000013"%string 0 None Sample.twoDone) in
  List.length (Enrollment.completedLessons e) = 3%nat
  /\ Enrollment.currentLesson e = Some "5f1a00000000000000000014"%string
  /\ Enrollment.completionPercentage e = JS.Fin 75
  /\ Enrollment.status e = Enrollment.active.
Proof. vm_compute. repeat split. Qed.

(** ** Enrollment Aggregator: certificates *)

(** A certificate text tells the time and the identifier it was made
    from. *)
Lemma certificateText_inj (now now' : Date) (i j : ObjectId) :
  Enrollment.certificateText now i = Enrollment.certificateText now' j ->
  now = now' /\ i = j.
Proof.
  unfold Enrollment.certificateText, Enrollment.showDate. intros H.
  apply string_app_inv_head in H.
  apply showNumber_prefix in H as [-> H]; [| reflexivity | reflexivity].
  apply string_app_inv_head in H. now split.
Qed.

(** Certificate texts of two distinct identifiers differ, whenever they
    are made. *)
Lemma certificateText_distinct (now now' : Date) (i j : ObjectId) :
  i <> j ->
  Enrollment.certificateText now i <> Enrollment.certificateText now' j.
Proof.
  intros Hne Heq. now apply certificateText_inj in Heq as [_ Heq].
Qed.

(** The method on its own: a certificate is made exactly for a completed
    enrollment that has none. *)
Lemma generateCertificate_method (now : Date) (e : Enrollment.t) :
  (Enrollment.status e = Enrollment.completed
   /\ Enrollment.certificateIssued e = false ->
   Enrollment.generateCertificate now e
   = (Enrollment.set_certificate
        (Enrollment.certificateText now (Enrollment._id e)) e,
      Some (Enrollment.certificateText now (Enrollment._id e))))
  /\ (~ (Enrollment.status e = Enrollment.completed
         /\ Enrollment.certificateIssued e = false) ->
      Enrollment.generateCertificate now e = (e, None)).
Proof.
  unfold Enrollment.generateCertificate.
  destruct e as [i sd c st cls cur cp la cd ci cid]. cbn.
  destruct st, ci; cbn; split; intros H;
    try reflexivity; try (destruct H; discriminate);
    exfalso; apply H; now split.
Qed.

(** C5.  The certificate endpoint refuses, and leaves the enrollment as it
    is, unless the enrollment is [completed], has no certificate yet and
    the course has certificates enabled.  For an eligible enrollment and an
    authorized caller it answers with the new [certificateId], which it
    stores together with [certificateIssued = true]; the identifier differs
    from the one any other enrollment (another [_id]) receives at any
    time; and a second call refuses and leaves the first identifier and
    the flag in place. *)
Theorem generateCertificate_spec (now : Date) (user : Controller.User)
    (e : Enrollment.t) (c : Controller.Course) :
  let result := Controller.generateCertificate now user (Some (e, c)) in
  (~ Spec.eligible e c ->
     fst result = Some e /\ Spec.refused (snd result))
  /\ (Spec.eligible e c -> Spec.authorized user e ->
      let certificateId := Enrollment.certificateText now (Enrollment._id e) in
      let e' := Enrollment.set_certificate certificateId e in
      result = (Some e', Controller.Success certificateId)
      /\ Enrollment.certificateIssued e' = true
      /\ Enrollment.certificateId e' = Some certificateId
      /\ (forall now' e2,
            Enrollment._id e2 <> Enrollment._id e ->
            Enrollment.status e2 = Enrollment.completed ->
            Enrollment.certificateIssued e2 = false ->
            Enrollment.certificateId
              (fst (Enrollment.generateCertificate now' e2))
            <> Some certificateId)
      /\ (forall now' user',
            let again :=
              Controller.generateCertificate now' user' (Some (e', c)) in
            fst again = Some e' /\ Spec.refused (snd again))).
Proof.
  unfold Spec.eligible, Spec.authorized, Spec.refused.
  destruct e as [i sd cs st cls cur cp la cd ci cid].
  destruct c as [enabled]. destruct user as [uid r]. cbn.
  split.
  - intros Hnot.
    destruct (negb (sd =? uid)%string && negb (Controller.isAdmin r));
      [now split |].
    destruct st; cbn; try (now split).
    destruct enabled; cbn; try (now split).
    destruct ci; cbn; try (now split).
    exfalso. apply Hnot. now repeat split.
  - intros (-> & -> & ->) Hauth. cbn.
    assert (negb (sd =? uid)%string && negb (Controller.isAdmin r) = false)
      as ->.
    { destruct Hauth as [-> | ->]; cbn.
      - now rewrite String.eqb_refl.
      - apply andb_false_r. }
    cbn. repeat split.
    + intros now' e2 Hid Hst Hci.
      destruct (generateCertificate_method now' e2) as [Hgen _].
      rewrite (Hgen (conj Hst Hci)). cbn -[Enrollment.certificateText].
      intros Heq.
      apply (certificateText_distinct now' now _ _ Hid).
      exact (f_equal (fun o => match o with
                               | Some x => x
                               | None => EmptyString
                               end) Heq).
    + now destruct (_ && _).
    + now destruct (_ && _).
Qed.

Lemma generateCertificate_spec_witness :
  Controller.generateCertificate 3000 Sample.owner
    (Some (Sample.allDone, Sample.withCertificates))
  = (Some (Enrollment.set_certificate
             "CERT-3000-5f1a0000000000000000e001" Sample.allDone),
     Controller.Success "CERT-3000-5f1a0000000000000000e001")
  /\ fst (Controller.generateCertificate 3000 Sample.owner
            (Some (Sample.twoDone, Sample.withCertificates)))
     = Some Sample.twoDone.
Proof.
  split.
  - destruct (generateCertificate_spec 3000 Sample.owner Sample.allDone
                Sample.withCertificates) as [_ H].
    destruct H as (Hres & _).
    + repeat split.
    + left. reflexivity.
    + rewrite Hres. vm_compute. reflexivity.
  - destruct (generateCertificate_spec 3000 Sample.owner Sample.twoDone
                Sample.withCertificates) as [H _].
    apply H. intros (Hst & _). discriminate Hst.
Defined.

(** ** Progress Tracker: quiz attempts *)

(** [recordQuizAttempt] on a populated lesson, in closed form. *)
Lemma recordQuizAttempt_fields (now : Date) (answers : list Progress.Answer)
    (score timeSpent : Z) (p : Progress.t) (l : Lesson.t) :
  Progress.lesson p = Progress.Populated l ->
  exists p',
    Progress.recordQuizAttempt now answers score timeSpent p = JS.Returned p'
    /\ Progress.lesson p' = Progress.lesson p
    /\ Progress.watchTime p' = Progress.watchTime p
    /\ Progress.totalWatchTime p' = Progress.totalWatchTime p
    /\ Progress.attempts (Progress.quiz p') =
         Progress.attempts (Progress.quiz p)
           ++ [Progress.mkAttempt
                 (Z.of_nat (List.length (Progress.attempts (Progress.quiz p)))
                  + 1)
                 answers score (Spec.attemptPercentage l score) now timeSpent]
    /\ Progress.passed (Progress.quiz p') = Spec.meets l score
    /\ Progress.status p' =
         (if Spec.meets l score then Progress.completed
          else if Progress.Status_eqb (Progress.status p) Progress.not_started
               then Progress.in_progress
               else Progress.status p)
    /\ Progress.completionPercentage p' =
         (if Spec.meets l score then JS.Fin 100
          else if Progress.Status_eqb (Progress.status p) Progress.not_started
               then JS.Math_min (Spec.attemptPercentage l score) (JS.Fin 99)
               else Progress.completionPercentage p)
    /\ Progress.completedAt p' =
         (if Spec.meets l score then Some now else Progress.completedAt p).
Proof.
  intros Hl. unfold Progress.recordQuizAttempt. rewrite Hl.
  unfold Spec.meets, Spec.attemptPercentage, Spec.passingScore.
  destruct p as [u c r st w tw cp ca la bs ns [atts hs ba pd]].
  cbn in Hl. subst r.
  cbn [Progress.quiz Progress.attempts Progress.highestScore
       Progress.bestAttempt Progress.passed Progress.status
       Progress.set_quiz Progress.lesson Progress.watchTime
       Progress.totalWatchTime Progress.completionPercentage
       Progress.completedAt].
  set (pct := JS.Math_round _).
  set (pass := JS.geb pct _).
  destruct (hs <? score);
    cbn [Progress.quiz Progress.attempts Progress.highestScore
         Progress.bestAttempt Progress.passed];
    destruct pass; [| destruct st | | destruct st];
    eexists; (split; [reflexivity |]); cbn; repeat split; reflexivity.
Qed.

Lemma ltb_not_geb (x y : JS.Number) :
  JS.ltb x y = true -> JS.geb x y = false.
Proof.
  destruct x, y; cbn; try discriminate; try reflexivity.
  intros H. apply Z.ltb_lt in H. apply Z.leb_gt. lia.
Qed.

(** An attempt below the passing threshold does not meet it. *)
Lemma below_fails (l : Lesson.t) (score : Z) :
  Spec.below l score = true -> Spec.meets l score = false.
Proof. apply ltb_not_geb. Qed.

Lemma Math_min_99 (x : JS.Number) : JS.Math_min x (JS.Fin 99) <> JS.Fin 100.
Proof.
  destruct x; unfold JS.Math_min, JS.leb; try discriminate.
  destruct (Z.leb_spec z 99) as [Hle | Hgt]; intros [= Heq]; lia.
Qed.

(** C10.  An attempt whose percentage is below the passing threshold, on
    a progress that is [not-started], makes it [in-progress] with
    [completionPercentage = min(percentage, 99)], which is not 100; on a
    progress that is [in-progress] or [completed] it leaves status and
    [completionPercentage] as they were; so a failing attempt never
    produces a [completionPercentage] of 100 that was not there before. *)
Theorem failing_attempt_spec (now : Date) (answers : list Progress.Answer)
    (score timeSpent : Z) (p : Progress.t) (l : Lesson.t) :
  Progress.lesson p = Progress.Populated l ->
  Spec.below l score = true ->
  exists p',
    Progress.recordQuizAttempt now answers score timeSpent p = JS.Returned p'
    /\ Progress.passed (Progress.quiz p') = false
    /\ (Progress.status p = Progress.not_started ->
        Progress.status p' = Progress.in_progress
        /\ Progress.completionPercentage p' =
             JS.Math_min (Spec.attemptPercentage l score) (JS.Fin 99)
        /\ Progress.completionPercentage p' <> JS.Fin 100)
    /\ (Progress.status p <> Progress.not_started ->
        Progress.status p' = Progress.status p
        /\ Progress.completionPercentage p' = Progress.completionPercentage p)
    /\ (Progress.completionPercentage p' = JS.Fin 100 ->
        Progress.completionPercentage p = JS.Fin 100).
Proof.
  intros Hl Hbelow.
  destruct (recordQuizAttempt_fields now answers score timeSpent p l Hl)
    as (p' & Hrun & _ & _ & _ & _ & Hpd & Hst & Hcp & _).
  exists p'. split; [exact Hrun |].
  rewrite (below_fails l score Hbelow) in Hpd, Hst, Hcp.
  rewrite Hst, Hcp. split; [exact Hpd |].
  destruct (Progress.status p); cbn [Progress.Status_eqb].
  - split; [intros _ | split; [intros H; now contradiction H |]].
    + split; [reflexivity |]. split; [reflexivity | apply Math_min_99].
    + intros H. now apply Math_min_99 in H.
  - split; [discriminate |]. split; [now intros _ | trivial].
  - split; [discriminate |]. split; [now intros _ | trivial].
Qed.

Lemma failing_attempt_spec_witness :
  exists p',
    Progress.recordQuizAttempt 2000 [] 4 45 (Sample.fresh Sample.quizLesson)
    = JS.Returned p'
    /\ Progress.status p' = Progress.in_progress
    /\ Progress.completionPercentage p' = JS.Fin 67.
Proof.
  destruct (failing_attempt_spec 2000 [] 4 45 (Sample.fresh Sample.quizLesson)
              Sample.quizLesson eq_refl eq_refl)
    as (p' & Hrun & _ & Hfresh & _).
  exists p'. split; [exact Hrun |].
  destruct (Hfresh eq_refl) as (Hst & Hcp & _).
  split; [exact Hst |]. rewrite Hcp. reflexivity.
Defined.

(** Every attempt that does not meet the threshold, an attempt on a quiz
    without points included (its percentage is not a number), leaves a
    [completionPercentage] that is not 100 or is the one it found. *)
Lemma failing_attempt_general (now : Date) (answers : list Progress.Answer)
    (score timeSpent : Z) (p : Progress.t) (l : Lesson.t) :
  Progress.lesson p = Progress.Populated l ->
  Spec.meets l score = false ->
  exists p',
    Progress.recordQuizAttempt now answers score timeSpent p = JS.Returned p'
    /\ (Progress.completionPercentage p' <> JS.Fin 100
        \/ Progress.completionPercentage p' = Progress.completionPercentage p).
Proof.
  intros Hl Hfail.
  destruct (recordQuizAttempt_fields now answers score timeSpent p l Hl)
    as (p' & Hrun & _ & _ & _ & _ & _ & _ & Hcp & _).
  exists p'. split; [exact Hrun |]. rewrite Hfail in Hcp. rewrite Hcp.
  destruct (Progress.Status_eqb _ _).
  - left. apply Math_min_99.
  - now right.
Qed.

Lemma record_populated (a : Spec.Submission) (p : Progress.t) (l : Lesson.t) :
  Progress.lesson p = Progress.Populated l ->
  Progress.lesson (Spec.record a p) = Progress.Populated l
  /\ Progress.passed (Progress.quiz (Spec.record a p))
     = Spec.meets l (Spec.sub_score a)
  /\ (Spec.meets l (Spec.sub_score a) = true ->
      Progress.status (Spec.record a p) = Progress.completed
      /\ Progress.completionPercentage (Spec.record a p) = JS.Fin 100
      /\ Progress.completedAt (Spec.record a p) = Some (Spec.sub_at a))
  /\ (Progress.status p = Progress.completed ->
      Progress.completionPercentage p = JS.Fin 100 ->
      Progress.completedAt p <> None ->
      Progress.status (Spec.record a p) = Progress.completed
      /\ Progress.completionPercentage (Spec.record a p) = JS.Fin 100
      /\ Progress.completedAt (Spec.record a p) <> None).
Proof.
  intros Hl. unfold Spec.record.
  destruct (recordQuizAttempt_fields (Spec.sub_at a) (Spec.sub_answers a)
              (Spec.sub_score a) (Spec.sub_timeSpent a) p l Hl)
    as (p' & -> & Hl' & _ & _ & _ & Hpd & Hst & Hcp & Hca).
  cbn [JS.stateOf]. rewrite Hl', Hpd, Hst, Hcp, Hca.
  split; [exact Hl |]. split; [reflexivity |]. split.
  - intros ->. now repeat split.
  - intros Hdone Hfull Hset.
    destruct (Spec.meets l _); [now repeat split |].
    rewrite Hdone. cbn. now repeat split.
Qed.

Lemma last_cons_default {A : Type} (rest : list A) :
  forall a d : A, last (a :: rest) d = last rest a.
Proof.
  induction rest as [| b r IH]; intros a d; [reflexivity |].
  change (last (a :: b :: r) d) with (last (b :: r) d).
  rewrite (IH b d). symmetry. apply (IH b a).
Qed.

(** After a completed quiz, any further attempts leave the lesson completed
    at 100 percent; the [passed] flag is the outcome of the last attempt
    made. *)
Lemma recordAll_completed (l : Lesson.t) (later : list Spec.Submission) :
  forall (p : Progress.t) (lastOne : Spec.Submission),
    Progress.lesson p = Progress.Populated l ->
    Progress.status p = Progress.completed ->
    Progress.completionPercentage p = JS.Fin 100 ->
    Progress.completedAt p <> None ->
    Progress.passed (Progress.quiz p) = Spec.meets l (Spec.sub_score lastOne) ->
    let pn := Spec.recordAll later p in
    Progress.status pn = Progress.completed
    /\ Progress.completionPercentage pn = JS.Fin 100
    /\ Progress.completedAt pn <> None
    /\ Progress.passed (Progress.quiz pn)
       = Spec.meets l (Spec.sub_score (last later lastOne)).
Proof.
  induction later as [| a rest IH]; intros p lastOne Hl Hst Hcp Hca Hpd.
  - cbn. now repeat split.
  - destruct (record_populated a p l Hl) as (Hl' & Hpd' & _ & Hkeep).
    destruct (Hkeep Hst Hcp Hca) as (Hst' & Hcp' & Hca').
    specialize (IH (Spec.record a p) a Hl' Hst' Hcp' Hca' Hpd').
    cbn [Spec.recordAll fold_left]. cbn zeta in IH.
    unfold Spec.recordAll in IH.
    rewrite last_cons_default. exact IH.
Qed.

(** C7 as stated fails: a failing attempt made after a passing one clears
    the [passed] flag, although the best attempt passed. *)
Lemma passedIsSticky_counterexample : ~ Spec.passedIsSticky.
Proof.
  intros H.
  specialize (H Sample.quizLesson (Sample.fresh Sample.quizLesson)
                Sample.fiveOfSix [Sample.fourOfSix] eq_refl eq_refl).
  cbv zeta in H. destruct H as (_ & _ & _ & _ & _ & H).
  vm_compute in H. discriminate H.
Qed.

(** C7, amended.  After an attempt whose percentage meets the passing
    threshold the lesson is [completed] at 100 percent with [completedAt]
    set and [passed] true; after any further attempts, failing ones
    included, it is still [completed] at 100 percent with [completedAt]
    set, and [passed] tells whether the last attempt made met the
    threshold. *)
Theorem passed_follows_last_attempt (l : Lesson.t) (p : Progress.t)
    (first : Spec.Submission) (later : list Spec.Submission) :
  Progress.lesson p = Progress.Populated l ->
  Spec.meets l (Spec.sub_score first) = true ->
  let p1 := Spec.record first p in
  let pn := Spec.recordAll later p1 in
  Progress.status p1 = Progress.completed
  /\ Progress.completionPercentage p1 = JS.Fin 100
  /\ Progress.completedAt p1 = Some (Spec.sub_at first)
  /\ Progress.passed (Progress.quiz p1) = true
  /\ Progress.status pn = Progress.completed
  /\ Progress.completionPercentage pn = JS.Fin 100
  /\ Progress.completedAt pn <> None
  /\ Progress.passed (Progress.quiz pn)
     = Spec.meets l (Spec.sub_score (last later first)).
Proof.
  intros Hl Hmeets p1 pn.
  destruct (record_populated first p l Hl) as (Hl1 & Hpd1 & Hpass & _).
  destruct (Hpass Hmeets) as (Hst1 & Hcp1 & Hca1).
  fold p1 in Hl1, Hpd1, Hst1, Hcp1, Hca1.
  assert (Progress.completedAt p1 <> None) as Hset by now rewrite Hca1.
  destruct (recordAll_completed l later p1 first Hl1 Hst1 Hcp1 Hset Hpd1)
    as (Hstn & Hcpn & Hcan & Hpdn).
  fold pn in Hstn, Hcpn, Hcan, Hpdn.
  rewrite Hpd1, Hmeets. now repeat split.
Qed.

Lemma passed_follows_last_attempt_witness :
  let pn :=
    Spec.recordAll [Sample.fourOfSix]
      (Spec.record Sample.fiveOfSix (Sample.fresh Sample.quizLesson)) in
  Progress.status pn = Progress.completed
  /\ Progress.completionPercentage pn = JS.Fin 100
  /\ Progress.passed (Progress.quiz pn) = false.
Proof.
  destruct (passed_follows_last_attempt Sample.quizLesson
              (Sample.fresh Sample.quizLesson) Sample.fiveOfSix
              [Sample.fourOfSix] eq_refl eq_refl)
    as (_ & _ & _ & _ & Hst & Hcp & _ & Hpd).
  split; [exact Hst |]. split; [exact Hcp |].
  rewrite Hpd. reflexivity.
Defined.

(** ** Progress Tracker: the LessonProgress invariant *)

Lemma numbered_snoc (l : list Progress.Attempt) (a : Progress.Attempt) :
  Spec.numbered l ->
  Progress.attemptNumber a = Z.of_nat (List.length l) + 1 ->
  Spec.numbered (l ++ [a]).
Proof.
  unfold Spec.numbered. intros Hl Ha.
  rewrite map_app, length_app, Hl. cbn [List.length map].
  rewrite Nat.add_1_r, seq_S, map_app. cbn [map]. rewrite Ha.
  do 2 f_equal. lia.
Qed.

Lemma updateWatchTime_completedAt (now : Date) (s : Z) (p : Progress.t) :
  (Progress.completedAt p <> None <-> Progress.status p = Progress.completed) ->
  (Progress.completedAt (Progress.updateWatchTime now s p) <> None
   <-> Progress.status (Progress.updateWatchTime now s p) = Progress.completed).
Proof.
  unfold Progress.updateWatchTime.
  destruct p as [u c l st w tw cp ca la bs ns q]. cbn. intros Hinv.
  destruct (Progress.videoDuration l); cbn; [| exact Hinv].
  destruct (_ && negb _); cbn; [split; [reflexivity | discriminate] |].
  destruct (_ && _) eqn:E; cbn; [| exact Hinv].
  apply andb_true_iff in E as [_ E]. destruct st; try discriminate.
  split; [intros H | discriminate].
  apply Hinv in H. discriminate.
Qed.

(** C8 as stated fails: an explicit status update that takes a completed
    progress back to [in-progress] leaves [completedAt] set. *)
Lemma everyOperationPreserves_counterexample : ~ Spec.everyOperationPreserves.
Proof.
  intros H.
  destruct (H (Spec.UpdateStatus 2000 Progress.in_progress) Sample.markedDone)
    as [[[Hca _] _] _].
  - exact I.
  - repeat split; try discriminate; cbn; reflexivity || lia.
  - cbn in Hca. discriminate Hca. discriminate.
Qed.

(** C8, amended.  On a progress whose watch time is not negative (as it
    is from creation on), [updateWatchTime] with a value that is not
    negative, [recordQuizAttempt], [addBookmark], [addNote], and an explicit
    status update that sets [completed] or applies to a progress that is
    not completed, preserve the LessonProgress invariant, only append to
    the quiz attempts, and keep the watch time from being negative. *)
Theorem forward_operations_preserve (op : Spec.Operation) (p : Progress.t) :
  Spec.admissible op ->
  Spec.forward op p ->
  0 <= Progress.watchTime p ->
  Spec.invariant p ->
  Spec.invariant (Spec.perform op p)
  /\ Spec.appendOnly p (Spec.perform op p)
  /\ 0 <= Progress.watchTime (Spec.perform op p).
Proof.
  intros Hadm Hfwd Hw (Hca & Hle & Hnum).
  destruct op as [now s | now answers score ts | ts note | content ts priv
                 | now st]; cbn [Spec.perform];
    unfold Spec.invariant, Spec.appendOnly.
  - (* updateWatchTime *)
    cbn in Hadm.
    destruct (updateWatchTime_fields now s p) as (Hw' & Ht' & _ & Hq' & _).
    repeat split.
    + apply (updateWatchTime_completedAt now s p Hca).
    + apply (updateWatchTime_completedAt now s p Hca).
    + rewrite Hw', Ht'. lia.
    + rewrite Hq'. exact Hnum.
    + exists []. rewrite Hq'. now rewrite app_nil_r.
    + rewrite Hw'. lia.
  - (* recordQuizAttempt *)
    destruct (Progress.lesson p) as [i | l] eqn:Hl.
    + unfold Progress.recordQuizAttempt. rewrite Hl. cbn.
      repeat split; try apply Hca; try assumption.
      exists []. now rewrite app_nil_r.
    + destruct (recordQuizAttempt_fields now answers score ts p l Hl)
        as (p' & -> & _ & Hw' & Ht' & Hat & _ & Hst & _ & Hcat).
      cbn [JS.stateOf]. rewrite Hw', Ht'.
      repeat split; try assumption.
      * rewrite Hst, Hcat. intros Hset.
        destruct (Spec.meets l score); [reflexivity |].
        apply Hca in Hset. now rewrite Hset.
      * rewrite Hst, Hcat. intros Hdone.
        destruct (Spec.meets l score); [discriminate |].
        apply Hca. destruct (Progress.status p); cbn in Hdone;
          try discriminate; reflexivity.
      * rewrite Hat. apply numbered_snoc; [exact Hnum | reflexivity].
      * eexists. exact Hat.
  - (* addBookmark *)
    destruct p as [u c l st w tw cp ca la bs ns q]. cbn in *.
    repeat split; try apply Hca; try assumption.
    exists []. now rewrite app_nil_r.
  - (* addNote *)
    destruct p as [u c l st w tw cp ca la bs ns q]. cbn in *.
    repeat split; try apply Hca; try assumption.
    exists []. now rewrite app_nil_r.
  - (* explicit status update *)
    destruct p as [u c l st0 w tw cp ca la bs ns q]. cbn in *.
    destruct st; cbn; repeat split; try assumption; try discriminate;
      try (exists []; now rewrite app_nil_r);
      try (destruct Hfwd as [Hfwd | Hfwd]; [discriminate |];
           intros Hset; apply Hca in Hset; contradiction).
Qed.

Lemma forward_operations_preserve_witness :
  Spec.invariant
    (Spec.perform (Spec.RecordWatchTime 1000 170)
       (Sample.fresh Sample.videoLesson))
  /\ Progress.status
       (Spec.perform (Spec.RecordWatchTime 1000 170)
          (Sample.fresh Sample.videoLesson)) = Progress.completed.
Proof.
  split; [| reflexivity].
  apply (forward_operations_preserve (Spec.RecordWatchTime 1000 170)
           (Sample.fresh Sample.videoLesson)).
  - cbn. lia.
  - exact I.
  - cbn. lia.
  - repeat split; try discriminate; cbn; try reflexivity; try lia.
    intros H. now contradiction H.
Defined.

(** ** Quiz grading *)

Lemma strictEq_eq (a b : option string) : JS.strictEq a b = true <-> a = b.
Proof.
  destruct a as [x |], b as [y |]; cbn; split; try discriminate;
    try reflexivity.
  - intros H. apply String.eqb_eq in H. now subst.
  - intros [= ->]. apply String.eqb_refl.
Qed.

Lemma gradeAnswer_iff (submitted correct : JS.Value) :
  Controller.gradeAnswer submitted correct = true
  <-> JS.JSON_stringify submitted = JS.JSON_stringify correct.
Proof. apply strictEq_eq. Qed.

(** The grading loop from position [index] on, when every submitted answer
    has a question: it grades position by position and adds the points
    earned to the running score. *)
Lemma gradeFrom_spec (questions : list Lesson.Question)
    (quizAnswers : list Controller.Submitted) :
  forall (index : nat) (score0 : Z),
    (index + List.length quizAnswers <= List.length questions)%nat ->
    exists answers,
      Controller.gradeFrom questions quizAnswers index score0
      = Some (answers, score0 + Spec.earned answers)
      /\ List.length answers = List.length quizAnswers
      /\ forall i sub q,
           nth_error quizAnswers i = Some sub ->
           nth_error questions (index + i) = Some q ->
           nth_error answers i
           = Some (Spec.graded q (Controller.sub_answer sub)).
Proof.
  induction quizAnswers as [| answer rest IH]; intros index score0 Hlen.
  - exists []. cbn. rewrite Z.add_0_r. repeat split.
    intros [| i] sub q H; discriminate H.
  - cbn [Controller.gradeFrom].
    cbn [List.length] in Hlen.
    destruct (nth_error questions index) as [question |] eqn:Hq.
    2: { apply nth_error_None in Hq. lia. }
    set (isCorrect := Controller.gradeAnswer _ _).
    set (score1 := if isCorrect then _ else score0).
    destruct (IH (S index) score1) as (answers & Hrun & Hlen' & Hnth);
      [lia |].
    rewrite Hrun.
    exists (Spec.graded question (Controller.sub_answer answer) :: answers).
    split; [| split].
    + unfold Spec.graded at 2. fold isCorrect.
      cbn [Spec.earned fold_right Progress.a_points]. fold (Spec.earned answers).
      unfold Spec.graded. fold isCorrect. do 2 f_equal.
      subst score1. destruct isCorrect; lia.
    + cbn. now rewrite Hlen'.
    + intros [| i] sub q Hsub Hqi.
      * cbn in Hsub. rewrite Nat.add_0_r, Hq in Hqi.
        injection Hsub as <-. injection Hqi as <-. reflexivity.
      * cbn in Hsub. cbn [nth_error].
        apply (Hnth i sub q Hsub).
        now rewrite Nat.add_succ_l, <- Nat.add_succ_r.
Qed.

(** C4 as stated fails: the right values in another order are graded
    incorrect. *)
Lemma gradingIgnoresOrder_counterexample : ~ Spec.gradingIgnoresOrder.
Proof.
  intros H.
  specialize (H [JS.VStr "b"; JS.VStr "a"] [JS.VStr "a"; JS.VStr "b"]
                (perm_swap _ _ [])).
  vm_compute in H. discriminate H.
Qed.

(** Without [undefined] on either side, an answer is graded correct
    exactly when it is the correct answer, value for value and, in a list,
    position for position. *)
Lemma gradeAnswer_structural (submitted correct : JS.Value) :
  JS.defined submitted = true -> JS.defined correct = true ->
  (Controller.gradeAnswer submitted correct = true <-> submitted = correct).
Proof.
  intros Hs Hc. rewrite gradeAnswer_iff. split.
  - now apply JSON_stringify_inj.
  - now intros ->.
Qed.

(** C4, amended.  When every submitted answer has a question, the quiz
    branch of [updateLessonProgress] grades each submitted answer against
    the question at the same position: the answer is correct if and only
    if its JSON text is that of the catalog's correct answer, that is,
    for values without [undefined], if and only if it is the same value,
    a list holding the same values in the same order; a correct answer
    earns the question's points, 1 when they are unset or zero, an
    incorrect one earns 0; and the score is the sum of the points
    earned. *)
Theorem gradeQuiz_spec (lesson : Lesson.t)
    (quizAnswers : list Controller.Submitted) :
  (List.length quizAnswers <= List.length (Lesson.quiz_questions lesson))%nat ->
  exists answers,
    Controller.gradeQuiz lesson quizAnswers
    = Some (answers, Spec.earned answers)
    /\ List.length answers = List.length quizAnswers
    /\ forall i sub q,
         nth_error quizAnswers i = Some sub ->
         nth_error (Lesson.quiz_questions lesson) i = Some q ->
         exists g,
           nth_error answers i = Some g
           /\ Progress.answer g = Controller.sub_answer sub
           /\ (Progress.isCorrect g = true
               <-> JS.JSON_stringify (Controller.sub_answer sub)
                   = JS.JSON_stringify (Lesson.correctAnswer q))
           /\ (JS.defined (Controller.sub_answer sub) = true ->
               JS.defined (Lesson.correctAnswer q) = true ->
               (Progress.isCorrect g = true
                <-> Controller.sub_answer sub = Lesson.correctAnswer q))
           /\ Progress.a_points g
              = (if Progress.isCorrect g
                 then JS.orDefault (Lesson.points q) 1
                 else 0).
Proof.
  intros Hlen. unfold Controller.gradeQuiz.
  destruct (gradeFrom_spec (Lesson.quiz_questions lesson) quizAnswers 0 0 Hlen)
    as (answers & Hrun & Hlen' & Hnth).
  exists answers. rewrite Hrun, Z.add_0_l.
  split; [reflexivity |]. split; [exact Hlen' |].
  intros i sub q Hsub Hq.
  exists (Spec.graded q (Controller.sub_answer sub)).
  split; [now apply Hnth |].
  unfold Spec.graded. cbn [Progress.answer Progress.isCorrect Progress.a_points].
  split; [reflexivity |]. split; [apply gradeAnswer_iff |].
  split; [| reflexivity].
  apply gradeAnswer_structural.
Qed.

Lemma gradeQuiz_spec_witness :
  exists answers,
    Controller.gradeQuiz Sample.quizLesson Sample.submittedInOrder
    = Some (answers, 3)
    /\ map Progress.isCorrect answers = [true; true; false].
Proof.
  destruct (gradeQuiz_spec Sample.quizLesson Sample.submittedInOrder)
    as (answers & Hrun & _).
  - cbn. lia.
  - exists answers. split.
    + rewrite Hrun. f_equal. f_equal.
      vm_compute in Hrun. injection Hrun as <-. reflexivity.
    + vm_compute in Hrun. injection Hrun as <-. reflexivity.
Defined.

(** ** Analytics Rollup *)

Lemma filter_none {A : Type} (f : A -> bool) (l : list A) :
  (forall x, In x l -> f x = false) -> filter f l = [].
Proof.
  induction l as [| a l IH]; intros H; cbn; [reflexivity |].
  rewrite (H a (or_introl eq_refl)). apply IH.
  intros x Hx. apply H. now right.
Qed.

(** C9.  For a user without progress documents in the course, the summary
    counts 0 completed lessons and an overall progress of 0, also for a
    course without published lessons, but its most recent access is
    [Math.max()] of no arguments: [-Infinity]. *)
Theorem getUserCourseProgress_empty (lessonDb : Lesson.Collection)
    (progressDb : list Progress.t) (userId courseId : ObjectId) :
  Spec.noProgress progressDb userId courseId ->
  let summary :=
    Progress.getUserCourseProgress lessonDb progressDb userId courseId in
  Progress.progressData summary = []
  /\ Progress.completedLessons summary = 0
  /\ Progress.overallProgress summary = JS.Fin 0
  /\ Progress.s_lastAccessedAt summary = JS.NegInf.
Proof.
  intros Hnone. unfold Progress.getUserCourseProgress.
  rewrite (filter_none _ progressDb).
  - cbn [filter List.length map Progress.progressData
         Progress.completedLessons Progress.overallProgress
         Progress.s_lastAccessedAt Z.of_nat].
    split; [reflexivity | split; [reflexivity | split; [| reflexivity]]].
    destruct (Z.ltb_spec 0 (Z.of_nat (List.length
                (filter (fun l => String.eqb (Lesson.course l) courseId
                                  && Lesson.isPublished l) lessonDb))))
      as [Hpos | _]; [| reflexivity].
    apply roundedPercent_none. lia.
  - intros p Hin. apply andb_false_iff.
    destruct (String.eqb_spec (Progress.user p) userId) as [Hu | _];
      [right | now left].
    apply String.eqb_neq. now apply (Hnone p Hin).
Qed.

Lemma getUserCourseProgress_empty_witness :
  Progress.s_lastAccessedAt
    (Progress.getUserCourseProgress Sample.fourLessons Sample.elsewhere
       Sample.studentId Sample.courseId)
  = JS.NegInf.
Proof.
  apply (getUserCourseProgress_empty Sample.fourLessons Sample.elsewhere).
  intros p [<- | []] _. discriminate.
Defined.

(** With at least one progress document the most recent access is the
    greatest of the access times. *)
Lemma Math_max_spread_cons (x : Z) (rest : list Z) :
  JS.Math_max_spread (map JS.Fin (x :: rest))
  = JS.Fin (fold_left Z.max rest x).
Proof.
  unfold JS.Math_max_spread. cbn [map fold_left JS.Math_max JS.leb].
  revert x. induction rest as [| y rest IH]; intros x; [reflexivity |].
  cbn [map fold_left]. rewrite <- IH. f_equal.
  unfold JS.Math_max, JS.leb.
  destruct (Z.leb_spec x y); f_equal; lia.
Qed.

(** ** The endpoint reaches these operations *)

(** On a lesson that is neither a video nor a quiz, a request that carries
    a status is an explicit status update. *)
Lemma updateLessonProgress_status (now : Date) (lesson : Lesson.t)
    (body : Controller.Body) (status : Progress.Status)
    (progress : Progress.t) :
  Lesson.type lesson <> Lesson.video ->
  Lesson.type lesson <> Lesson.quiz ->
  Controller.body_status body = Some status ->
  Controller.updateLessonProgress now lesson body progress
  = JS.Returned (Controller.updateStatus now status progress).
Proof.
  intros Hv Hq Hst. unfold Controller.updateLessonProgress. rewrite Hst.
  destruct (Lesson.type lesson); try reflexivity; now contradiction.
Qed.

(** A progress document as the endpoint creates it satisfies the
    invariant, with no watch time. *)
Lemma create_invariant (u c l : ObjectId) (now : Date) :
  Spec.invariant (Progress.create u c l now)
  /\ Progress.watchTime (Progress.create u c l now) = 0.
Proof.
  repeat split; cbn; try discriminate; try reflexivity; try lia.
  intros H. now contradiction H.
Qed.

(** A progress document whose [lesson] path holds the stored reference, as
    [findOne] without [populate] returns it: a watch-time report leaves its
    percentage and status alone, and a quiz attempt throws. *)
Lemma unpopulated_progress (now : Date) (p : Progress.t) (id : ObjectId) :
  Progress.lesson p = Progress.Unpopulated id ->
  (forall seconds,
      Progress.completionPercentage (Progress.updateWatchTime now seconds p)
      = Progress.completionPercentage p
      /\ Progress.status (Progress.updateWatchTime now seconds p)
         = Progress.status p)
  /\ (forall answers score timeSpent,
        Progress.recordQuizAttempt now answers score timeSpent p
        = JS.Threw p).
Proof.
  intros Hl. split.
  - intros seconds. unfold Progress.updateWatchTime.
    destruct p as [u c l st w tw cp ca la bs ns q]. cbn in *. subst l.
    now split.
  - intros answers score timeSpent. unfold Progress.recordQuizAttempt.
    now rewrite Hl.
Qed.

(** * Further properties of the code *)

(** ** Watch time: status and completion date *)

(** X1.  On a video lesson of non-zero duration, [updateWatchTime]
    stores the percentage [Math.min(Math.round((watchTime / d) * 100), 100)]
    and makes the progress [completed] exactly when it was completed
    already or that percentage reaches the required share
    ([requiredWatchTime], 80 when unset or 0); it stamps [completedAt] only
    on that first crossing and keeps it afterwards; below the required
    share it takes [not-started] to [in-progress] exactly when the
    percentage is positive and leaves [in-progress] alone. *)
Theorem updateWatchTime_transitions (now : Date) (s : Z) (p : Progress.t)
    (l : Lesson.t) (d : Z) :
  Progress.lesson p = Progress.Populated l ->
  Lesson.type l = Lesson.video ->
  Lesson.video_duration l = Some d ->
  d <> 0 ->
  let p' := Progress.updateWatchTime now s p in
  let pct := Facts.watchedPercent (Z.max (Progress.watchTime p) s) d in
  let required := JS.Fin (JS.orDefault (Lesson.requiredWatchTime l) 80) in
  Progress.completionPercentage p' = pct
  /\ (Progress.status p' = Progress.completed
      <-> Progress.status p = Progress.completed
          \/ JS.geb pct required = true)
  /\ Progress.completedAt p'
     = (if JS.geb pct required
           && negb (Progress.Status_eqb (Progress.status p) Progress.completed)
        then Some now else Progress.completedAt p)
  /\ (JS.geb pct required = false ->
      Progress.status p = Progress.not_started ->
      Progress.status p'
      = (if JS.gtb pct (JS.Fin 0) then Progress.in_progress
         else Progress.not_started))
  /\ (JS.geb pct required = false ->
      Progress.status p = Progress.in_progress ->
      Progress.status p' = Progress.in_progress).
Proof.
  intros Hl Hty Hd Hnz. cbv zeta.
  unfold Facts.watchedPercent, JS.roundedPercent, Progress.updateWatchTime.
  destruct p as [u c r st w tw cp ca la bs ns q]. cbn in Hl. subst r.
  cbn [Progress.lesson Progress.watchTime Progress.set_watchTime
       Progress.set_totalWatchTime Progress.totalWatchTime
       Progress.videoDuration Progress.status Progress.completedAt
       Progress.requiredPercent].
  rewrite Hty, Hd. cbn [Lesson.isVideo JS.truthy andb].
  destruct (Z.eqb_spec d 0) as [E | _]; [contradiction |].
  cbn [negb].
  cbn -[JS.Math_min JS.Math_round JS.times100 JS.div JS.geb JS.gtb
        JS.orDefault Z.max].
  generalize (JS.Math_min
                (JS.Math_round (JS.times100 (JS.div (Z.max w s) d)))
                (JS.Fin 100)) as pct.
  generalize (JS.orDefault (Lesson.requiredWatchTime l) 80) as required.
  intros required pct.
  destruct (JS.geb pct (JS.Fin required)) eqn:Hge;
    destruct (JS.gtb pct (JS.Fin 0)) eqn:Hgt;
    destruct st;
    cbn [Progress.Status_eqb negb andb Progress.set_status
         Progress.set_completedAt Progress.set_completionPercentage
         Progress.completionPercentage Progress.status Progress.completedAt];
    (split; [reflexivity |]);
    (split; [split; [intros Hdone; try discriminate Hdone; auto
                    | intros [Hwas | Hnow]; try discriminate; reflexivity] |]);
    (split; [reflexivity |]);
    (split; intros; try reflexivity; try discriminate).
Qed.

Lemma updateWatchTime_transitions_witness :
  Progress.status
    (Progress.updateWatchTime 1000 170 (Sample.fresh Sample.videoLesson))
  = Progress.completed
  /\ Progress.completedAt
       (Progress.updateWatchTime 2000 190
          (Progress.updateWatchTime 1000 170
             (Sample.fresh Sample.videoLesson)))
     = Some 1000.
Proof.
  assert (200 <> 0) as Hnz by discriminate.
  split.
  - destruct (updateWatchTime_transitions 1000 170
                (Sample.fresh Sample.videoLesson) Sample.videoLesson 200
                eq_refl eq_refl eq_refl Hnz) as (_ & H & _).
    apply H. right. vm_compute. reflexivity.
  - destruct (updateWatchTime_transitions 2000 190
                (Progress.updateWatchTime 1000 170
                   (Sample.fresh Sample.videoLesson))
                Sample.videoLesson 200 eq_refl eq_refl eq_refl Hnz)
      as (_ & _ & H & _).
    rewrite H. vm_compute. reflexivity.
Defined.

(** ** Quiz attempts: highest score and best attempt *)

(** The quiz record after one attempt on a populated lesson. *)
Lemma record_quiz (a : Spec.Submission) (p : Progress.t) (l : Lesson.t) :
  Progress.lesson p = Progress.Populated l ->
  let q := Progress.quiz p in
  let n := Z.of_nat (List.length (Progress.attempts q)) + 1 in
  let better := Progress.highestScore q <? Spec.sub_score a in
  Progress.quiz (Spec.record a p)
  = Progress.mkQuiz
      (Progress.attempts q
         ++ [Progress.mkAttempt n (Spec.sub_answers a) (Spec.sub_score a)
               (Spec.attemptPercentage l (Spec.sub_score a))
               (Spec.sub_at a) (Spec.sub_timeSpent a)])
      (if better then Spec.sub_score a else Progress.highestScore q)
      (if better then Some n else Progress.bestAttempt q)
      (Spec.meets l (Spec.sub_score a)).
Proof.
  intros Hl. cbv zeta. unfold Spec.record, Progress.recordQuizAttempt.
  rewrite Hl.
  unfold Spec.meets, Spec.attemptPercentage, Spec.passingScore.
  destruct p as [u c r st w tw cp ca la bs ns [atts hs ba pd]].
  cbn [Progress.quiz Progress.attempts Progress.highestScore
       Progress.bestAttempt Progress.passed Progress.status
       Progress.set_quiz].
  set (pct := JS.Math_round _). set (pass := JS.geb pct _).
  destruct (hs <? Spec.sub_score a);
    cbn [Progress.quiz Progress.attempts Progress.highestScore
         Progress.bestAttempt Progress.passed];
    destruct pass; try destruct st; reflexivity.
Qed.

Lemma bestConsistent_step (a : Spec.Submission) (p : Progress.t)
    (l : Lesson.t) :
  Progress.lesson p = Progress.Populated l ->
  Facts.bestConsistent (Progress.quiz p) ->
  Facts.bestConsistent (Progress.quiz (Spec.record a p)).
Proof.
  intros Hl [Hbound Hbest]. rewrite (record_quiz a p l Hl). cbv zeta.
  set (q := Progress.quiz p) in *.
  set (atts := Progress.attempts q) in *.
  set (hs := Progress.highestScore q) in *.
  set (new := Progress.mkAttempt _ _ _ _ _ _).
  assert (Progress.score new = Spec.sub_score a) as Hnew by reflexivity.
  unfold Facts.bestConsistent.
  cbn [Progress.attempts Progress.highestScore Progress.bestAttempt].
  destruct (Z.ltb_spec hs (Spec.sub_score a)) as [Hbetter | Hnot].
  - split.
    + intros b Hin. apply in_app_or in Hin as [Hin | [<- | []]].
      * specialize (Hbound b Hin). lia.
      * rewrite Hnew. lia.
    + exists (List.length atts), new. repeat split.
      * rewrite nth_error_app2, Nat.sub_diag by lia. reflexivity.
      * intros j b Hj Hb. rewrite nth_error_app1 in Hb by exact Hj.
        apply nth_error_In in Hb. specialize (Hbound b Hb). lia.
  - split.
    + intros b Hin. apply in_app_or in Hin as [Hin | [<- | []]].
      * now apply Hbound.
      * rewrite Hnew. exact Hnot.
    + destruct (Progress.bestAttempt q) as [k |]; [| exact Hbest].
      destruct Hbest as (i & b & Hk & Hnth & Hnum & Hsc & Hfirst).
      assert (i < List.length atts)%nat as Hi
        by (apply nth_error_Some; congruence).
      exists i, b. repeat split; try assumption.
      * rewrite nth_error_app1 by exact Hi. exact Hnth.
      * intros j c Hj Hc.
        rewrite nth_error_app1 in Hc by lia. now apply (Hfirst j c).
Qed.

(** X2.  Attempts on a populated quiz lesson keep the quiz record
    consistent: [highestScore] bounds the score of every attempt and
    [bestAttempt], once set, is the number of the first attempt that scored
    [highestScore] (a later attempt with an equal score does not take its
    place); [bestAttempt] is unset only while [highestScore] is 0. *)
Theorem recordAll_bestConsistent (l : Lesson.t)
    (later : list Spec.Submission) (p : Progress.t) :
  Progress.lesson p = Progress.Populated l ->
  Facts.bestConsistent (Progress.quiz p) ->
  Facts.bestConsistent (Progress.quiz (Spec.recordAll later p)).
Proof.
  revert p. induction later as [| a rest IH]; intros p Hl Hq; [exact Hq |].
  cbn [Spec.recordAll fold_left]. apply IH.
  - now destruct (record_populated a p l Hl) as [H _].
  - now apply bestConsistent_step with (l := l).
Qed.

Lemma recordAll_bestConsistent_witness :
  Facts.bestConsistent
    (Progress.quiz
       (Spec.recordAll Sample2.threeAttempts (Sample.fresh Sample.quizLesson)))
  /\ Progress.bestAttempt
       (Progress.quiz
          (Spec.recordAll Sample2.threeAttempts
             (Sample.fresh Sample.quizLesson)))
     = Some 2.
Proof.
  split; [| reflexivity].
  apply (recordAll_bestConsistent Sample.quizLesson).
  - reflexivity.
  - split; [intros a [] | reflexivity].
Defined.

(** ** Bookmarks, notes and interactions *)

Lemma sliceLast_length {A : Type} (n : nat) (l : list A) :
  List.length (ProgressLists.sliceLast n l) = Nat.min n (List.length l).
Proof. unfold ProgressLists.sliceLast. rewrite length_skipn. lia. Qed.

Lemma sliceLast_suffix {A : Type} (n : nat) (l : list A) :
  exists dropped, l = dropped ++ ProgressLists.sliceLast n l.
Proof.
  unfold ProgressLists.sliceLast.
  exists (firstn (List.length l - n) l). symmetry. apply firstn_skipn.
Qed.

Lemma sliceLast_last {A : Type} (n : nat) (l : list A) (x d : A) :
  (0 < n)%nat ->
  last (ProgressLists.sliceLast n (l ++ [x])) d = x.
Proof.
  intros Hn. unfold ProgressLists.sliceLast.
  rewrite length_app. cbn [List.length].
  rewrite skipn_app.
  replace (List.length l + 1 - n - List.length l)%nat with 0%nat by lia.
  cbn [skipn]. apply last_last.
Qed.

(** X3.  [recordInteraction] appends the interaction and keeps the last
    100: afterwards the list holds [min(previous length + 1, 100)]
    interactions, the recorded one is the last of them, and the list is
    the end of the previous list followed by the recorded one; bookmarks
    and notes are not touched. *)
Theorem recordInteraction_bounded (now : Date)
    (type : ProgressLists.InteractionType) (timestamp : option Z)
    (value : option string) (this : ProgressLists.t) :
  let recorded := ProgressLists.mkInteraction type timestamp value now in
  let after :=
    ProgressLists.recordInteraction now type timestamp value this in
  List.length (ProgressLists.interactions after)
  = Nat.min (S (List.length (ProgressLists.interactions this))) 100
  /\ last (ProgressLists.interactions after) recorded = recorded
  /\ (exists dropped,
        ProgressLists.interactions this ++ [recorded]
        = dropped ++ ProgressLists.interactions after)
  /\ ProgressLists.bookmarks after = ProgressLists.bookmarks this
  /\ ProgressLists.notes after = ProgressLists.notes this.
Proof.
  cbv zeta. unfold ProgressLists.recordInteraction.
  cbn [ProgressLists.interactions ProgressLists.bookmarks ProgressLists.notes].
  set (recorded := ProgressLists.mkInteraction type timestamp value now).
  set (old := ProgressLists.interactions this).
  assert (List.length (old ++ [recorded]) = S (List.length old)) as Hlen
    by (rewrite length_app; cbn; lia).
  destruct (Nat.ltb_spec 100 (List.length (old ++ [recorded]))) as [Hgt | Hle].
  - repeat split.
    + rewrite sliceLast_length. lia.
    + apply sliceLast_last. lia.
    + apply sliceLast_suffix.
  - repeat split.
    + lia.
    + apply last_last.
    + now exists [].
Qed.

Lemma rewriteNote_ids (noteId : ObjectId) (content : string) (now : Date)
    (l : list ProgressLists.Note) :
  map ProgressLists.n_id (ProgressLists.rewriteNote noteId content now l)
  = map ProgressLists.n_id l.
Proof.
  induction l as [| n rest IH]; cbn; [reflexivity |].
  destruct (String.eqb_spec (ProgressLists.n_id n) noteId); cbn;
    [reflexivity | now rewrite IH].
Qed.

Lemma rewriteNote_others (noteId : ObjectId) (content : string) (now : Date)
    (l : list ProgressLists.Note) (i : nat) (n : ProgressLists.Note) :
  nth_error l i = Some n ->
  ProgressLists.n_id n <> noteId ->
  nth_error (ProgressLists.rewriteNote noteId content now l) i = Some n.
Proof.
  revert i. induction l as [| m rest IH]; intros [| i] Hn Hid;
    cbn in *; try discriminate.
  - injection Hn as ->.
    destruct (String.eqb_spec (ProgressLists.n_id n) noteId);
      [contradiction | reflexivity].
  - destruct (String.eqb_spec (ProgressLists.n_id m) noteId);
      [exact Hn | now apply IH].
Qed.

Lemma rewriteNote_found (noteId : ObjectId) (content : string) (now : Date)
    (l : list ProgressLists.Note) (n : ProgressLists.Note) :
  ProgressLists.noteById noteId l = Some n ->
  ProgressLists.noteById noteId
    (ProgressLists.rewriteNote noteId content now l)
  = Some (ProgressLists.mkNote (ProgressLists.n_id n) content
            (ProgressLists.n_timestamp n) (ProgressLists.n_isPrivate n)
            (ProgressLists.n_createdAt n) (Some now)).
Proof.
  unfold ProgressLists.noteById.
  induction l as [| m rest IH]; cbn; [discriminate |].
  destruct (String.eqb_spec (ProgressLists.n_id m) noteId) as [E | E]; cbn.
  - intros [= <-]. now rewrite E, String.eqb_refl.
  - destruct (String.eqb_spec (ProgressLists.n_id m) noteId);
      [contradiction | exact IH].
Qed.

(** X4.  [updateNote] with an [_id] that no note has returns [null] and
    changes nothing.  With the [_id] of a note it gives that note the new
    content and the update time and keeps its other fields; the notes keep
    their number, order and [_id]s, every note with another [_id] is
    untouched, and so are bookmarks and interactions. *)
Theorem updateNote_spec (now : Date) (noteId : ObjectId) (content : string)
    (this : ProgressLists.t) :
  let result := ProgressLists.updateNote now noteId content this in
  (ProgressLists.noteById noteId (ProgressLists.notes this) = None ->
   result = (this, false))
  /\ (forall n,
        ProgressLists.noteById noteId (ProgressLists.notes this) = Some n ->
        snd result = true
        /\ ProgressLists.noteById noteId (ProgressLists.notes (fst result))
           = Some (ProgressLists.mkNote (ProgressLists.n_id n) content
                     (ProgressLists.n_timestamp n)
                     (ProgressLists.n_isPrivate n)
                     (ProgressLists.n_createdAt n) (Some now))
        /\ map ProgressLists.n_id (ProgressLists.notes (fst result))
           = map ProgressLists.n_id (ProgressLists.notes this)
        /\ (forall i m,
              nth_error (ProgressLists.notes this) i = Some m ->
              ProgressLists.n_id m <> noteId ->
              nth_error (ProgressLists.notes (fst result)) i = Some m)
        /\ ProgressLists.bookmarks (fst result) = ProgressLists.bookmarks this
        /\ ProgressLists.interactions (fst result)
           = ProgressLists.interactions this).
Proof.
  cbv zeta. unfold ProgressLists.updateNote. split.
  - now intros ->.
  - intros n Hn. rewrite Hn. cbn. repeat split.
    + now apply rewriteNote_found.
    + apply rewriteNote_ids.
    + intros i m. apply rewriteNote_others.
Qed.

Lemma updateNote_spec_witness :
  snd (ProgressLists.updateNote 900 "5f1a0000000000000000d002"%string
         "rewritten"%string Sample2.lists) = true
  /\ map ProgressLists.n_id
       (ProgressLists.notes
          (fst (ProgressLists.updateNote 900
                  "5f1a0000000000000000d002"%string "rewritten"%string
                  Sample2.lists)))
     = map ProgressLists.n_id (ProgressLists.notes Sample2.lists).
Proof.
  destruct (updateNote_spec 900 "5f1a0000000000000000d002"%string
              "rewritten"%string Sample2.lists) as [_ Hfound].
  destruct (Hfound _ eq_refl) as (Hreturned & _ & Hids & _).
  split; [exact Hreturned | exact Hids].
Defined.

(** X5.  [removeBookmark] with an [_id] that no bookmark has throws and
    changes nothing (where [updateNote] returns [null]).  With the [_id] of
    a bookmark it returns a document that has no bookmark of that [_id]
    left and keeps every other bookmark, in order, as well as notes and
    interactions. *)
Theorem removeBookmark_spec (bookmarkId : ObjectId)
    (this : ProgressLists.t) :
  (ProgressLists.bookmarkById bookmarkId (ProgressLists.bookmarks this) = None
   -> ProgressLists.removeBookmark bookmarkId this = JS.Threw this)
  /\ (ProgressLists.bookmarkById bookmarkId (ProgressLists.bookmarks this)
      <> None ->
      exists after,
        ProgressLists.removeBookmark bookmarkId this = JS.Returned after
        /\ ProgressLists.bookmarkById bookmarkId
             (ProgressLists.bookmarks after) = None
        /\ ProgressLists.bookmarks after
           = filter (fun b => negb (String.eqb (ProgressLists.b_id b)
                                      bookmarkId))
               (ProgressLists.bookmarks this)
        /\ ProgressLists.notes after = ProgressLists.notes this
        /\ ProgressLists.interactions after
           = ProgressLists.interactions this).
Proof.
  unfold ProgressLists.removeBookmark. split.
  - now intros ->.
  - intros Hsome.
    destruct (ProgressLists.bookmarkById bookmarkId
                (ProgressLists.bookmarks this)) as [found |] eqn:Hfound;
      [| now contradiction Hsome].
    assert (ProgressLists.b_id found = bookmarkId) as Hid.
    { unfold ProgressLists.bookmarkById in Hfound.
      apply find_some in Hfound as [_ H]. now apply String.eqb_eq. }
    rewrite Hid. eexists. split; [reflexivity |].
    cbn [ProgressLists.bookmarks ProgressLists.notes
         ProgressLists.interactions].
    repeat split.
    unfold ProgressLists.bookmarkById.
    destruct (find _ (filter _ _)) as [b |] eqn:Hb; [| reflexivity].
    apply find_some in Hb as [Hin Heq].
    apply filter_In in Hin as [_ Hneq]. now rewrite Heq in Hneq.
Qed.

Lemma removeBookmark_spec_witness :
  exists after,
    ProgressLists.removeBookmark "5f1a0000000000000000c001"%string
      Sample2.lists = JS.Returned after
    /\ ProgressLists.bookmarkById "5f1a0000000000000000c001"%string
         (ProgressLists.bookmarks after) = None.
Proof.
  destruct (removeBookmark_spec "5f1a0000000000000000c001"%string
              Sample2.lists) as [_ Hfound].
  destruct (Hfound ltac:(discriminate)) as (after & Hreturned & Hgone & _).
  exists after. split; [exact Hreturned | exact Hgone].
Defined.

(** ** Lessons: next and previous *)

Lemma leastOrder_spec (ls : list Lesson.t) :
  match Lesson.leastOrder ls with
  | Some n => In n ls /\ forall m, In m ls -> Lesson.order n <= Lesson.order m
  | None => ls = []
  end.
Proof.
  induction ls as [| l rest IH]; cbn; [reflexivity |].
  destruct (Lesson.leastOrder rest) as [m |].
  - destruct IH as [Hin Hmin].
    destruct (Z.ltb_spec (Lesson.order m) (Lesson.order l)).
    + split; [now right |]. intros x [<- | Hx]; [lia | now apply Hmin].
    + split; [now left |]. intros x [<- | Hx]; [lia |].
      specialize (Hmin x Hx). lia.
  - subst rest. split; [now left |]. intros x [<- | []]. lia.
Qed.

Lemma greatestOrder_spec (ls : list Lesson.t) :
  match LessonNav.greatestOrder ls with
  | Some n => In n ls /\ forall m, In m ls -> Lesson.order m <= Lesson.order n
  | None => ls = []
  end.
Proof.
  induction ls as [| l rest IH]; cbn; [reflexivity |].
  destruct (LessonNav.greatestOrder rest) as [m |].
  - destruct IH as [Hin Hmax].
    destruct (Z.ltb_spec (Lesson.order l) (Lesson.order m)).
    + split; [now right |]. intros x [<- | Hx]; [lia | now apply Hmax].
    + split; [now left |]. intros x [<- | Hx]; [lia |].
      specialize (Hmax x Hx). lia.
  - subst rest. split; [now left |]. intros x [<- | []]. lia.
Qed.

Lemma after_filter (db : Lesson.Collection) (l m : Lesson.t) :
  In m (filter (fun x => String.eqb (Lesson.course x) (Lesson.course l)
                         && (Lesson.order l <? Lesson.order x)) db)
  <-> In m db /\ Facts.after l m.
Proof.
  rewrite filter_In, andb_true_iff, String.eqb_eq, Z.ltb_lt.
  unfold Facts.after. tauto.
Qed.

Lemma before_filter (db : Lesson.Collection) (l m : Lesson.t) :
  In m (filter (fun x => String.eqb (Lesson.course x) (Lesson.course l)
                         && (Lesson.order x <? Lesson.order l)) db)
  <-> In m db /\ Facts.after m l.
Proof.
  rewrite filter_In, andb_true_iff, String.eqb_eq, Z.ltb_lt.
  unfold Facts.after. intuition congruence.
Qed.

Lemma getNextLesson_least (db : Lesson.Collection) (l : Lesson.t) :
  match Lesson.getNextLesson db l with
  | Some n =>
      In n db /\ Facts.after l n
      /\ forall m, In m db -> Facts.after l m ->
                   Lesson.order n <= Lesson.order m
  | None => forall m, In m db -> ~ Facts.after l m
  end.
Proof.
  unfold Lesson.getNextLesson.
  pose proof (leastOrder_spec
    (filter (fun x => String.eqb (Lesson.course x) (Lesson.course l)
                      && (Lesson.order l <? Lesson.order x)) db)) as H.
  destruct (Lesson.leastOrder _) as [n |].
  - destruct H as [Hin Hmin]. apply after_filter in Hin as [Hin Hafter].
    repeat split; try assumption; try apply Hafter.
    intros m Hm Hma. apply Hmin. now apply after_filter.
  - intros m Hm Hma.
    assert (In m []) as Hnil by (rewrite <- H; now apply after_filter).
    exact Hnil.
Qed.

Lemma getPreviousLesson_greatest (db : Lesson.Collection) (l : Lesson.t) :
  match LessonNav.getPreviousLesson db l with
  | Some p =>
      In p db /\ Facts.after p l
      /\ forall m, In m db -> Facts.after m l ->
                   Lesson.order m <= Lesson.order p
  | None => forall m, In m db -> ~ Facts.after m l
  end.
Proof.
  unfold LessonNav.getPreviousLesson.
  pose proof (greatestOrder_spec
    (filter (fun x => String.eqb (Lesson.course x) (Lesson.course l)
                      && (Lesson.order x <? Lesson.order l)) db)) as H.
  destruct (LessonNav.greatestOrder _) as [p |].
  - destruct H as [Hin Hmax]. apply before_filter in Hin as [Hin Hbefore].
    split; [exact Hin | split; [exact Hbefore |]].
    intros m Hm Hma. apply Hmax. now apply before_filter.
  - intros m Hm Hma.
    assert (In m []) as Hnil by (rewrite <- H; now apply before_filter).
    exact Hnil.
Qed.

(** X6.  [getNextLesson] answers [null] exactly when the collection has
    no later lesson of the same course; otherwise it answers a lesson of
    the collection, of the same course and of greater order, such that no
    later lesson of the course has a smaller order.  [getPreviousLesson]
    does the same downwards: the earlier lesson of the course of greatest
    order, or [null] when there is none.  Whether a lesson is published
    plays no part in either. *)
Theorem lesson_navigation_spec (db : Lesson.Collection) (l : Lesson.t) :
  match Lesson.getNextLesson db l with
  | Some n =>
      In n db /\ Facts.after l n
      /\ forall m, In m db -> Facts.after l m ->
                   Lesson.order n <= Lesson.order m
  | None => forall m, In m db -> ~ Facts.after l m
  end
  /\ match LessonNav.getPreviousLesson db l with
     | Some p =>
         In p db /\ Facts.after p l
         /\ forall m, In m db -> Facts.after m l ->
                      Lesson.order m <= Lesson.order p
     | None => forall m, In m db -> ~ Facts.after m l
     end.
Proof.
  split; [apply getNextLesson_least | apply getPreviousLesson_greatest].
Qed.

Lemma lesson_navigation_spec_witness :
  (forall m, In m Sample.fourLessons ->
             ~ Facts.after
                 (Sample.lessonAt 4 "5f1a00000000000000000014"%string) m)
  /\ (forall m, In m Sample.fourLessons ->
                Facts.after m
                  (Sample.lessonAt 4 "5f1a00000000000000000014"%string) ->
                Lesson.order m <= 3).
Proof.
  destruct (lesson_navigation_spec Sample.fourLessons
              (Sample.lessonAt 4 "5f1a00000000000000000014"%string))
    as [Hnext (_ & _ & Hprevious)].
  split; [exact Hnext | exact Hprevious].
Defined.

(** X7.  In a collection where distinct lessons of a course have distinct
    orders, the previous lesson of the next lesson of a stored lesson is
    that lesson. *)
Theorem getPreviousLesson_getNextLesson (db : Lesson.Collection)
    (l n : Lesson.t) :
  Facts.ordersDistinct db ->
  In l db ->
  Lesson.getNextLesson db l = Some n ->
  LessonNav.getPreviousLesson db n = Some l.
Proof.
  intros Hdistinct Hl Hnext.
  pose proof (getNextLesson_least db l) as Hspec. rewrite Hnext in Hspec.
  destruct Hspec as (Hn & [Hcourse Horder] & Hmin).
  unfold LessonNav.getPreviousLesson.
  pose proof (greatestOrder_spec
    (filter (fun x => String.eqb (Lesson.course x) (Lesson.course n)
                      && (Lesson.order x <? Lesson.order n)) db)) as H.
  assert (forall x,
            In x (filter (fun x => String.eqb (Lesson.course x)
                                     (Lesson.course n)
                                   && (Lesson.order x <? Lesson.order n)) db)
            <-> In x db /\ Lesson.course x = Lesson.course n
                /\ Lesson.order x < Lesson.order n) as Hfilter.
  { intros x. rewrite filter_In, andb_true_iff, String.eqb_eq, Z.ltb_lt.
    tauto. }
  destruct (LessonNav.greatestOrder _) as [p |].
  - destruct H as [Hin Hmax]. apply Hfilter in Hin as (Hp & Hpc & Hpo).
    f_equal. apply Hdistinct; try assumption; [congruence |].
    assert (Lesson.order l <= Lesson.order p) as Hlp
      by (apply Hmax, Hfilter; repeat split; [assumption | congruence | lia]).
    destruct (Z.eq_dec (Lesson.order p) (Lesson.order l)) as [E | E];
      [exact E | exfalso].
    assert (Facts.after l p) as Hafter by (split; [congruence | lia]).
    specialize (Hmin p Hp Hafter). lia.
  - exfalso.
    assert (In l []) as Hnil
      by (rewrite <- H; apply Hfilter; repeat split;
          [assumption | congruence | lia]).
    exact Hnil.
Qed.

Lemma getPreviousLesson_getNextLesson_witness :
  LessonNav.getPreviousLesson Sample.fourLessons
    (Sample.lessonAt 3 "5f1a00000000000000000013"%string)
  = Some (Sample.lessonAt 2 "5f1a00000000000000000012"%string).
Proof.
  apply (getPreviousLesson_getNextLesson Sample.fourLessons).
  - intros a b Ha Hb _ Horder.
    cbn in Ha, Hb.
    repeat (destruct Ha as [<- | Ha]; [| try contradiction]);
      repeat (destruct Hb as [<- | Hb]; [| try contradiction]);
      try reflexivity; try discriminate Horder; try contradiction.
  - cbn. auto.
  - reflexivity.
Defined.

(** ** Enrollment: what recording a lesson does to the rest *)

(** The document after [markLessonCompleted] for a lesson that is not
    completed yet and that the catalog knows. *)
Lemma markLessonCompleted_new (db : Lesson.Collection)
    (clock : Enrollment.Clock) (lessonId : ObjectId) (watchTime : Z)
    (score : option Z) (e : Enrollment.t) (current : Lesson.t) :
  Enrollment.isLessonCompleted e lessonId = false ->
  Lesson.findById db lessonId = Some current ->
  Enrollment.markLessonCompleted db clock lessonId watchTime score e
  = JS.Returned
      (Enrollment.updateProgress db clock
         (let pushed :=
            Enrollment.set_completedLessons
              (Enrollment.completedLessons e
                 ++ [Enrollment.mkCompletedLesson lessonId
                       (Enrollment.atPush clock) watchTime score]) e in
          match Lesson.getNextLesson db current with
          | Some nextLesson =>
              Enrollment.set_currentLesson
                (Some (Lesson._id nextLesson)) pushed
          | None => pushed
          end)).
Proof.
  unfold Enrollment.isLessonCompleted, Enrollment.markLessonCompleted.
  intros Hnot Hfound.
  destruct (find _ (Enrollment.completedLessons e)) as [cl |] eqn:Hfind.
  - apply find_some in Hfind as [Hin Heq].
    assert (existsb (fun cl => String.eqb (Enrollment.cl_lesson cl) lessonId)
              (Enrollment.completedLessons e) = true) as Hex
      by (apply existsb_exists; eauto).
    congruence.
  - now rewrite Hfound.
Qed.

Lemma markLessonCompleted_again (db : Lesson.Collection)
    (clock : Enrollment.Clock) (lessonId : ObjectId) (watchTime : Z)
    (score : option Z) (e : Enrollment.t) :
  Enrollment.isLessonCompleted e lessonId = true ->
  Enrollment.markLessonCompleted db clock lessonId watchTime score e
  = JS.Returned e.
Proof.
  unfold Enrollment.isLessonCompleted, Enrollment.markLessonCompleted.
  intros Hdone. apply existsb_exists in Hdone as (cl & Hin & Heq).
  destruct (find _ (Enrollment.completedLessons e)) eqn:Hfind;
    [reflexivity |].
  now rewrite (find_none _ _ Hfind cl Hin) in Heq.
Qed.

Lemma updateProgress_currentLesson (db : Lesson.Collection)
    (clock : Enrollment.Clock) (e : Enrollment.t) :
  Enrollment.currentLesson (Enrollment.updateProgress db clock e)
  = Enrollment.currentLesson e.
Proof.
  unfold Enrollment.updateProgress.
  destruct (0 <? _); [| reflexivity].
  destruct e as [i sd c st cls cur cp la cd ci cid]. cbn.
  now destruct (_ && _).
Qed.

Lemma fold_sum_shift (f : Enrollment.CompletedLesson -> Z)
    (l : list Enrollment.CompletedLesson) (acc : Z) :
  fold_left (fun total x => total + f x) l acc
  = acc + fold_left (fun total x => total + f x) l 0.
Proof.
  revert acc. induction l as [| x l IH]; intros acc; cbn; [lia |].
  rewrite (IH (acc + f x)), (IH (f x)). lia.
Qed.

Lemma orDefault_zero (z : Z) : JS.orDefault (Some z) 0 = z.
Proof. cbn. now destruct (Z.eqb_spec z 0). Qed.

(** X8.  [markLessonCompleted] keeps the completed lessons free of
    duplicates, makes [isLessonCompleted] true of its lesson and leaves it
    as it was for every other lesson, and adds the given watch time to
    [totalStudyTime] exactly once: a call for a lesson already completed
    adds nothing. *)
Theorem markLessonCompleted_bookkeeping (db : Lesson.Collection)
    (clock : Enrollment.Clock) (lessonId : ObjectId) (watchTime : Z)
    (score : option Z) (e : Enrollment.t) :
  let e' :=
    JS.stateOf
      (Enrollment.markLessonCompleted db clock lessonId watchTime score e) in
  Enrollment.isLessonCompleted e' lessonId = true
  /\ (forall other, other <> lessonId ->
        Enrollment.isLessonCompleted e' other
        = Enrollment.isLessonCompleted e other)
  /\ (NoDup (map Enrollment.cl_lesson (Enrollment.completedLessons e)) ->
      NoDup (map Enrollment.cl_lesson (Enrollment.completedLessons e')))
  /\ EnrollmentStats.totalStudyTime e'
     = EnrollmentStats.totalStudyTime e
       + (if Enrollment.isLessonCompleted e lessonId then 0 else watchTime).
Proof.
  cbv zeta.
  destruct (Enrollment.isLessonCompleted e lessonId) eqn:Hdone.
  - rewrite (markLessonCompleted_again db clock lessonId watchTime score e
               Hdone).
    cbn [JS.stateOf]. repeat split; try assumption; auto. lia.
  - pose proof (markLessonCompleted_appends db clock lessonId watchTime score
                  e Hdone) as Happ.
    set (e' := JS.stateOf _) in *.
    unfold Enrollment.isLessonCompleted, EnrollmentStats.totalStudyTime in *.
    rewrite Happ. repeat split.
    + rewrite existsb_app. cbn. rewrite String.eqb_refl.
      now rewrite orb_true_r.
    + intros other Hother. rewrite existsb_app. cbn.
      destruct (String.eqb_spec lessonId other) as [E | _];
        [now contradiction Hother |].
      now rewrite !orb_false_r.
    + intros Hnodup. rewrite map_app. cbn.
      apply NoDup_app; [exact Hnodup | repeat constructor; intros [] | ].
      intros x Hx [E | []]. subst x.
      apply in_map_iff in Hx as (cl & Hcl & Hin).
      assert (existsb (fun cl => String.eqb (Enrollment.cl_lesson cl)
                                   lessonId)
                (Enrollment.completedLessons e) = true) as Hex.
      { apply existsb_exists. exists cl. split; [exact Hin |].
        now apply String.eqb_eq. }
      congruence.
    + rewrite fold_left_app. cbn [fold_left]. rewrite orDefault_zero.
      reflexivity.
Qed.

Lemma markLessonCompleted_bookkeeping_witness :
  let e' :=
    JS.stateOf
      (Enrollment.markLessonCompleted Sample.fourLessons (Sample.clock 1000)
         "5f1a00000000000000000013"%string 90 None Sample.twoDone) in
  NoDup (map Enrollment.cl_lesson (Enrollment.completedLessons e'))
  /\ EnrollmentStats.totalStudyTime e' = 90.
Proof.
  cbv zeta.
  destruct (markLessonCompleted_bookkeeping Sample.fourLessons
              (Sample.clock 1000) "5f1a00000000000000000013"%string 90 None
              Sample.twoDone) as (_ & _ & Hnodup & Htime).
  split.
  - apply Hnodup. cbn. repeat constructor; cbn; intuition discriminate.
  - rewrite Htime. reflexivity.
Defined.

(** X9.  After [markLessonCompleted] has recorded a new lesson that the
    catalog knows, [currentLesson] is the [_id] of the next lesson of the
    course, and when the lesson is the last of its course
    [currentLesson] is left as it was. *)
Theorem markLessonCompleted_currentLesson (db : Lesson.Collection)
    (clock : Enrollment.Clock) (lessonId : ObjectId) (watchTime : Z)
    (score : option Z) (e : Enrollment.t) (current : Lesson.t) :
  Enrollment.isLessonCompleted e lessonId = false ->
  Lesson.findById db lessonId = Some current ->
  let e' :=
    JS.stateOf
      (Enrollment.markLessonCompleted db clock lessonId watchTime score e) in
  (forall n, Lesson.getNextLesson db current = Some n ->
             Enrollment.currentLesson e' = Some (Lesson._id n)
             /\ In n db /\ Facts.after current n)
  /\ ((forall m, In m db -> ~ Facts.after current m) ->
      Enrollment.currentLesson e' = Enrollment.currentLesson e).
Proof.
  intros Hnot Hfound. cbv zeta.
  rewrite (markLessonCompleted_new db clock lessonId watchTime score e current
             Hnot Hfound).
  cbn [JS.stateOf]. rewrite updateProgress_currentLesson.
  pose proof (getNextLesson_least db current) as Hspec. split.
  - intros n Hn. rewrite Hn in *. cbv zeta.
    destruct Hspec as (Hin & Hafter & _).
    split; [reflexivity | split; assumption].
  - intros Hlast.
    destruct (Lesson.getNextLesson db current) as [n |]; [| reflexivity].
    destruct Hspec as (Hin & Hafter & _). now elim (Hlast n Hin).
Qed.

Lemma markLessonCompleted_currentLesson_witness :
  Enrollment.currentLesson
    (JS.stateOf
       (Enrollment.markLessonCompleted Sample.fourLessons (Sample.clock 1000)
          "5f1a00000000000000000014"%string 0 None Sample.threeOfFour))
  = Some "5f1a00000000000000000013"%string.
Proof.
  destruct (markLessonCompleted_currentLesson Sample.fourLessons
              (Sample.clock 1000) "5f1a00000000000000000014"%string 0 None
              Sample.threeOfFour
              (Sample.lessonAt 4 "5f1a00000000000000000014"%string)
              eq_refl eq_refl) as [_ Hlast].
  rewrite Hlast; [reflexivity |].
  intros m Hm [_ Horder]. cbn in Hm.
  repeat (destruct Hm as [<- | Hm]; [cbn in Horder; lia |]).
  contradiction.
Defined.

(** ** Enrolling *)

Lemma incEnrollmentCount_In (id : ObjectId) (n : Z)
    (db : CourseDoc.Collection) (x : CourseDoc.t) :
  Facts.idsDistinct db ->
  In x (CourseDoc.incEnrollmentCount id n db) ->
  (exists y, In y db /\ CourseDoc._id y = id
             /\ CourseDoc._id x = id
             /\ CourseDoc.enrollmentCount x = CourseDoc.enrollmentCount y + n)
  \/ (In x db /\ CourseDoc._id x <> id).
Proof.
  unfold Facts.idsDistinct.
  induction db as [| c rest IH]; cbn; intros Hnodup Hin; [contradiction |].
  inversion Hnodup as [| ? ? Hnotin Hrest]; subst.
  destruct (String.eqb_spec (CourseDoc._id c) id) as [E | E].
  - destruct Hin as [<- | Hin].
    + left. exists c. cbn. auto.
    + right. split; [now right |]. intros Hx. apply Hnotin.
      rewrite E, <- Hx. now apply in_map.
  - destruct Hin as [<- | Hin].
    + right. split; [now left | exact E].
    + destruct (IH Hrest Hin) as [(y & Hy & H) | [Hx Hne]].
      * left. exists y. split; [now right | exact H].
      * right. split; [now right | exact Hne].
Qed.

Lemma findEnrollment_None (es : list Enrollment.t)
    (studentId courseId : ObjectId) :
  EnrollmentsController.findEnrollment es studentId courseId = None ->
  ~ In (studentId, courseId)
      (map (fun e => (Enrollment.student e, Enrollment.course e)) es).
Proof.
  unfold EnrollmentsController.findEnrollment. intros Hnone Hin.
  apply in_map_iff in Hin as (e & Hpair & He).
  injection Hpair as Hs Hc.
  pose proof (find_none _ _ Hnone e He) as H. cbn in H.
  rewrite Hs, Hc, !String.eqb_refl in H. discriminate H.
Qed.

Lemma enrolled_snoc (es : list Enrollment.t) (e : Enrollment.t)
    (courseId : ObjectId) :
  Facts.enrolled (es ++ [e]) courseId
  = Facts.enrolled es courseId
    + (if String.eqb (Enrollment.course e) courseId then 1 else 0).
Proof.
  unfold Facts.enrolled. rewrite filter_app, length_app. cbn.
  destruct (String.eqb (Enrollment.course e) courseId); cbn; lia.
Qed.

(** X10.  [enrollInCourse] creates an enrollment exactly when the course
    exists, is published and the student has no enrollment in it; every
    refusal leaves courses and enrollments as they were.  A created
    enrollment is appended, [active] and without completed lessons; no
    student ever gets a second enrollment in a course; and, the courses
    having distinct [_id]s, every [enrollmentCount] that counted the
    enrollment documents of its course still does. *)
Theorem enrollInCourse_spec (now : Date) (newId studentId courseId : ObjectId)
    (db : EnrollmentsController.Db) :
  let result :=
    EnrollmentsController.enrollInCourse now newId studentId courseId db in
  (snd result = EnrollmentsController.Created
   <-> Facts.enrollable db studentId courseId)
  /\ (snd result <> EnrollmentsController.Created -> fst result = db)
  /\ (snd result = EnrollmentsController.Created ->
      EnrollmentsController.enrollments (fst result)
      = EnrollmentsController.enrollments db
          ++ [EnrollmentsController.newEnrollment newId studentId courseId
                now])
  /\ (Facts.onePerPair (EnrollmentsController.enrollments db) ->
      Facts.onePerPair (EnrollmentsController.enrollments (fst result)))
  /\ (Facts.idsDistinct (EnrollmentsController.courses db) ->
      Facts.countsAgree db -> Facts.countsAgree (fst result)).
Proof.
  cbv zeta. unfold EnrollmentsController.enrollInCourse, Facts.enrollable.
  destruct (CourseDoc.findById (EnrollmentsController.courses db) courseId)
    as [course |] eqn:Hcourse.
  2: { cbn. repeat split; try discriminate; auto.
       intros (c & H & _). discriminate H. }
  destruct (CourseDoc.status course) eqn:Hstatus; cbn [CourseDoc.isPublished
    negb].
  1, 3: cbn; repeat split; try discriminate; auto;
        intros (c & [= <-] & H & _); congruence.
  destruct (EnrollmentsController.findEnrollment _ studentId courseId)
    as [existing |] eqn:Hexisting.
  - cbn. repeat split; try discriminate; auto.
    intros (c & _ & _ & H). discriminate H.
  - cbn [fst snd EnrollmentsController.enrollments
         EnrollmentsController.courses].
    split; [split; [intros _; now exists course | reflexivity] |].
    split; [intros H; now contradiction H |].
    split; [reflexivity |]. split.
    + unfold Facts.onePerPair. intros Hnodup. rewrite map_app. cbn.
      apply NoDup_app; [exact Hnodup | repeat constructor; intros [] |].
      intros x Hx [E | []]. subst x.
      now apply findEnrollment_None in Hexisting.
    + intros Hids Hcounts c Hc.
      cbn [EnrollmentsController.courses EnrollmentsController.enrollments]
        in *.
      rewrite enrolled_snoc. cbn [EnrollmentsController.newEnrollment
        Enrollment.course].
      destruct (incEnrollmentCount_In courseId 1 _ c Hids Hc)
        as [(y & Hy & Hyid & Hcid & Hcount) | [Hin Hne]].
      * rewrite Hcount, (Hcounts y Hy), Hyid, Hcid, String.eqb_refl.
        reflexivity.
      * rewrite (Hcounts c Hin).
        destruct (String.eqb_spec courseId (CourseDoc._id c)) as [E | _];
          [now contradiction Hne | lia].
Qed.

Lemma enrollInCourse_spec_witness :
  snd (EnrollmentsController.enrollInCourse 5000
         "5f1a0000000000000000e009"%string Sample2.otherStudent
         Sample.courseId Sample2.store)
  = EnrollmentsController.Created
  /\ Facts.countsAgree
       (fst (EnrollmentsController.enrollInCourse 5000
               "5f1a0000000000000000e009"%string Sample2.otherStudent
               Sample.courseId Sample2.store)).
Proof.
  destruct (enrollInCourse_spec 5000 "5f1a0000000000000000e009"%string
              Sample2.otherStudent Sample.courseId Sample2.store)
    as (Hcreated & _ & _ & _ & Hcounts).
  split.
  - apply Hcreated. exists Sample2.paidCourse. now repeat split.
  - apply Hcounts.
    + repeat constructor. intros [].
    + intros c [<- | []]. reflexivity.
Defined.

(** X11.  What [enrollInCourse] charges: a free course (price 0) records
    no payment; a paid one records exactly one, for the new enrollment,
    dated now, whose amount is the discount price when one is set and not
    0 and the full price otherwise, hence never 0. *)
Theorem enrollInCourse_payment (now : Date)
    (newId studentId courseId : ObjectId) (db : EnrollmentsController.Db)
    (course : CourseDoc.t) :
  CourseDoc.findById (EnrollmentsController.courses db) courseId
  = Some course ->
  snd (EnrollmentsController.enrollInCourse now newId studentId courseId db)
  = EnrollmentsController.Created ->
  let paid :=
    EnrollmentsController.payments
      (fst (EnrollmentsController.enrollInCourse now newId studentId
              courseId db)) in
  (CourseDoc.price course <= 0 ->
   paid = EnrollmentsController.payments db)
  /\ (0 < CourseDoc.price course ->
      exists p,
        paid = EnrollmentsController.payments db ++ [(newId, p)]
        /\ EnrollmentsController.paymentDate p = now
        /\ EnrollmentsController.amount p <> 0
        /\ (forall discount,
              CourseDoc.discountPrice course = Some discount ->
              discount <> 0 ->
              EnrollmentsController.amount p = discount)
        /\ (CourseDoc.discountPrice course = None
            \/ CourseDoc.discountPrice course = Some 0 ->
            EnrollmentsController.amount p = CourseDoc.price course)).
Proof.
  unfold EnrollmentsController.enrollInCourse. intros -> .
  destruct (negb _); [discriminate |].
  destruct (EnrollmentsController.findEnrollment _ _ _); [discriminate |].
  intros _. cbn [fst EnrollmentsController.payments]. split.
  - intros Hfree. destruct (Z.ltb_spec 0 (CourseDoc.price course)); [lia |].
    apply app_nil_r.
  - intros Hpaid. destruct (Z.ltb_spec 0 (CourseDoc.price course)); [| lia].
    eexists. split; [reflexivity |].
    cbn [EnrollmentsController.paymentDate EnrollmentsController.amount].
    split; [reflexivity |].
    destruct (CourseDoc.discountPrice course) as [discount |]; cbn.
    + destruct (Z.eqb_spec discount 0) as [-> | Hne].
      * split; [lia |].
        split; [intros ? [= <-] Hnz; now contradiction Hnz |].
        reflexivity.
      * split; [exact Hne |]. split; [now intros ? [= <-] _ |].
        intros [Hnone | [= Hzero]];
          [discriminate Hnone | now contradiction Hne].
    + split; [lia |].
      split; [intros ? Hsome; discriminate Hsome | reflexivity].
Qed.

Lemma enrollInCourse_payment_witness :
  exists p,
    EnrollmentsController.payments
      (fst (EnrollmentsController.enrollInCourse 5000
              "5f1a0000000000000000e009"%string Sample2.otherStudent
              Sample.courseId Sample2.store))
    = [("5f1a0000000000000000e009"%string, p)]
    /\ EnrollmentsController.amount p = 30.
Proof.
  destruct (enrollInCourse_payment 5000 "5f1a0000000000000000e009"%string
              Sample2.otherStudent Sample.courseId Sample2.store
              Sample2.paidCourse eq_refl eq_refl) as [_ Hpaid].
  destruct (Hpaid eq_refl) as (p & Hp & _ & _ & Hdiscount & _).
  exists p. split; [exact Hp |].
  apply (Hdiscount 30); [reflexivity | discriminate].
Defined.

(** ** Changing the status of an enrollment *)

(** X12.  Through [updateEnrollmentStatus] a student can do one thing
    only: drop an enrollment of their own.  Every other request of a
    student is refused with 403 and leaves the enrollment as it was; an
    accepted one changes the status to [dropped] and nothing else. *)
Theorem updateEnrollmentStatus_student (user : Controller.User)
    (status : Enrollment.Status) (enrollment : Enrollment.t) :
  Controller.role user = Controller.student ->
  let result :=
    EnrollmentsController.updateEnrollmentStatus user status
      (Some enrollment) in
  (snd result = EnrollmentsController.Ok
   <-> Enrollment.student enrollment = Controller.id user
       /\ status = Enrollment.dropped)
  /\ (snd result = EnrollmentsController.Ok ->
      fst result
      = Some (Enrollment.set_status Enrollment.dropped enrollment))
  /\ (snd result <> EnrollmentsController.Ok ->
      snd result = EnrollmentsController.Forbidden
      /\ fst result = Some enrollment).
Proof.
  intros Hrole. cbv zeta.
  unfold EnrollmentsController.updateEnrollmentStatus. rewrite Hrole.
  destruct (String.eqb_spec (Enrollment.student enrollment)
              (Controller.id user)) as [Hown | Hother];
    destruct status; cbn;
    repeat split; try discriminate; try tauto; try congruence;
    try (intros [? ?]; congruence).
Qed.

Lemma updateEnrollmentStatus_student_witness :
  fst (EnrollmentsController.updateEnrollmentStatus
         (Controller.mkUser Sample.studentId Controller.student)
         Enrollment.dropped (Some Sample.twoDone))
  = Some (Enrollment.set_status Enrollment.dropped Sample.twoDone).
Proof.
  destruct (updateEnrollmentStatus_student
              (Controller.mkUser Sample.studentId Controller.student)
              Enrollment.dropped Sample.twoDone eq_refl) as (Hok & Hset & _).
  apply Hset, Hok. split; reflexivity.
Defined.

(** ** Pagination *)

(** X13.  The pagination links of the list handlers, for a page number
    and a page size of at least 1 and [total] the length of the query
    result: there is a [prev] link exactly from page 2 on, a [next] link
    exactly when the next page is not empty, a page never holds more
    than [limit] documents, and a page followed by everything after it is
    everything from its start on, so consecutive pages neither overlap
    nor skip a document. *)
Theorem paginate_spec {A : Type} (page limit : Z) (result : list A) :
  1 <= page -> 1 <= limit ->
  let links :=
    EnrollmentsController.paginate page limit
      (Z.of_nat (List.length result)) in
  (EnrollmentsController.prev links = None <-> page = 1)
  /\ (page <> 1 ->
      EnrollmentsController.prev links = Some (page - 1, limit))
  /\ (EnrollmentsController.next links = None
      <-> EnrollmentsController.pageOf (page + 1) limit result = [])
  /\ (EnrollmentsController.next links <> None ->
      EnrollmentsController.next links = Some (page + 1, limit))
  /\ Z.of_nat (List.length (EnrollmentsController.pageOf page limit result))
     <= limit
  /\ EnrollmentsController.pageOf page limit result
       ++ skipn (Z.to_nat (page * limit)) result
     = skipn (Z.to_nat ((page - 1) * limit)) result.
Proof.
  intros Hpage Hlimit. cbv zeta.
  unfold EnrollmentsController.paginate, EnrollmentsController.pageOf.
  cbn [EnrollmentsController.prev EnrollmentsController.next].
  replace (page + 1 - 1) with page by lia.
  assert (Hstart : (page - 1) * limit + limit = page * limit) by lia.
  rewrite Hstart.
  split; [| split; [| split; [| split; [| split]]]].
  - destruct (Z.ltb_spec 0 ((page - 1) * limit)); split;
      try discriminate; try reflexivity; intros; nia.
  - intros Hne. destruct (Z.ltb_spec 0 ((page - 1) * limit));
      [reflexivity | nia].
  - destruct (Z.ltb_spec (page * limit) (Z.of_nat (List.length result)))
      as [Hlt | Hge]; split; try discriminate; try reflexivity.
    + intros Hempty. apply (f_equal (@List.length A)) in Hempty.
      rewrite length_firstn, length_skipn in Hempty. cbn in Hempty. nia.
    + intros _. rewrite skipn_all2; [now rewrite firstn_nil | nia].
  - destruct (Z.ltb_spec (page * limit) (Z.of_nat (List.length result)));
      [reflexivity | intros Hnone; now contradiction Hnone].
  - rewrite length_firstn. lia.
  - replace (Z.to_nat (page * limit))
      with (Z.to_nat limit + Z.to_nat ((page - 1) * limit))%nat by nia.
    rewrite <- skipn_skipn. apply firstn_skipn.
Qed.

Lemma paginate_spec_witness :
  EnrollmentsController.pageOf 2 2 [1; 2; 3; 4; 5] ++ [5] = [3; 4; 5].
Proof.
  destruct (paginate_spec 2 2 [1; 2; 3; 4; 5] ltac:(lia) ltac:(lia))
    as (_ & _ & _ & _ & _ & Hpages).
  exact Hpages.
Defined.

(** ** The progress endpoint as a whole *)

Lemma findOrNew_reference (now : Date) (store : LessonsController.Store)
    (userId : ObjectId) (lesson : Lesson.t) :
  Facts.references (LessonsController.progress store) ->
  exists id,
    Progress.lesson (LessonsController.findOrNew now store userId lesson)
    = Progress.Unpopulated id.
Proof.
  intros Hrefs. unfold LessonsController.findOrNew.
  destruct (LessonsController.findProgress _ _ _) as [found |] eqn:Hfound.
  - apply find_some in Hfound as [Hin _]. now apply Hrefs.
  - now eexists.
Qed.

(** What the dispatch does to a progress document whose lesson is the
    stored reference. *)
Lemma dispatch_on_reference (now : Date) (lesson : Lesson.t)
    (body : Controller.Body) (before : Progress.t) (id : ObjectId) :
  Progress.lesson before = Progress.Unpopulated id ->
  match Controller.updateLessonProgress now lesson body before with
  | JS.Threw _ =>
      Lesson.type lesson = Lesson.quiz
      /\ Controller.body_quizAnswers body <> None
  | JS.Returned p =>
      (Lesson.type lesson = Lesson.quiz ->
       Controller.body_quizAnswers body = None)
      /\ (Progress.status p = Progress.completed ->
          Progress.status before = Progress.completed
          \/ Controller.body_status body = Some Progress.completed)
      /\ (Lesson.type lesson = Lesson.video ->
          Controller.body_watchTime body <> None ->
          Progress.status p = Progress.status before
          /\ Progress.completionPercentage p
             = Progress.completionPercentage before)
  end.
Proof.
  intros Href.
  destruct (unpopulated_progress now before id Href) as [Hwatch Hquiz].
  assert (forall status,
            Progress.status (Controller.updateStatus now status before)
            = status) as Hset
    by (intros status; unfold Controller.updateStatus;
        now destruct status, before).
  unfold Controller.updateLessonProgress.
  destruct (Lesson.type lesson) eqn:Htype;
    destruct (Controller.body_watchTime body) as [watchTime |] eqn:Hw;
    destruct (Controller.body_quizAnswers body) as [quizAnswers |] eqn:Hq;
    try (destruct (Controller.gradeQuiz lesson quizAnswers) as [[? ?] |];
         try rewrite Hquiz; now split);
    try (destruct (Hwatch watchTime) as [Hcp Hst];
         split; [discriminate |];
         split; [intros Hdone; left; congruence |];
         intros _ _; now split);
    destruct (Controller.body_status body) as [status |];
    (split; [try discriminate; try reflexivity |];
     split; [ try (rewrite Hset; intros ->; now right); now left
            | try discriminate; intros _ Hsome; now contradiction Hsome ]).
Qed.

(** X14.  [updateLessonProgress], the request handler, on a stored lesson
    and a progress collection that holds references: it never answers
    403, whether the user is enrolled or not; a quiz submission always
    ends in an exception and writes nothing to the enrollment; a watch
    time report on a video lesson leaves status and percentage as they
    were; so a progress record becomes completed through this handler
    only by a request that says so.  When it answers, an active
    enrollment of the user has the lesson among its completed lessons if
    the progress is completed, and is untouched otherwise. *)
Theorem updateLessonProgress_handler (now : Date) (clock : Enrollment.Clock)
    (store : LessonsController.Store) (userId lessonId : ObjectId)
    (body : Controller.Body) (lesson : Lesson.t) :
  Facts.references (LessonsController.progress store) ->
  Lesson.findById (LessonsController.lessons store) lessonId = Some lesson ->
  let before := LessonsController.findOrNew now store userId lesson in
  let enrollment :=
    LessonsController.findActive (LessonsController.enrollments store)
      (Lesson.course lesson) userId in
  let result :=
    LessonsController.updateLessonProgress now clock store userId lessonId
      body in
  fst result <> LessonsController.Forbidden
  /\ (Lesson.type lesson = Lesson.quiz ->
      Controller.body_quizAnswers body <> None ->
      result = (LessonsController.Failed, enrollment))
  /\ (forall p,
        fst result = LessonsController.Ok p ->
        (Progress.status p = Progress.completed ->
         Progress.status before = Progress.completed
         \/ Controller.body_status body = Some Progress.completed)
        /\ (Lesson.type lesson = Lesson.video ->
            Controller.body_watchTime body <> None ->
            Progress.status p = Progress.status before
            /\ Progress.completionPercentage p
               = Progress.completionPercentage before)
        /\ match enrollment with
           | Some found =>
               exists after,
                 snd result = Some after
                 /\ if Progress.Status_eqb (Progress.status p)
                         Progress.completed
                    then Enrollment.isLessonCompleted after lessonId = true
                    else after = found
           | None => snd result = None
           end).
Proof.
  intros Hrefs Hlesson. cbv zeta.
  destruct (findOrNew_reference now store userId lesson Hrefs) as [id Href].
  pose proof (dispatch_on_reference now lesson body _ id Href) as Hdispatch.
  unfold LessonsController.updateLessonProgress. rewrite Hlesson. cbv zeta.
  replace (JS.gtb (LessonsController.priceOfReference (Lesson.course lesson))
             (JS.Fin 0)) with false by reflexivity.
  rewrite andb_false_r.
  destruct (Controller.updateLessonProgress now lesson body _)
    as [p | p].
  - destruct Hdispatch as (Hquiz & Hdone & Hvideo).
    destruct (LessonsController.findActive _ _ _) as [found |].
    + destruct (Progress.Status_eqb (Progress.status p) Progress.completed)
        eqn:Hstatus.
      * pose proof (markLessonCompleted_recorded
                      (LessonsController.lessons store) clock lessonId
                      (match Controller.body_watchTime body with
                       | Some watchTime => watchTime
                       | None => 0
                       end) None found) as Hrecorded.
        unfold Enrollment.markLessonCompleted in *.
        destruct (find _ (Enrollment.completedLessons found)) eqn:Hfind.
        -- cbn. split; [discriminate |].
           split; [intros Hq Hsome; now rewrite (Hquiz Hq) in Hsome |].
           intros p' [= <-]. rewrite Hstatus.
           split; [exact Hdone | split; [exact Hvideo |]].
           exists found. split; [reflexivity |].
           unfold Enrollment.isLessonCompleted.
           apply find_some in Hfind as [Hin Heq].
           apply existsb_exists. eauto.
        -- rewrite Hlesson in *. cbn [JS.stateOf] in Hrecorded. cbn [fst snd].
           split; [discriminate |].
           split; [intros Hq Hsome; now rewrite (Hquiz Hq) in Hsome |].
           intros p' [= <-]. rewrite Hstatus.
           split; [exact Hdone | split; [exact Hvideo |]].
           eexists. split; [reflexivity |].
           unfold Enrollment.isLessonCompleted.
           match type of Hrecorded with
           | find ?f ?l <> None =>
               destruct (find f l) as [cl |] eqn:Hcl;
                 [| now contradiction Hrecorded]
           end.
           apply find_some in Hcl as [Hin Heq].
           apply existsb_exists. eauto.
      * cbn. split; [discriminate |].
        split; [intros Hq Hsome; now rewrite (Hquiz Hq) in Hsome |].
        intros p' [= <-]. rewrite Hstatus.
        split; [exact Hdone | split; [exact Hvideo |]].
        now exists found.
    + cbn. split; [discriminate |].
      split; [intros Hq Hsome; now rewrite (Hquiz Hq) in Hsome |].
      intros p' [= <-].
      split; [exact Hdone | split; [exact Hvideo | reflexivity]].
  - cbn. split; [discriminate |]. split; [reflexivity |].
    intros p' Hp'. discriminate Hp'.
Qed.

Lemma updateLessonProgress_handler_witness :
  fst (LessonsController.updateLessonProgress 1000 (Sample.clock 1000)
         Sample2.campus Sample2.otherStudent
         "5f1a00000000000000000013"%string Sample2.sayCompleted)
  <> LessonsController.Forbidden.
Proof.
  destruct (updateLessonProgress_handler 1000 (Sample.clock 1000)
              Sample2.campus Sample2.otherStudent
              "5f1a00000000000000000013"%string Sample2.sayCompleted
              (Sample.lessonAt 3 "5f1a00000000000000000013"%string))
    as [Hnever _].
  - intros p [].
  - reflexivity.
  - exact Hnever.
Defined.

(** ** Showing a lesson *)

Lemma withoutAnswers_hidden (lesson : Lesson.t) :
  Facts.answersHidden (LessonsController.withoutAnswers lesson).
Proof.
  intros q Hq. cbn in Hq. apply in_map_iff in Hq as (q0 & <- & _).
  reflexivity.
Qed.

Lemma refusal_spec (store : LessonsController.Store)
    (user : Controller.User) (lesson : Lesson.t) :
  (LessonsController.refusal store user lesson
   = Some LessonsController.Forbidden
   <-> LessonsController.isPreview store lesson = false
       /\ Controller.role user = Controller.student
       /\ (exists course,
             CourseDoc.findById (LessonsController.courses store)
               (Lesson.course lesson) = Some course
             /\ 0 < CourseDoc.price course)
       /\ LessonsController.findActive (LessonsController.enrollments store)
            (Lesson.course lesson) (Controller.id user) = None)
  /\ (forall response,
        LessonsController.refusal store user lesson = Some response ->
        response = LessonsController.Forbidden
        \/ response = LessonsController.Failed).
Proof.
  unfold LessonsController.refusal.
  destruct (LessonsController.isPreview store lesson); cbn [negb].
  { split; [split; [discriminate | intros [H _]; discriminate H] |].
    intros response H. discriminate H. }
  destruct (CourseDoc.findById (LessonsController.courses store)
              (Lesson.course lesson)) as [course |].
  2: { split; [split; [discriminate |] | intros response [= <-]; now right].
       intros (_ & _ & (c & Hc & _) & _). discriminate Hc. }
  destruct (Z.ltb_spec 0 (CourseDoc.price course)) as [Hpaid | Hfree];
    cbn [andb].
  2: { split; [split; [discriminate |] | intros response H; discriminate H].
       intros (_ & _ & (c & [= <-] & Hprice) & _). lia. }
  destruct (Controller.role user); cbn [LessonsController.isStudent].
  2, 3: split; [split; [discriminate |] | intros response H; discriminate H];
        intros (_ & Hrole & _); discriminate Hrole.
  destruct (LessonsController.findActive _ _ _) as [e |].
  - split; [split; [discriminate |] | intros response H; discriminate H].
    intros (_ & _ & _ & Hnone). discriminate Hnone.
  - split; [| intros response [= <-]; now left].
    split; [intros _ | reflexivity]. repeat split. now exists course.
Qed.

(** X15.  [getLesson] on a stored lesson.  It answers 403 exactly to a
    student without an active enrollment who asks for a lesson that is
    not a preview of a course with a price.  When it answers with the
    lesson, a lesson that is not a quiz is sent as it is; a quiz is sent
    as it is exactly when the user already had a completed progress
    record for it, and without any correct answer otherwise, so also to
    every user who has no progress record.  A progress record is created
    only for a student who had none and is shown the lesson. *)
Theorem getLesson_spec (now : Date) (store : LessonsController.Store)
    (user : Controller.User) (lessonId : ObjectId) (lesson : Lesson.t) :
  Lesson.findById (LessonsController.lessons store) lessonId = Some lesson ->
  let result := LessonsController.getLesson now store user lessonId in
  let found :=
    LessonsController.findProgress (LessonsController.progress store)
      (Controller.id user) lessonId in
  (fst result = LessonsController.Forbidden
   <-> LessonsController.isPreview store lesson = false
       /\ Controller.role user = Controller.student
       /\ (exists course,
             CourseDoc.findById (LessonsController.courses store)
               (Lesson.course lesson) = Some course
             /\ 0 < CourseDoc.price course)
       /\ LessonsController.findActive (LessonsController.enrollments store)
            (Lesson.course lesson) (Controller.id user) = None)
  /\ (forall shown,
        fst result = LessonsController.Ok shown ->
        (Lesson.type lesson <> Lesson.quiz ->
         LessonsController.lessonData shown = lesson)
        /\ (Lesson.type lesson = Lesson.quiz ->
            ((exists p, found = Some p
                        /\ Progress.status p = Progress.completed) ->
             LessonsController.lessonData shown = lesson)
            /\ (~ (exists p, found = Some p
                             /\ Progress.status p = Progress.completed) ->
                LessonsController.lessonData shown
                = LessonsController.withoutAnswers lesson
                /\ Facts.answersHidden (LessonsController.lessonData shown)))
        /\ (snd result = LessonsController.progress store
            \/ Controller.role user = Controller.student
               /\ found = None
               /\ snd result
                  = LessonsController.progress store
                      ++ [Progress.create (Controller.id user)
                            (Lesson.course lesson) lessonId now]))
  /\ ((forall shown, fst result <> LessonsController.Ok shown) ->
      snd result = LessonsController.progress store).
Proof.
  intros Hlesson. cbv zeta. unfold LessonsController.getLesson.
  rewrite Hlesson.
  destruct (refusal_spec store user lesson) as [Hforbidden Hother].
  destruct (LessonsController.refusal store user lesson) as [response |].
  - cbn [fst snd]. destruct (Hother response eq_refl) as [-> | ->].
    + split; [split; [intros _; now apply Hforbidden | reflexivity] |].
      split; [intros shown Hshown; discriminate Hshown | reflexivity].
    + split; [split; [discriminate |] |].
      * intros H. apply Hforbidden in H. discriminate H.
      * split; [intros shown Hshown; discriminate Hshown | reflexivity].
  - cbv zeta. cbn [fst snd].
    split; [split; [discriminate |] |].
    { intros H. apply Hforbidden in H. discriminate H. }
    split; [| intros Hnone; exfalso; eapply Hnone; reflexivity].
    intros shown [= <-]. cbn [LessonsController.lessonData].
    split; [| split].
    + intros Hnot. destruct (Lesson.type lesson); try reflexivity.
      now contradiction Hnot.
    + intros Hquiz. rewrite Hquiz. cbn [LessonsController.isQuiz andb].
      destruct (LessonsController.findProgress _ _ _) as [p |].
      * split.
        -- intros (p' & [= <-] & Hdone). now rewrite Hdone.
        -- intros Hnot.
           destruct (Progress.status p) eqn:Hstatus; cbn;
             try (split; [reflexivity | apply withoutAnswers_hidden]).
           exfalso. apply Hnot. now exists p.
      * split.
        -- intros (p' & Hp' & _). discriminate Hp'.
        -- intros _.
           destruct (LessonsController.isStudent (Controller.role user));
             cbn; (split; [reflexivity | apply withoutAnswers_hidden]).
    + destruct (LessonsController.findProgress _ _ _) as [p |].
      * left. apply app_nil_r.
      * destruct (Controller.role user); cbn [LessonsController.isStudent].
        -- right. now repeat split.
        -- left. apply app_nil_r.
        -- left. apply app_nil_r.
Qed.

Lemma getLesson_spec_witness :
  exists shown,
    fst (LessonsController.getLesson 1000 Sample2.campus Sample.owner
           "5f1a00000000000000000003"%string)
    = LessonsController.Ok shown
    /\ Facts.answersHidden (LessonsController.lessonData shown).
Proof.
  destruct (getLesson_spec 1000 Sample2.campus Sample.owner
              "5f1a00000000000000000003"%string Sample.quizLesson eq_refl)
    as (_ & Hshown & _).
  eexists. split; [reflexivity |].
  destruct (Hshown _ eq_refl) as (_ & Hquiz & _).
  destruct (Hquiz eq_refl) as [_ Hhidden].
  apply Hhidden. intros (p & Hp & _). discriminate Hp.
Defined.

(** ** Creating and deleting lessons *)

Lemma incTotalLectures_In (id : ObjectId) (n : Z)
    (db : CourseDoc.Collection) (x : CourseDoc.t) :
  Facts.idsDistinct db ->
  In x (CourseDoc.incTotalLectures id n db) ->
  (exists y, In y db /\ CourseDoc._id y = id
             /\ CourseDoc._id x = id
             /\ CourseDoc.totalLectures x = CourseDoc.totalLectures y + n)
  \/ (In x db /\ CourseDoc._id x <> id).
Proof.
  unfold Facts.idsDistinct.
  induction db as [| c rest IH]; cbn; intros Hnodup Hin; [contradiction |].
  inversion Hnodup as [| ? ? Hnotin Hrest]; subst.
  destruct (String.eqb_spec (CourseDoc._id c) id) as [E | E].
  - destruct Hin as [<- | Hin].
    + left. exists c. cbn. auto.
    + right. split; [now right |]. intros Hx. apply Hnotin.
      rewrite E, <- Hx. now apply in_map.
  - destruct Hin as [<- | Hin].
    + right. split; [now left | exact E].
    + destruct (IH Hrest Hin) as [(y & Hy & H) | [Hx Hne]].
      * left. exists y. split; [now right | exact H].
      * right. split; [now right | exact Hne].
Qed.

Lemma incTotalLectures_back (id : ObjectId) (n : Z)
    (db : CourseDoc.Collection) :
  CourseDoc.incTotalLectures id (- n) (CourseDoc.incTotalLectures id n db)
  = db.
Proof.
  induction db as [| c rest IH]; cbn; [reflexivity |].
  destruct (String.eqb (CourseDoc._id c) id) eqn:E; cbn; rewrite E.
  - destruct c as [i ins st p dp ec tl]. cbn. do 2 f_equal. lia.
  - now rewrite IH.
Qed.

Lemma incTotalLectures_findById (id : ObjectId) (n : Z)
    (db : CourseDoc.Collection) (course : CourseDoc.t) :
  CourseDoc.findById db id = Some course ->
  exists course',
    CourseDoc.findById (CourseDoc.incTotalLectures id n db) id = Some course'
    /\ CourseDoc.instructor course' = CourseDoc.instructor course.
Proof.
  unfold CourseDoc.findById.
  induction db as [| c rest IH]; cbn; [discriminate |].
  destruct (String.eqb (CourseDoc._id c) id) eqn:E; cbn; rewrite E.
  - intros [= <-]. now eexists.
  - exact IH.
Qed.

Lemma findById_fresh (db : Lesson.Collection) (lesson : Lesson.t) :
  Lesson.findById db (Lesson._id lesson) = None ->
  Lesson.findById (db ++ [lesson]) (Lesson._id lesson) = Some lesson
  /\ LessonsController.remove (Lesson._id lesson) (db ++ [lesson]) = db.
Proof.
  unfold Lesson.findById.
  induction db as [| l rest IH]; cbn.
  - intros _. now rewrite String.eqb_refl.
  - destruct (String.eqb (Lesson._id l) (Lesson._id lesson));
      [discriminate |].
    intros Hnone. destruct (IH Hnone) as [Hfind Hremove].
    split; [exact Hfind | now rewrite Hremove].
Qed.

Lemma remove_count (db : Lesson.Collection) (id courseId : ObjectId)
    (lesson : Lesson.t) :
  Lesson.findById db id = Some lesson ->
  List.length (filter (fun l => String.eqb (Lesson.course l) courseId) db)
  = (List.length
       (filter (fun l => String.eqb (Lesson.course l) courseId)
          (LessonsController.remove id db))
     + (if String.eqb (Lesson.course lesson) courseId then 1 else 0))%nat.
Proof.
  unfold Lesson.findById.
  induction db as [| l rest IH]; cbn; [discriminate |].
  destruct (String.eqb (Lesson._id l) id).
  - intros [= <-].
    destruct (String.eqb (Lesson.course l) courseId); cbn; lia.
  - intros Hfound. cbn.
    destruct (String.eqb (Lesson.course l) courseId); cbn;
      rewrite (IH Hfound); lia.
Qed.

Lemma notOwner_false (user : Controller.User) (course : CourseDoc.t) :
  LessonsController.notOwner user course = false
  <-> Facts.mayEdit user course.
Proof.
  unfold LessonsController.notOwner, Facts.mayEdit.
  destruct (String.eqb_spec (CourseDoc.instructor course)
              (Controller.id user));
    destruct (Controller.role user); cbn; intuition congruence.
Qed.

(** X16.  [createLesson] and [deleteLesson] change the store only for the
    instructor of the lesson's course or an admin, and, the courses having
    distinct [_id]s, they keep [totalLectures] in step: if every course
    counted its lessons before, every course does so afterwards. *)
Theorem lessons_count_invariant (user : Controller.User)
    (lesson : Lesson.t) (lessonId : ObjectId)
    (store : LessonsController.Store) :
  let created := LessonsController.createLesson user lesson store in
  let deleted := LessonsController.deleteLesson user lessonId store in
  (fst created <> store ->
   exists course,
     CourseDoc.findById (LessonsController.courses store)
       (Lesson.course lesson) = Some course
     /\ Facts.mayEdit user course)
  /\ (fst deleted <> store ->
      exists found course,
        Lesson.findById (LessonsController.lessons store) lessonId
        = Some found
        /\ CourseDoc.findById (LessonsController.courses store)
             (Lesson.course found) = Some course
        /\ Facts.mayEdit user course)
  /\ (Facts.idsDistinct (LessonsController.courses store) ->
      Facts.lecturesAgree store ->
      Facts.lecturesAgree (fst created)
      /\ Facts.lecturesAgree (fst deleted)).
Proof.
  cbv zeta.
  unfold LessonsController.createLesson, LessonsController.deleteLesson.
  split; [| split].
  - destruct (CourseDoc.findById _ (Lesson.course lesson)) as [course |]
      eqn:Hcourse; [| intros H; now contradiction H].
    destruct (LessonsController.notOwner user course) eqn:Howner;
      [intros H; now contradiction H |].
    intros _. exists course. split; [reflexivity |].
    now apply notOwner_false.
  - destruct (Lesson.findById _ lessonId) as [found |] eqn:Hfound;
      [| intros H; now contradiction H].
    destruct (CourseDoc.findById _ (Lesson.course found)) as [course |]
      eqn:Hcourse; [| intros H; now contradiction H].
    destruct (LessonsController.notOwner user course) eqn:Howner;
      [intros H; now contradiction H |].
    intros _. exists found, course.
    split; [reflexivity | split; [exact Hcourse |]].
    now apply notOwner_false.
  - intros Hids Hagree. split.
    + destruct (CourseDoc.findById _ (Lesson.course lesson)) as [course |];
        [| exact Hagree].
      destruct (LessonsController.notOwner user course); [exact Hagree |].
      intros c Hc.
      cbn [fst LessonsController.courses LessonsController.lessons] in *.
      rewrite filter_app, length_app. cbn [filter].
      destruct (incTotalLectures_In _ 1 _ c Hids Hc)
        as [(y & Hy & Hyid & Hcid & Hcount) | [Hin Hne]].
      * rewrite Hcount, (Hagree y Hy), Hyid, Hcid, String.eqb_refl.
        cbn [List.length]. lia.
      * rewrite (Hagree c Hin).
        destruct (String.eqb_spec (Lesson.course lesson) (CourseDoc._id c))
          as [E | _]; [now contradiction Hne |].
        cbn [List.length]. lia.
    + destruct (Lesson.findById _ lessonId) as [found |] eqn:Hfound;
        [| exact Hagree].
      destruct (CourseDoc.findById _ (Lesson.course found)) as [course |];
        [| exact Hagree].
      destruct (LessonsController.notOwner user course); [exact Hagree |].
      intros c Hc.
      cbn [fst LessonsController.courses LessonsController.lessons] in *.
      pose proof (remove_count _ lessonId (CourseDoc._id c) found Hfound)
        as Hremove.
      destruct (incTotalLectures_In _ (-1) _ c Hids Hc)
        as [(y & Hy & Hyid & Hcid & Hcount) | [Hin Hne]].
      * rewrite Hcount, (Hagree y Hy), Hyid, <- Hcid.
        rewrite Hcid, String.eqb_refl in Hremove. rewrite <- Hcid in Hremove.
        lia.
      * rewrite (Hagree c Hin).
        destruct (String.eqb_spec (Lesson.course found) (CourseDoc._id c))
          as [E | _]; [now contradiction Hne |].
        lia.
Qed.

Lemma lessons_count_invariant_witness :
  Facts.lecturesAgree
    (fst (LessonsController.createLesson Sample2.teacher Sample2.fifthLesson
            Sample2.campus)).
Proof.
  destruct (lessons_count_invariant Sample2.teacher Sample2.fifthLesson
              "5f1a00000000000000000011"%string Sample2.campus)
    as (_ & _ & Hagree).
  destruct Hagree as [Hcreated _]; [| | exact Hcreated].
  - repeat constructor. intros [].
  - intros c [<- | []]. reflexivity.
Defined.

(** X17.  Deleting a lesson that has just been created, under an [_id]
    that no stored lesson had, gives the store back as it was: the same
    lessons in the same order, and every course with the [totalLectures]
    it had. *)
Theorem deleteLesson_createLesson (user : Controller.User)
    (lesson : Lesson.t) (store : LessonsController.Store) :
  Lesson.findById (LessonsController.lessons store) (Lesson._id lesson)
  = None ->
  snd (LessonsController.createLesson user lesson store)
  = LessonsController.Ok lesson ->
  LessonsController.deleteLesson user (Lesson._id lesson)
    (fst (LessonsController.createLesson user lesson store))
  = (store, LessonsController.Ok tt).
Proof.
  intros Hfresh. unfold LessonsController.createLesson.
  destruct (CourseDoc.findById _ (Lesson.course lesson)) as [course |]
    eqn:Hcourse; [| discriminate].
  destruct (LessonsController.notOwner user course) eqn:Howner;
    [discriminate |].
  intros _. cbn [fst]. unfold LessonsController.deleteLesson.
  cbn [LessonsController.lessons LessonsController.courses
       LessonsController.previews LessonsController.enrollments
       LessonsController.progress].
  destruct (findById_fresh _ lesson Hfresh) as [-> ->].
  destruct (incTotalLectures_findById _ 1 _ course Hcourse)
    as (course' & -> & Hinstructor).
  unfold LessonsController.notOwner in *. rewrite Hinstructor, Howner.
  change (-1) with (- (1)). rewrite incTotalLectures_back.
  now destruct store.
Qed.

Lemma deleteLesson_createLesson_witness :
  LessonsController.deleteLesson Sample2.teacher
    (Lesson._id Sample2.fifthLesson)
    (fst (LessonsController.createLesson Sample2.teacher Sample2.fifthLesson
            Sample2.campus))
  = (Sample2.campus, LessonsController.Ok tt).
Proof.
  apply deleteLesson_createLesson; reflexivity.
Defined.

(** ** Statistics *)

Lemma updateProgress_recomputed (db : Lesson.Collection)
    (clock : Enrollment.Clock) (e : Enrollment.t) :
  0 < Lesson.countPublished db (Enrollment.course e) ->
  Enrollment.course (Enrollment.updateProgress db clock e)
  = Enrollment.course e
  /\ Enrollment.completionPercentage (Enrollment.updateProgress db clock e)
     = JS.roundedPercent
         (Z.of_nat (List.length (Enrollment.completedLessons e)))
         (Lesson.countPublished db (Enrollment.course e))
  /\ Enrollment.lastAccessedAt (Enrollment.updateProgress db clock e)
     = Enrollment.atAccess clock.
Proof.
  intros Htotal. unfold Enrollment.updateProgress.
  destruct (Z.ltb_spec 0 (Lesson.countPublished db (Enrollment.course e)));
    [| lia].
  cbv zeta. destruct e as [i sd c st cls cur cp la cd ci cid].
  cbn [Enrollment.course Enrollment.completedLessons Enrollment.status
       Enrollment.set_completionPercentage Enrollment.completionPercentage
       Enrollment._id Enrollment.student Enrollment.currentLesson
       Enrollment.lastAccessedAt Enrollment.completionDate
       Enrollment.certificateIssued Enrollment.certificateId] in *.
  change (JS.Math_round (JS.times100 (JS.div ?n ?t)))
    with (JS.roundedPercent n t).
  generalize (JS.roundedPercent (Z.of_nat (List.length cls))
                (Lesson.countPublished db c)) as pct.
  intros pct. destruct (_ && _); cbn; repeat split.
Qed.

(** X18.  The statistics of [getCompletionStats] right after
    [markLessonCompleted] has recorded a new lesson of the catalog, in a
    course with a published lesson: one more completed lesson, the given
    watch time added to the study time, the time of the call as last
    access, and as percentage [Math.round((completed / total) * 100)] of
    the two counts of the same answer, a whole number from 0 to 100 as
    long as no more lessons are completed than published. *)
Theorem getCompletionStats_after_completion (db : Lesson.Collection)
    (clock : Enrollment.Clock) (lessonId : ObjectId) (watchTime : Z)
    (score : option Z) (e : Enrollment.t) (current : Lesson.t) :
  Enrollment.isLessonCompleted e lessonId = false ->
  Lesson.findById db lessonId = Some current ->
  0 < Lesson.countPublished db (Enrollment.course e) ->
  let stats :=
    EnrollmentStats.getCompletionStats db
      (JS.stateOf
         (Enrollment.markLessonCompleted db clock lessonId watchTime score
            e)) in
  EnrollmentStats.totalLessons stats
  = Lesson.countPublished db (Enrollment.course e)
  /\ EnrollmentStats.completedLessons stats
     = EnrollmentStats.completedLessons
         (EnrollmentStats.getCompletionStats db e) + 1
  /\ EnrollmentStats.completionPercentage stats
     = JS.roundedPercent (EnrollmentStats.completedLessons stats)
         (EnrollmentStats.totalLessons stats)
  /\ (EnrollmentStats.completedLessons stats
      <= EnrollmentStats.totalLessons stats ->
      exists z, EnrollmentStats.completionPercentage stats = JS.Fin z
                /\ 0 <= z <= 100)
  /\ EnrollmentStats.statsStudyTime stats
     = EnrollmentStats.statsStudyTime
         (EnrollmentStats.getCompletionStats db e) + watchTime
  /\ EnrollmentStats.lastAccessed stats = Enrollment.atAccess clock.
Proof.
  intros Hnot Hfound Htotal. cbv zeta.
  pose proof (markLessonCompleted_appends db clock lessonId watchTime score e
                Hnot) as Happ.
  rewrite (markLessonCompleted_new db clock lessonId watchTime score e
             current Hnot Hfound) in *.
  cbn [JS.stateOf] in *. cbv zeta in *.
  set (pushed := match Lesson.getNextLesson db current with
                 | Some nextLesson => _
                 | None => _
                 end) in *.
  assert (Enrollment.course pushed = Enrollment.course e
          /\ Enrollment.completedLessons pushed
             = Enrollment.completedLessons e
                 ++ [Enrollment.mkCompletedLesson lessonId
                       (Enrollment.atPush clock) watchTime score])
    as [Hcourse Hlessons]
    by (subst pushed; destruct (Lesson.getNextLesson db current);
        now split).
  rewrite <- Hcourse in Htotal.
  destruct (updateProgress_recomputed db clock pushed Htotal)
    as (Hc & Hp & Ha).
  unfold EnrollmentStats.getCompletionStats, EnrollmentStats.totalStudyTime.
  cbn [EnrollmentStats.totalLessons EnrollmentStats.completedLessons
       EnrollmentStats.completionPercentage EnrollmentStats.statsStudyTime
       EnrollmentStats.lastAccessed].
  rewrite Hc, Hp, Ha, Happ, Hcourse, Hlessons.
  rewrite length_app, fold_left_app. cbn [List.length fold_left].
  rewrite orDefault_zero. rewrite <- Hcourse.
  split; [reflexivity | split; [lia | split; [reflexivity |]]].
  split; [| split; [reflexivity | reflexivity]].
  intros Hle. apply roundedPercent_bounds; [lia | exact Htotal].
Qed.

Lemma getCompletionStats_after_completion_witness :
  EnrollmentStats.completionPercentage
    (EnrollmentStats.getCompletionStats Sample.fourLessons
       (JS.stateOf
          (Enrollment.markLessonCompleted Sample.fourLessons
             (Sample.clock 1000) "5f1a00000000000000000013"%string 90 None
             Sample.twoDone)))
  = JS.Fin 75.
Proof.
  destruct (getCompletionStats_after_completion Sample.fourLessons
              (Sample.clock 1000) "5f1a00000000000000000013"%string 90 None
              Sample.twoDone
              (Sample.lessonAt 3 "5f1a00000000000000000013"%string)
              eq_refl eq_refl eq_refl) as (Htotal & Hdone & Hpercent & _).
  rewrite Hpercent, Hdone, Htotal. vm_compute. reflexivity.
Defined.

Lemma filter_disjoint {A : Type} (f g : A -> bool) (l : list A) :
  (forall x, g x = true -> f x = false) ->
  filter f (filter g l) = [].
Proof.
  intros Hfg. induction l as [| x l IH]; cbn; [reflexivity |].
  destruct (g x) eqn:Hg; [| exact IH].
  cbn. now rewrite (Hfg x Hg).
Qed.

(** X19.  The overall statistics of [getUserProgress] are computed from
    the active enrollments of the user alone: an enrollment of any other
    status, a completed one included, adds nothing to any of the three
    numbers, and [completedCourses] is 0 whatever the user has
    completed. *)
Theorem getUserProgress_active_only (all : list Enrollment.t)
    (userId : ObjectId) :
  UsersController.completedCourses
    (UsersController.getUserProgress all userId) = 0
  /\ (forall e,
        Enrollment.status e <> Enrollment.active ->
        UsersController.getUserProgress (e :: all) userId
        = UsersController.getUserProgress all userId)
  /\ (forall e,
        Enrollment.status e = Enrollment.active ->
        Enrollment.student e = userId ->
        UsersController.totalCourses
          (UsersController.getUserProgress (all ++ [e]) userId)
        = UsersController.totalCourses
            (UsersController.getUserProgress all userId) + 1
        /\ UsersController.totalStudyTime
             (UsersController.getUserProgress (all ++ [e]) userId)
           = UsersController.totalStudyTime
               (UsersController.getUserProgress all userId)
             + EnrollmentStats.totalStudyTime e).
Proof.
  unfold UsersController.getUserProgress. cbv zeta.
  cbn [UsersController.completedCourses UsersController.totalCourses
       UsersController.totalStudyTime].
  split; [| split].
  - rewrite filter_disjoint; [reflexivity |].
    intros x Hx. apply andb_true_iff in Hx as [_ Hactive].
    now destruct (Enrollment.status x).
  - intros e Hstatus. cbn [filter].
    replace (Enrollment.Status_eqb (Enrollment.status e) Enrollment.active)
      with false by (destruct (Enrollment.status e); try reflexivity;
                     now contradiction Hstatus).
    now rewrite andb_false_r.
  - intros e Hstatus Hstudent. rewrite filter_app. cbn [filter].
    rewrite Hstatus, Hstudent, String.eqb_refl. cbn [andb Enrollment.Status_eqb].
    rewrite length_app, fold_left_app. cbn [List.length fold_left].
    split; lia.
Qed.

Lemma getUserProgress_active_only_witness :
  UsersController.getUserProgress
    [Enrollment.set_status Enrollment.completed Sample.twoDone]
    Sample.studentId
  = UsersController.getUserProgress [] Sample.studentId.
Proof.
  destruct (getUserProgress_active_only [] Sample.studentId)
    as (_ & Hother & _).
  apply Hother. discriminate.
Defined.

Lemma fold_max_spec (rest : list Z) (x : Z) :
  (forall y, In y (x :: rest) -> y <= fold_left Z.max rest x)
  /\ In (fold_left Z.max rest x) (x :: rest).
Proof.
  revert x. induction rest as [| z rest IH]; intros x.
  - split; [intros y [<- | []]; cbn; lia | now left].
  - cbn [fold_left]. destruct (IH (Z.max x z)) as [Hle Hin]. split.
    + intros y [<- | [<- | Hy]].
      * specialize (Hle (Z.max x z) (or_introl eq_refl)). lia.
      * specialize (Hle (Z.max x z) (or_introl eq_refl)). lia.
      * apply Hle. now right.
    + destruct Hin as [E | Hin].
      * rewrite <- E. destruct (Z.max_spec x z) as [[_ ->] | [_ ->]].
        -- right. now left.
        -- now left.
      * right. now right.
Qed.

(** X20.  [getUserCourseProgress] for a user with at least one progress
    document in the course: the documents reported are exactly the user's
    documents of that course, [lastAccessedAt] is a finite time, the
    latest among them, [completedLessons] is the number of completed ones
    among them, and [overallProgress] is
    [Math.round((completedLessons / totalLessons) * 100)] over the
    published lessons of the course, 0 when there is none. *)
Theorem getUserCourseProgress_recent (lessonDb : Lesson.Collection)
    (progressDb : list Progress.t) (userId courseId : ObjectId)
    (mine : Progress.t) :
  In mine progressDb ->
  Progress.user mine = userId ->
  Progress.course mine = courseId ->
  let summary :=
    Progress.getUserCourseProgress lessonDb progressDb userId courseId in
  (forall p, In p (Progress.progressData summary)
             <-> In p progressDb /\ Progress.user p = userId
                 /\ Progress.course p = courseId)
  /\ (exists latest,
        In latest (Progress.progressData summary)
        /\ Progress.s_lastAccessedAt summary
           = JS.Fin (Progress.lastAccessedAt latest)
        /\ forall p, In p (Progress.progressData summary) ->
                     Progress.lastAccessedAt p
                     <= Progress.lastAccessedAt latest)
  /\ Progress.completedLessons summary
     = Z.of_nat (List.length
         (filter (fun p => Progress.Status_eqb (Progress.status p)
                             Progress.completed)
            (Progress.progressData summary)))
  /\ Progress.totalLessons summary = Lesson.countPublished lessonDb courseId
  /\ Progress.overallProgress summary
     = (if Progress.totalLessons summary =? 0 then JS.Fin 0
        else JS.roundedPercent (Progress.completedLessons summary)
               (Progress.totalLessons summary)).
Proof.
  intros Hin Huser Hcourse. cbv zeta. unfold Progress.getUserCourseProgress.
  cbn [Progress.progressData Progress.s_lastAccessedAt
       Progress.completedLessons Progress.totalLessons
       Progress.overallProgress].
  set (data := filter _ progressDb).
  assert (forall p, In p data
                    <-> In p progressDb /\ Progress.user p = userId
                        /\ Progress.course p = courseId) as Hdata.
  { intros p. subst data.
    rewrite filter_In, andb_true_iff, !String.eqb_eq. tauto. }
  split; [exact Hdata |]. split; [| split; [| split]].
  - assert (In mine data) as Hmine by (apply Hdata; now repeat split).
    destruct data as [| first rest]; [contradiction |].
    rewrite <- (map_map Progress.lastAccessedAt JS.Fin).
    cbn [map].
    change (JS.Fin (Progress.lastAccessedAt first)
            :: map JS.Fin (map Progress.lastAccessedAt rest))
      with (map JS.Fin (Progress.lastAccessedAt first
                        :: map Progress.lastAccessedAt rest)).
    rewrite Math_max_spread_cons.
    destruct (fold_max_spec (map Progress.lastAccessedAt rest)
                (Progress.lastAccessedAt first)) as [Hle Hattained].
    change (Progress.lastAccessedAt first
            :: map Progress.lastAccessedAt rest)
      with (map Progress.lastAccessedAt (first :: rest)) in *.
    apply in_map_iff in Hattained as (latest & Hlatest & Hin').
    exists latest. split; [exact Hin' |]. rewrite Hlatest.
    split; [reflexivity |].
    intros p Hp. apply Hle. now apply in_map.
  - reflexivity.
  - reflexivity.
  - set (total := Z.of_nat (List.length (filter _ lessonDb))).
    destruct (Z.ltb_spec 0 total); destruct (Z.eqb_spec total 0);
      try lia; reflexivity.
Qed.

Lemma getUserCourseProgress_recent_witness :
  Progress.s_lastAccessedAt
    (Progress.getUserCourseProgress Sample.fourLessons Sample2.twoRecords
       Sample.studentId Sample.courseId)
  = JS.Fin 2500.
Proof.
  destruct (getUserCourseProgress_recent Sample.fourLessons
              Sample2.twoRecords Sample.studentId Sample.courseId
              Sample.markedDone (or_introl eq_refl) eq_refl eq_refl)
    as (_ & (latest & Hin & Hlatest & Hle) & _).
  rewrite Hlatest. f_equal.
  assert (2500 <= Progress.lastAccessedAt latest) as Hlower
    by (apply (Hle (Progress.create Sample.studentId Sample.courseId
                      "5f1a00000000000000000012"%string 2500));
        right; now left).
  destruct Hin as [<- | [<- | []]]; [| reflexivity].
  vm_compute in Hlower. now contradiction Hlower.
Defined.
